(** * ChromaRecall: the color-memory game engine

    A shallow embedding of the game logic of the ChromaRecall React
    component ([src/components/color-memory-game.tsx] and its earlier
    revisions), with the properties of its difficulty curve, scoring,
    combo and close-match bookkeeping, selection guard and swatch renderer.

    Numbers.  A JavaScript number that the code only ever uses as an integer
    (level, score, seconds, counters, points) is a [Z]; a number that takes
    fractional values (similarity, colour difference, time bonus, combo
    multiplier, performance rating) is a rational [Q], compared with [==].
    [Math.max] and [Math.min] are [Z.max]/[Z.min] on the former and
    [Qmax]/[Qmin] on the latter.  The game logic is embedded with exact
    arithmetic on [Q].  The code rounds every operation to the nearest
    double: [Double] is that arithmetic, the similarity threshold is given
    in it as well, and what depends on the rounding is stated there (the
    values of the threshold, and the one level at which the tolerance of a
    close match sits on the bound of an exact match).  The statements on the
    game logic take the classification of a pick as given or hold of every
    classification.

    State.  The [useState] cells of the component form one record.  A
    callback reads the values of the render that created it and writes
    through the setters, so it is a function of that render (its snapshot)
    to an update of the store. *)

From Stdlib Require Import ZArith QArith Qround Qminmax Qpower Qabs Lia Lqa.
From Stdlib Require PrimFloat FloatOps SpecFloat Uint63.
From Stdlib Require Import List String Bool DecimalString.
Import ListNotations.

Open Scope Z_scope.

(** ** JavaScript's [Math] functions on rationals *)

Module Math.

(** [Math.floor(x)] *)
Definition floor (x : Q) : Z := Qfloor x.

(** [Math.round(x)]: the nearest integer, a tie going up. *)
Definition round (x : Q) : Z := Qfloor (x + (1 # 2)).

End Math.

(** [a < b] on rationals, as a boolean. *)
Definition Qltb (a b : Q) : bool := negb (Qle_bool b a).

(** ** Difficulty model *)

Record Difficulty : Type := mkDifficulty {
  colorCount : Z;
  similarity : Q;
  viewTime : Z;
  selectionTime : Z
}.

(** [calculateDifficulty(level, performanceRating)], as the component
    defines it, in exact arithmetic.  The count of colors and, at the
    neutral rating, the selection time are integers, the same in doubles;
    [Double.similarity] is the similarity in doubles.  The rating is
    positive (the component keeps it between 0.9 and 1.1): at a rating of 0
    the division of the code gives [Infinity], the division of [Q] gives
    0. *)
Definition calculateDifficulty (level : Z) (performanceRating : Q) : Difficulty :=
  (* Color count calculation *)
  let baseColorCount := 3 in
  let additionalColors := Math.floor (inject_Z level / 10)%Q in
  let colorCount := Z.min 10 (baseColorCount + additionalColors) in
  (* Similarity calculation *)
  let similarity : Q :=
    if level <=? 10 then (0.7 + inject_Z level * 0.01)%Q
    else if level <=? 30 then (0.8 + inject_Z (level - 10) * 0.005)%Q
    else if level <=? 50 then (0.9 + inject_Z (level - 30) * 0.003)%Q
    else (0.96 + inject_Z (level - 50) * 0.0005)%Q in
  let similarity := Qmin 0.99 (similarity * performanceRating) in
  (* Selection time calculation *)
  let selectionTime :=
    if level <=? 10 then 15
    else if level <=? 80
         then Z.max 2 (15 - Math.floor (inject_Z (level - 10) / 5)%Q)
         else 2 in
  let selectionTime :=
    Z.max 2 (Math.round (inject_Z selectionTime / performanceRating)%Q) in
  let viewTime := 3 in
  mkDifficulty colorCount similarity viewTime selectionTime.

(** Modelled from the spec: the one-argument [calculateDifficulty] that the
    component of [src/components/color-memory-game.tsx] imports from
    [lib/color-utils], a file that is not among the sources.  Section 4.1 of
    the specification gives it as a function of the level alone with the
    formulas of the definition above: it is that definition at the neutral
    performance rating [1], the value every run starts from. *)
Definition difficulty (level : Z) : Difficulty := calculateDifficulty level 1.

(** ** Double-precision arithmetic

    The code computes with IEEE doubles.  A finite double is the rational
    it denotes, and an operation of the code is the exact operation followed
    by the rounding to the nearest double: 53 significant bits, a tie going
    to the even significand.  Overflow, subnormal numbers and NaN are out of
    reach of the numbers rounded below. *)

Module Double.

(** [2 ^ e] *)
Definition pow2 (e : Z) : Q := (2 ^ e)%Q.

(** The exponent of a positive number: the [e] with
    [2 ^ e <= x < 2 ^ (e + 1)]. *)
Definition exponent (x : Q) : Z :=
  let e := Z.log2 (Qnum x) - Z.log2 (Zpos (Qden x)) in
  if Qle_bool (pow2 e) x then e else e - 1.

(** The integer nearest to [q], a tie going to the even one. *)
Definition nearestEven (q : Q) : Z :=
  let f := Qfloor q in
  let r := (q - inject_Z f)%Q in
  if Qltb r (1 # 2) then f
  else if Qltb (1 # 2) r then f + 1
  else if Z.even f then f else f + 1.

(** The double nearest to a positive number. *)
Definition roundPositive (x : Q) : Q :=
  let ulp := pow2 (exponent x - 52) in
  Qred (inject_Z (nearestEven (x / ulp)) * ulp).

(** The double nearest to [x]. *)
Definition round (x : Q) : Q :=
  if Qltb 0 x then roundPositive x
  else if Qltb x 0 then (- roundPositive (- x))%Q
  else 0%Q.

(** [a + b], [a - b], [a * b] and [a / b] on doubles. *)
Definition add (a b : Q) : Q := round (a + b).
Definition sub (a b : Q) : Q := round (a - b).
Definition mul (a b : Q) : Q := round (a * b).
Definition div (a b : Q) : Q := round (a / b).

(** A decimal literal of the source denotes the double nearest to it. *)
Definition literal (q : Q) : Q := round q.

(** The similarity of [calculateDifficulty(level, performanceRating)], with
    every operation in double arithmetic.  The level is an integer (below
    [2 ^ 53]) and as such a double; [Math.min] is exact. *)
Definition similarity (level : Z) (performanceRating : Q) : Q :=
  let similarity :=
    if level <=? 10 then
      add (literal 0.7) (mul (inject_Z level) (literal 0.01))
    else if level <=? 30 then
      add (literal 0.8) (mul (sub (inject_Z level) 10) (literal 0.005))
    else if level <=? 50 then
      add (literal 0.9) (mul (sub (inject_Z level) 30) (literal 0.003))
    else
      add (literal 0.96) (mul (sub (inject_Z level) 50) (literal 0.0005)) in
  Qmin (literal 0.99) (mul similarity performanceRating).

(** The tolerance of a close match, [25 * (1 - similarity)], at the neutral
    performance rating. *)
Definition closeMatchTolerance (level : Z) : Q :=
  mul 25 (sub 1 (similarity level 1)).

End Double.

(** The same similarity on the binary64 numbers of the kernel, at the
    neutral performance rating, and the rational a binary64 number
    denotes. *)
Module Binary64.

Import PrimFloat.

#[warnings="-inexact-float"]
Definition similarity (level : Z) : float :=
  let l := of_uint63 (Uint63.of_Z level) in
  let similarity :=
    if level <=? 10 then (0.7 + l * 0.01)%float
    else if level <=? 30 then (0.8 + (l - 10) * 0.005)%float
    else if level <=? 50 then (0.9 + (l - 30) * 0.003)%float
    else (0.96 + (l - 50) * 0.0005)%float in
  let similarity := (similarity * 1)%float in
  (* Math.min(0.99, similarity) *)
  if (similarity <? 0.99)%float then similarity else 0.99%float.

Definition toQ (f : float) : option Q :=
  match FloatOps.Prim2SF f with
  | SpecFloat.S754_zero _ => Some 0%Q
  | SpecFloat.S754_finite s m e =>
      Some ((if s then -1 else 1) * inject_Z (Zpos m) * Double.pow2 e)%Q
  | _ => None
  end.

End Binary64.

(** ** Data model *)

Record GameState : Type := mkGameState {
  targetColor : string;
  options : list string;
  score : Z;
  level : Z;
  timeLeft : Z;
  isPlaying : bool;
  highScore : Z;
  closeMatches : Z
}.

Record LocalUserData : Type := mkLocalUserData {
  username : string;
  highestScore : Z
}.

Record ColorSelectionResult : Type := mkColorSelectionResult {
  gameOver : bool;
  feedbackMessage : string;
  isExactMatch : bool;
  totalPoints : Z;
  accuracyPoints : Z;
  speedPoints : Z
}.

(** What the color-pool collaborator returns: [{ target, options }]. *)
Module Colors.

Record t : Type := mk { target : string; options : list string }.

End Colors.

(** The outcome of an [async] function: the promise resolves with a value
    or is rejected because the body threw. *)
Inductive Promise (A : Type) : Type :=
| Resolved (a : A)
| Rejected.
Arguments Resolved {A} a.
Arguments Rejected {A}.

(** The React state of [ColorMemoryGame]: the [useState] cells of
    [useGameLogic], [useColorSelection] and of the component itself. *)
Record Component : Type := mkComponent {
  gameState : GameState;
  showTarget : bool;
  comboMultiplier : Q;
  isProcessingSelection : bool;
  showLossDialog : bool;
  isNewHighScore : bool;
  showUsernameInput : bool;
  localUserData : option LocalUserData;
  feedbackText : string;
  showFeedback : bool;
  exactMatch : bool
}.

(** A callback closes over the values of the render it was created in (the
    snapshot) and issues state updates; an [Update] is what it does to the
    store.  Updates compose in program order. *)
Definition Update : Type := Component -> Component.

Definition skip : Update := fun c => c.

Definition andThen (u1 u2 : Update) : Update := fun c => u2 (u1 c).
Infix ">>" := andThen (at level 61, left associativity).

(** The state setters. *)
Definition setGameState (f : GameState -> GameState) : Update := fun c =>
  mkComponent (f (gameState c)) (showTarget c) (comboMultiplier c)
    (isProcessingSelection c) (showLossDialog c) (isNewHighScore c)
    (showUsernameInput c) (localUserData c) (feedbackText c) (showFeedback c)
    (exactMatch c).

Definition setShowTarget (b : bool) : Update := fun c =>
  mkComponent (gameState c) b (comboMultiplier c)
    (isProcessingSelection c) (showLossDialog c) (isNewHighScore c)
    (showUsernameInput c) (localUserData c) (feedbackText c) (showFeedback c)
    (exactMatch c).

Definition setComboMultiplier (q : Q) : Update := fun c =>
  mkComponent (gameState c) (showTarget c) q
    (isProcessingSelection c) (showLossDialog c) (isNewHighScore c)
    (showUsernameInput c) (localUserData c) (feedbackText c) (showFeedback c)
    (exactMatch c).

Definition setIsProcessingSelection (b : bool) : Update := fun c =>
  mkComponent (gameState c) (showTarget c) (comboMultiplier c)
    b (showLossDialog c) (isNewHighScore c)
    (showUsernameInput c) (localUserData c) (feedbackText c) (showFeedback c)
    (exactMatch c).

Definition setShowLossDialog (b : bool) : Update := fun c =>
  mkComponent (gameState c) (showTarget c) (comboMultiplier c)
    (isProcessingSelection c) b (isNewHighScore c)
    (showUsernameInput c) (localUserData c) (feedbackText c) (showFeedback c)
    (exactMatch c).

Definition setIsNewHighScore (b : bool) : Update := fun c =>
  mkComponent (gameState c) (showTarget c) (comboMultiplier c)
    (isProcessingSelection c) (showLossDialog c) b
    (showUsernameInput c) (localUserData c) (feedbackText c) (showFeedback c)
    (exactMatch c).

Definition setShowUsernameInput (b : bool) : Update := fun c =>
  mkComponent (gameState c) (showTarget c) (comboMultiplier c)
    (isProcessingSelection c) (showLossDialog c) (isNewHighScore c)
    b (localUserData c) (feedbackText c) (showFeedback c)
    (exactMatch c).

Definition setLocalUserData (u : option LocalUserData) : Update := fun c =>
  mkComponent (gameState c) (showTarget c) (comboMultiplier c)
    (isProcessingSelection c) (showLossDialog c) (isNewHighScore c)
    (showUsernameInput c) u (feedbackText c) (showFeedback c)
    (exactMatch c).

Definition setFeedbackText (s : string) : Update := fun c =>
  mkComponent (gameState c) (showTarget c) (comboMultiplier c)
    (isProcessingSelection c) (showLossDialog c) (isNewHighScore c)
    (showUsernameInput c) (localUserData c) s (showFeedback c)
    (exactMatch c).

Definition setShowFeedback (b : bool) : Update := fun c =>
  mkComponent (gameState c) (showTarget c) (comboMultiplier c)
    (isProcessingSelection c) (showLossDialog c) (isNewHighScore c)
    (showUsernameInput c) (localUserData c) (feedbackText c) b
    (exactMatch c).

Definition setExactMatch (b : bool) : Update := fun c =>
  mkComponent (gameState c) (showTarget c) (comboMultiplier c)
    (isProcessingSelection c) (showLossDialog c) (isNewHighScore c)
    (showUsernameInput c) (localUserData c) (feedbackText c) (showFeedback c)
    b.

(** [updateGameState(updates)]: merges the updates into the previous game
    state.  A partial object is the function that overwrites its keys. *)
Definition updateGameState (updates : GameState -> GameState) : Update :=
  setGameState updates.

(** The initial values of the [useState] cells. *)
Definition initialGameState : GameState :=
  mkGameState EmptyString [] 0 1 3 false 0 0.

Definition initialComponent : Component :=
  mkComponent initialGameState false 1 false false false false None
    EmptyString false false.

(** ** Utility functions *)

Definition getCloseMatchLimit (level : Z) : Z := if level <=? 50 then 3 else 1.

Definition string_of_Z (z : Z) : string := NilZero.string_of_int (Z.to_int z).

(** [x.toFixed(1)] *)
Definition toFixed1 (x : Q) : string :=
  let digits (y : Q) :=
    let tenths := Math.round (y * 10)%Q in
    (string_of_Z (tenths / 10) ++ "." ++ string_of_Z (tenths mod 10))%string in
  if Qltb x 0 then ("-" ++ digits (- x)%Q)%string else digits x.

Definition formatCombo (combo : Q) : string := toFixed1 combo.

(** ** The game logic ([useGameLogic], [useColorSelection], the renderer)

    The collaborators of [lib/color-utils]: the perceptual colour distance
    and the color pool.  [generateGameColors level = None] stands for a call
    that throws.  Toasts, console output, [localStorage] and the score
    service are sinks and leave the component state alone. *)

Module Engine.

Section Game.

Variable calculateColorDifference : string -> string -> Q.
Variable generateGameColors : Z -> option Colors.t.

Definition endGame (lost : bool) : Update :=
  updateGameState (fun prev =>
    mkGameState EmptyString [] (score prev) (level prev) 3 false
      (highScore prev) (closeMatches prev)) >>
  setIsProcessingSelection false >>
  (if lost then setShowLossDialog true else skip).

(** [generateColors(level)] returns the collaborator's result (after logging
    a description of every option). *)
Definition generateColors (level : Z) : option Colors.t :=
  generateGameColors level.

Definition startGame : Update :=
  setIsProcessingSelection false >>
  match generateColors 1 with
  | Some colors =>
      if (Colors.target colors =? EmptyString)%string then
        (* throw new Error('Invalid colors generated') *)
        updateGameState (fun prev =>
          mkGameState EmptyString [] 0 1 3 false (highScore prev) 0)
      else
        updateGameState (fun prev =>
          mkGameState (Colors.target colors) (Colors.options colors)
            0 1 3 true (highScore prev) 0) >>
        setShowTarget true >>
        setComboMultiplier 1
  | None =>
      updateGameState (fun prev =>
        mkGameState EmptyString [] 0 1 3 false (highScore prev) 0)
  end.

(** [localUserData?.highestScore || 0] *)
Definition highestScoreOr0 (u : option LocalUserData) : Z :=
  match u with
  | Some d => highestScore d
  | None => 0
  end.

(** [handleGameEnd] of [useGameLogic]. *)
Definition handleGameEnd (snap : Component) (lost : bool) : Update :=
  let gameState := gameState snap in
  let localUserData := localUserData snap in
  endGame lost >>
  let newHighScore := score gameState >? highestScoreOr0 localUserData in
  setIsNewHighScore newHighScore >>
  match localUserData with
  | Some d =>
      if newHighScore then
        setLocalUserData (Some (mkLocalUserData (username d) (score gameState)))
      else skip
  | None => setShowUsernameInput true
  end >>
  setShowLossDialog true.

(** The local variables of [handleColorSelect] once the pick is classified
    and scored (up to the computation of [totalPoints]).  The pick is
    classified against the exact tolerance [25 * (1 - similarity)]; see
    [closeMatchTolerance_at_level_50] for the tolerance in doubles. *)
Record Scoring : Type := mkScoring {
  difference : Q;
  exact : bool;              (* isExactMatch *)
  close : bool;              (* isCloseMatch *)
  closeMatchLimit : Z;
  newCloseMatches : Z;
  newComboMultiplier : Q;
  over : bool;               (* gameOver *)
  message : string;          (* feedbackMessage *)
  accuracy : Z;              (* accuracyPoints *)
  speed : Z;                 (* speedPoints *)
  total : Z                  (* totalPoints *)
}.

Definition scoreSelection (snap : Component) (selectedColor : string) : Scoring :=
  let gameState := gameState snap in
  let comboMultiplier := comboMultiplier snap in
  let difference := calculateColorDifference (targetColor gameState) selectedColor in
  let selectionTime := selectionTime (difficulty (level gameState)) in
  let similarity := similarity (difficulty (level gameState)) in
  let timeBonus := Qmax 0 (inject_Z (timeLeft gameState) / inject_Z selectionTime) in
  let isExactMatch := Qltb difference 1 in
  let isCloseMatch := Qltb difference (25 * (1 - similarity)) in
  let newCloseMatches := closeMatches gameState in
  let closeMatchLimit := getCloseMatchLimit (level gameState) in
  (* Reset close matches every 10 levels *)
  let newCloseMatches :=
    if Z.rem (level gameState) 10 =? 0 then 0 else newCloseMatches in
  let '(newCloseMatches, newComboMultiplier, gameOver, feedbackMessage) :=
    if isExactMatch then
      let newComboMultiplier := Qmin 5 (comboMultiplier + 0.5) in
      (newCloseMatches, newComboMultiplier, false,
       ("Perfect! " ++ toFixed1 newComboMultiplier ++ "x Combo!")%string)
    else if isCloseMatch then
      let newCloseMatches := newCloseMatches + 1 in
      if newCloseMatches >? closeMatchLimit
      then (newCloseMatches, 1%Q, true, "Out of close matches!"%string)
      else (newCloseMatches, 1%Q, false, "Close enough!"%string)
    else
      (newCloseMatches, comboMultiplier, true, "Wrong color!"%string) in
  let accuracyPoints := Z.max 0 (100 - Math.round (difference * 1000)) in
  let speedPoints := Math.round (timeBonus * 50) in
  let totalPoints :=
    Math.round (inject_Z (accuracyPoints + speedPoints) * newComboMultiplier) in
  mkScoring difference isExactMatch isCloseMatch closeMatchLimit
    newCloseMatches newComboMultiplier gameOver feedbackMessage
    accuracyPoints speedPoints totalPoints.

(** [handleColorSelect(selectedColor)]: the promise it returns and the state
    updates it issued before settling. *)
Definition handleColorSelect (snap : Component) (selectedColor : string)
  : Promise (option ColorSelectionResult) * Update :=
  let gameState := gameState snap in
  if negb (isPlaying gameState) then (Resolved None, skip)
  else
    let s := scoreSelection snap selectedColor in
    let result :=
      mkColorSelectionResult (over s) (message s) (exact s)
        (total s) (accuracy s) (speed s) in
    if over s then
      (Resolved (Some result),
       updateGameState (fun prev =>
         mkGameState (targetColor prev) (options prev) (score prev)
           (level prev) (timeLeft prev) false (highScore prev)
           (newCloseMatches s)) >>
       handleGameEnd snap true >>
       setComboMultiplier (newComboMultiplier s))
    else
      match generateColors (level gameState + 1) with
      | None => (Rejected, skip)
      | Some newColors =>
          (Resolved (Some result),
           updateGameState (fun prevState =>
             mkGameState (Colors.target newColors) (Colors.options newColors)
               (score prevState + total s) (level prevState + 1) 3
               (isPlaying prevState) (highScore prevState)
               (newCloseMatches s)) >>
           setShowTarget true >>
           setComboMultiplier (newComboMultiplier s))
      end.

(** The timer callback [runTimer], fired once per second while playing. *)
Definition runTimer (snap : Component) : Update :=
  let gameState := gameState snap in
  if isPlaying gameState then
    if timeLeft gameState >? 1 then
      updateGameState (fun prevState =>
        mkGameState (targetColor prevState) (options prevState)
          (score prevState) (level prevState) (timeLeft prevState - 1)
          (isPlaying prevState) (highScore prevState) (closeMatches prevState))
    else if showTarget snap then
      setShowTarget false >>
      let selectionTime := selectionTime (difficulty (level gameState)) in
      updateGameState (fun prevState =>
        mkGameState (targetColor prevState) (options prevState)
          (score prevState) (level prevState) selectionTime
          (isPlaying prevState) (highScore prevState) (closeMatches prevState))
    else handleGameEnd snap true
  else skip.

(** [updateUserData(username, newScore)] of the component. *)
Definition updateUserData (snap : Component) (username : string) (newScore : Z)
  : Update :=
  setLocalUserData
    (Some (mkLocalUserData username
             (Z.max (highestScoreOr0 (localUserData snap)) newScore))).

(** [handleGameEnd] of the component, which wraps the hook's. *)
Definition handleGameEndOfComponent (snap : Component) (lost : bool) : Update :=
  let gameState := gameState snap in
  handleGameEnd snap lost >>
  (if score gameState >? 0 then
     match localUserData snap with
     | Some d =>
         if (username d =? EmptyString)%string then setShowUsernameInput true
         else
           let isNewHighScore := score gameState >? highestScore d in
           updateUserData snap (username d) (score gameState) >>
           (* after saveScore resolves; the hook's handler has set the
              flag already *)
           (if isNewHighScore then setIsNewHighScore true else skip)
     | None => setShowUsernameInput true
     end
   else skip) >>
  setShowLossDialog true.

(** [handleColorSelection] of [useColorSelection], in its two stages: the
    synchronous part, which raises the processing flag and runs
    [handleColorSelect], and the promise callbacks ([then], [catch],
    [finally]) that run when the promise has settled. *)
Definition selectionStarted (snap : Component) (selectedColor : string) : Update :=
  setIsProcessingSelection true >>
  snd (handleColorSelect snap selectedColor).

Definition selectionSettled (snap : Component) (selectedColor : string) : Update :=
  match fst (handleColorSelect snap selectedColor) with
  | Resolved (Some result) =>
      setExactMatch (isExactMatch result) >>
      setFeedbackText (feedbackMessage result) >>
      setShowFeedback true >>
      (if gameOver result then handleGameEndOfComponent snap true else skip)
  | Resolved None => skip
  | Rejected =>
      (* console.error("Error during color selection:", error) *)
      handleGameEndOfComponent snap true
  end >>
  setIsProcessingSelection false.

Definition handleColorSelection (snap : Component) (selectedColor : string)
  : Update :=
  if isProcessingSelection snap || negb (isPlaying (gameState snap)) then skip
  else selectionStarted snap selectedColor >> selectionSettled snap selectedColor.

(** ** The renderer *)

(** [array.slice(start, end)] for indices within the array. *)
Definition slice {A : Type} (l : list A) (start end_ : nat) : list A :=
  skipn start (firstn end_ l).

(** The colors of the swatches in the options grid. *)
Definition renderedOptions (snap : Component) : list string :=
  let options := options (gameState snap) in
  slice options 0 (Nat.min 6 (List.length options)).

(** The [onClick] of a swatch of the grid. *)
Definition onClick (snap : Component) (color : string) : Update :=
  if negb (isProcessingSelection snap) && isPlaying (gameState snap)
  then handleColorSelection snap color
  else skip.

(** A click on the swatch at position [index] of the grid; the grid is on
    screen while playing with the target hidden. *)
Definition clickSwatch (snap : Component) (index : nat) : Update :=
  if isPlaying (gameState snap) && negb (showTarget snap) then
    match nth_error (renderedOptions snap) index with
    | Some color => onClick snap color
    | None => skip
    end
  else skip.

(** An event runs a callback of the current render on the current state. *)
Definition dispatch (callback : Component -> Update) (c : Component) : Component :=
  callback c c.

(** The engine's [select] operation: the renderer hands a color to
    [handleColorSelection]. *)
Definition select (color : string) : Component -> Component :=
  dispatch (fun snap => handleColorSelection snap color).

(** [handlePlayAgain] of the component. *)
Definition handlePlayAgain : Update :=
  setShowLossDialog false >>
  setIsProcessingSelection false >>
  startGame.

(** ** The component as a state machine

    What can happen to the component.  The username dialog and the stored
    user data only write [localUserData] and [showUsernameInput] and call
    [handlePlayAgain]; they appear as the writes they make.  The model lets
    every event happen in every state, which the component does not. *)
Inductive Event : Type :=
| StartGame                                   (* the button of GameIntro *)
| PlayAgain                                   (* the button of the loss dialog *)
| Tick                                        (* the interval of the timer effect *)
| ClickSwatch (index : nat)                   (* a swatch of the options grid *)
| FeedbackTimeout                             (* setTimeout(() => setShowFeedback(false), 1000) *)
| LossDialogOpenChange (open : bool)          (* onOpenChange={setShowLossDialog} *)
| StoreUserData (u : option LocalUserData)    (* setLocalUserData(...) *)
| UsernameInputChange (show : bool).          (* setShowUsernameInput(...) *)

Definition step (e : Event) (c : Component) : Component :=
  match e with
  | StartGame => startGame c
  | PlayAgain => handlePlayAgain c
  | Tick => dispatch runTimer c
  | ClickSwatch index => dispatch (fun snap => clickSwatch snap index) c
  | FeedbackTimeout => setShowFeedback false c
  | LossDialogOpenChange open => setShowLossDialog open c
  | StoreUserData u => setLocalUserData u c
  | UsernameInputChange show => setShowUsernameInput show c
  end.

(** The state after a sequence of events, the first event first. *)
Definition run (events : list Event) (c : Component) : Component :=
  fold_left (fun c e => step e c) events c.

(** The states the component can be in: those a sequence of events leads to
    from the initial values of its state cells. *)
Definition reachable (c : Component) : Prop :=
  exists events, c = run events initialComponent.

(** [n] ticks of the timer in a row. *)
Definition ticks (n : nat) (c : Component) : Component :=
  Nat.iter n (dispatch runTimer) c.

End Game.

End Engine.

Import Engine.

(** ** The earlier revisions of the component

    The two earlier revisions of [color-memory-game.tsx] among the sources
    keep the close-match count, the ten-level block of the last selection
    and a performance rating in state cells of their own, and get the
    colors of the next round from a worker.  Their game-state object has no
    [closeMatches] key: that field of [GameState] is carried along
    untouched.  The cells of the leaderboard and of the username input are
    left out, and so is [optimisticHighScore], which only [endGame] of the
    first revision writes. *)

(** The game-state objects the earlier revisions build with a spread. *)

(** [{ ...prev, isPlaying: false }] *)
Definition stopPlaying (prev : GameState) : GameState :=
  mkGameState (targetColor prev) (options prev) (score prev) (level prev)
    (timeLeft prev) false (highScore prev) (closeMatches prev).

(** [{ ...prev, isPlaying: true, score: 0, level: 1, timeLeft: 3,
       targetColor: colors.target, options: colors.options }] *)
Definition firstRound (colors : Colors.t) (prev : GameState) : GameState :=
  mkGameState (Colors.target colors) (Colors.options colors) 0 1 3 true
    (highScore prev) (closeMatches prev).

(** [{ ...prev, score: prev.score + totalPoints, level: newLevel,
       timeLeft: 3, targetColor: colors.target, options: colors.options }] *)
Definition nextRound (newLevel : Z) (colors : Colors.t) (totalPoints : Z)
  (prev : GameState) : GameState :=
  mkGameState (Colors.target colors) (Colors.options colors)
    (score prev + totalPoints) newLevel 3 (isPlaying prev)
    (highScore prev) (closeMatches prev).

(** [{ ...prev, timeLeft: t }] *)
Definition setClock (t : Z) (prev : GameState) : GameState :=
  mkGameState (targetColor prev) (options prev) (score prev) (level prev)
    t (isPlaying prev) (highScore prev) (closeMatches prev).

Module Rated.

Record Component : Type := mkComponent {
  gameState : GameState;
  isLoading : bool;
  showTarget : bool;
  showLossDialog : bool;
  isNewHighScore : bool;
  showUsernameInput : bool;
  localUserData : option LocalUserData;
  feedbackText : string;
  showFeedback : bool;
  exactMatch : bool;
  performanceRating : Q;
  closeMatches : Z;
  levelStarted : Z;
  comboMultiplier : Q;
  isProcessingSelection : bool
}.

Definition Update : Type := Component -> Component.

Definition skip : Update := fun c => c.

Definition andThen (u1 u2 : Update) : Update := fun c => u2 (u1 c).
#[local] Infix ">>>" := andThen (at level 61, left associativity).

(** The state setters; each takes the function of the previous value. *)
Definition setGameState (f : GameState -> GameState) : Update := fun c =>
  mkComponent (f (gameState c)) (isLoading c) (showTarget c)
    (showLossDialog c) (isNewHighScore c) (showUsernameInput c)
    (localUserData c) (feedbackText c) (showFeedback c) (exactMatch c)
    (performanceRating c) (closeMatches c) (levelStarted c)
    (comboMultiplier c) (isProcessingSelection c).

Definition setIsLoading (b : bool) : Update := fun c =>
  mkComponent (gameState c) b (showTarget c)
    (showLossDialog c) (isNewHighScore c) (showUsernameInput c)
    (localUserData c) (feedbackText c) (showFeedback c) (exactMatch c)
    (performanceRating c) (closeMatches c) (levelStarted c)
    (comboMultiplier c) (isProcessingSelection c).

Definition setShowTarget (b : bool) : Update := fun c =>
  mkComponent (gameState c) (isLoading c) b
    (showLossDialog c) (isNewHighScore c) (showUsernameInput c)
    (localUserData c) (feedbackText c) (showFeedback c) (exactMatch c)
    (performanceRating c) (closeMatches c) (levelStarted c)
    (comboMultiplier c) (isProcessingSelection c).

Definition setShowLossDialog (b : bool) : Update := fun c =>
  mkComponent (gameState c) (isLoading c) (showTarget c)
    b (isNewHighScore c) (showUsernameInput c)
    (localUserData c) (feedbackText c) (showFeedback c) (exactMatch c)
    (performanceRating c) (closeMatches c) (levelStarted c)
    (comboMultiplier c) (isProcessingSelection c).

Definition setIsNewHighScore (b : bool) : Update := fun c =>
  mkComponent (gameState c) (isLoading c) (showTarget c)
    (showLossDialog c) b (showUsernameInput c)
    (localUserData c) (feedbackText c) (showFeedback c) (exactMatch c)
    (performanceRating c) (closeMatches c) (levelStarted c)
    (comboMultiplier c) (isProcessingSelection c).

Definition setShowUsernameInput (b : bool) : Update := fun c =>
  mkComponent (gameState c) (isLoading c) (showTarget c)
    (showLossDialog c) (isNewHighScore c) b
    (localUserData c) (feedbackText c) (showFeedback c) (exactMatch c)
    (performanceRating c) (closeMatches c) (levelStarted c)
    (comboMultiplier c) (isProcessingSelection c).

Definition setFeedbackText (s : string) : Update := fun c =>
  mkComponent (gameState c) (isLoading c) (showTarget c)
    (showLossDialog c) (isNewHighScore c) (showUsernameInput c)
    (localUserData c) s (showFeedback c) (exactMatch c)
    (performanceRating c) (closeMatches c) (levelStarted c)
    (comboMultiplier c) (isProcessingSelection c).

Definition setShowFeedback (b : bool) : Update := fun c =>
  mkComponent (gameState c) (isLoading c) (showTarget c)
    (showLossDialog c) (isNewHighScore c) (showUsernameInput c)
    (localUserData c) (feedbackText c) b (exactMatch c)
    (performanceRating c) (closeMatches c) (levelStarted c)
    (comboMultiplier c) (isProcessingSelection c).

Definition setExactMatch (b : bool) : Update := fun c =>
  mkComponent (gameState c) (isLoading c) (showTarget c)
    (showLossDialog c) (isNewHighScore c) (showUsernameInput c)
    (localUserData c) (feedbackText c) (showFeedback c) b
    (performanceRating c) (closeMatches c) (levelStarted c)
    (comboMultiplier c) (isProcessingSelection c).

Definition setPerformanceRating (f : Q -> Q) : Update := fun c =>
  mkComponent (gameState c) (isLoading c) (showTarget c)
    (showLossDialog c) (isNewHighScore c) (showUsernameInput c)
    (localUserData c) (feedbackText c) (showFeedback c) (exactMatch c)
    (f (performanceRating c)) (closeMatches c) (levelStarted c)
    (comboMultiplier c) (isProcessingSelection c).

Definition setCloseMatches (f : Z -> Z) : Update := fun c =>
  mkComponent (gameState c) (isLoading c) (showTarget c)
    (showLossDialog c) (isNewHighScore c) (showUsernameInput c)
    (localUserData c) (feedbackText c) (showFeedback c) (exactMatch c)
    (performanceRating c) (f (closeMatches c)) (levelStarted c)
    (comboMultiplier c) (isProcessingSelection c).

Definition setLevelStarted (z : Z) : Update := fun c =>
  mkComponent (gameState c) (isLoading c) (showTarget c)
    (showLossDialog c) (isNewHighScore c) (showUsernameInput c)
    (localUserData c) (feedbackText c) (showFeedback c) (exactMatch c)
    (performanceRating c) (closeMatches c) z
    (comboMultiplier c) (isProcessingSelection c).

Definition setComboMultiplier (q : Q) : Update := fun c =>
  mkComponent (gameState c) (isLoading c) (showTarget c)
    (showLossDialog c) (isNewHighScore c) (showUsernameInput c)
    (localUserData c) (feedbackText c) (showFeedback c) (exactMatch c)
    (performanceRating c) (closeMatches c) (levelStarted c)
    q (isProcessingSelection c).

Definition setIsProcessingSelection (b : bool) : Update := fun c =>
  mkComponent (gameState c) (isLoading c) (showTarget c)
    (showLossDialog c) (isNewHighScore c) (showUsernameInput c)
    (localUserData c) (feedbackText c) (showFeedback c) (exactMatch c)
    (performanceRating c) (closeMatches c) (levelStarted c)
    (comboMultiplier c) b.

(** What becomes of the promise of [generateColorsWithWorker]: the worker
    answers with colors; nothing ever answers (there is no worker, or it
    stays silent) and the promise stays pending; or posting the message
    throws and the promise is rejected. *)
Inductive Reply : Type :=
| Answer (colors : Colors.t)
| NoAnswer
| PostFailed.

(** [endGame(lost)], the same in both revisions.  Saving the score in the
    background is a message to a worker. *)
Definition endGame (snap : Component) (lost : bool) : Update :=
  (fun c =>
     let prev := gameState c in
     let newHighScore := score prev >? highestScoreOr0 (localUserData snap) in
     (setIsNewHighScore newHighScore >>> setGameState stopPlaying) c) >>>
  match localUserData snap with
  | None => setShowUsernameInput true
  | Some _ => skip
  end >>>
  (if lost then setShowLossDialog true else skip).

(** [similarityThreshold] of [handleColorSelect]: the distance from which a
    pick is a mismatch. *)
Definition mismatchThreshold (level : Z) : Q :=
  0.1 - inject_Z (Z.min level 50) * 0.001.

(** The revision without a selection guard. *)
Module Unguarded.

Section Handlers.

Variable calculateColorDifference : string -> string -> Q.
Variable generateColorsWithWorker : Z -> Q -> Reply.

Definition startGame : Update :=
  setIsLoading true >>>
  match generateColorsWithWorker 1 1 with
  | Answer colors =>
      setGameState (firstRound colors) >>>
      setShowTarget true >>>
      setIsLoading false >>>
      setShowLossDialog false >>>
      setComboMultiplier 1 >>>
      setCloseMatches (fun _ => 0) >>>
      setLevelStarted 0 >>>
      setPerformanceRating (fun _ => 1%Q)
  | NoAnswer | PostFailed => skip
  end.

Definition handleColorSelect (snap : Component) (selectedColor : string)
  : Update :=
  let gameState := gameState snap in
  let performanceRating := performanceRating snap in
  let closeMatches := closeMatches snap in
  let comboMultiplier := comboMultiplier snap in
  let difference := calculateColorDifference (targetColor gameState) selectedColor in
  let selectionTime :=
    selectionTime (calculateDifficulty (level gameState) performanceRating) in
  let timeBonus := Qmax 0 (inject_Z (timeLeft gameState) / inject_Z selectionTime) in
  let similarityThreshold := mismatchThreshold (level gameState) in
  let isExactMatch := Qltb difference 0.01 in
  setExactMatch isExactMatch >>>
  (* Check if we've exceeded the close match limit *)
  let closeMatchLimit := if level gameState <=? 50 then 3 else 1 in
  let currentTenLevelBlock := Math.floor (inject_Z (level gameState) / 10) in
  (if negb (levelStarted snap =? currentTenLevelBlock) then
     setLevelStarted currentTenLevelBlock >>> setCloseMatches (fun _ => 0)
   else skip) >>>
  if negb isExactMatch && (closeMatches >=? closeMatchLimit) then
    setFeedbackText "Game Over! Too many close matches."%string >>>
    endGame snap true
  else if Qle_bool similarityThreshold difference then
    setFeedbackText "Game Over! Color mismatch."%string >>>
    endGame snap true
  else
    (if negb isExactMatch then
       setCloseMatches (fun prev => prev + 1) >>>
       setPerformanceRating (fun prev => Qmax 0.9 (prev - 0.02))
     else
       setPerformanceRating (fun prev => Qmin 1.1 (prev + 0.01))) >>>
    let newComboMultiplier :=
      if isExactMatch then Qmin 5 (comboMultiplier + 0.5) else 1%Q in
    setComboMultiplier newComboMultiplier >>>
    let accuracyPoints := Z.max 0 (100 - Math.round (difference * 1000)) in
    let speedPoints := Math.round (timeBonus * 50) in
    let totalPoints :=
      Math.round (inject_Z (accuracyPoints + speedPoints) * newComboMultiplier) in
    setFeedbackText
      (if isExactMatch
       then "Perfect! " ++ toFixed1 newComboMultiplier ++ "x Combo!"
       else "Close enough!")%string >>>
    setShowFeedback true >>>
    let newLevel := level gameState + 1 in
    match generateColorsWithWorker newLevel performanceRating with
    | Answer colors =>
        setGameState (nextRound newLevel colors totalPoints) >>>
        setShowTarget true
    | NoAnswer | PostFailed => skip
    end.

End Handlers.

End Unguarded.

(** The revision with the processing flag. *)
Module Guarded.

(** The local variables of [handleColorSelect] once the pick is judged. *)
Record Judgement : Type := mkJudgement {
  difference : Q;
  isExactMatch : bool;
  currentTenLevelBlock : Z;
  newCloseMatches : Z;
  newPerformanceRating : Q;
  newComboMultiplier : Q;
  gameOver : bool;
  feedbackMessage : string;
  accuracyPoints : Z;
  speedPoints : Z;
  totalPoints : Z
}.

Section Handlers.

Variable calculateColorDifference : string -> string -> Q.
Variable generateColorsWithWorker : Z -> Q -> Reply.

Definition startGame : Update :=
  setIsLoading true >>>
  match generateColorsWithWorker 1 1 with
  | Answer colors =>
      setGameState (firstRound colors) >>>
      setShowTarget true >>>
      setComboMultiplier 1 >>>
      setCloseMatches (fun _ => 0) >>>
      setLevelStarted 0 >>>
      setPerformanceRating (fun _ => 1%Q) >>>
      setShowLossDialog false >>>
      setIsLoading false
  | PostFailed => setIsLoading false
  | NoAnswer => skip
  end.

Definition judge (snap : Component) (selectedColor : string) : Judgement :=
  let gameState := gameState snap in
  let performanceRating := performanceRating snap in
  let closeMatches := closeMatches snap in
  let comboMultiplier := comboMultiplier snap in
  let difference := calculateColorDifference (targetColor gameState) selectedColor in
  let selectionTime :=
    selectionTime (calculateDifficulty (level gameState) performanceRating) in
  let timeBonus := Qmax 0 (inject_Z (timeLeft gameState) / inject_Z selectionTime) in
  let similarityThreshold := mismatchThreshold (level gameState) in
  let isExactMatch := Qltb difference 0.01 in
  let closeMatchLimit := if level gameState <=? 50 then 3 else 1 in
  let currentTenLevelBlock := Math.floor (inject_Z (level gameState) / 10) in
  let newCloseMatches := closeMatches in
  let newCloseMatches :=
    if negb (levelStarted snap =? currentTenLevelBlock) then 0
    else newCloseMatches in
  let '(newCloseMatches, newPerformanceRating, newComboMultiplier) :=
    if negb isExactMatch then
      (newCloseMatches + 1, Qmax 0.9 (performanceRating - 0.02), 1%Q)
    else
      (newCloseMatches, Qmin 1.1 (performanceRating + 0.01),
       Qmin 5 (comboMultiplier + 0.5)) in
  let '(feedbackMessage, gameOver) :=
    if negb isExactMatch && (newCloseMatches >? closeMatchLimit) then
      ("Game Over! Too many close matches."%string, true)
    else if Qle_bool similarityThreshold difference then
      ("Game Over! Color mismatch."%string, true)
    else
      ((if isExactMatch
        then "Perfect! " ++ toFixed1 newComboMultiplier ++ "x Combo!"
        else "Close enough!")%string, false) in
  let accuracyPoints := Z.max 0 (100 - Math.round (difference * 1000)) in
  let speedPoints := Math.round (timeBonus * 50) in
  let totalPoints :=
    Math.round (inject_Z (accuracyPoints + speedPoints) * newComboMultiplier) in
  mkJudgement difference isExactMatch currentTenLevelBlock newCloseMatches
    newPerformanceRating newComboMultiplier gameOver feedbackMessage
    accuracyPoints speedPoints totalPoints.

Definition handleColorSelect (snap : Component) (selectedColor : string)
  : Update :=
  let gameState := gameState snap in
  if negb (isPlaying gameState) || isProcessingSelection snap then skip
  else
    let j := judge snap selectedColor in
    let record :=
      setExactMatch (isExactMatch j) >>>
      setLevelStarted (currentTenLevelBlock j) >>>
      setCloseMatches (fun _ => newCloseMatches j) >>>
      setPerformanceRating (fun _ => newPerformanceRating j) >>>
      setComboMultiplier (newComboMultiplier j) >>>
      setFeedbackText (feedbackMessage j) >>>
      setShowFeedback true in
    setIsProcessingSelection true >>>
    if gameOver j then
      endGame snap true >>> record >>> setIsProcessingSelection false
    else
      match generateColorsWithWorker (level gameState + 1)
              (newPerformanceRating j) with
      | Answer newColors =>
          setGameState (fun prevState =>
            nextRound (level prevState + 1) newColors (totalPoints j)
              prevState) >>>
          setShowTarget true >>>
          setIsProcessingSelection false >>>
          record >>>
          setIsProcessingSelection false
      | PostFailed =>
          (* catch *) endGame snap true >>> setIsProcessingSelection false
      | NoAnswer => skip
      end.

Definition debouncedHandleColorSelect (snap : Component)
  (selectedColor : string) : Update :=
  if negb (isProcessingSelection snap)
  then handleColorSelect snap selectedColor
  else skip.

End Handlers.

End Guarded.

End Rated.

(** ** Definitions used by the statements *)

(** The four-band ramp of the specification, before the cap. *)
Definition ramp (L : Z) : Q :=
  if L <=? 10 then 0.70 + 0.01 * inject_Z L
  else if L <=? 30 then 0.80 + 0.005 * inject_Z (L - 10)
  else if L <=? 50 then 0.90 + 0.003 * inject_Z (L - 30)
  else 0.96 + 0.0005 * inject_Z (L - 50).

(** The levels [first], [first + 1], ..., [count] of them. *)
Definition levelsFrom (first : Z) (count : nat) : list Z :=
  map (fun n => first + Z.of_nat n) (seq 0 count).

(** The distance between the similarity of a level in doubles and the exact
    value of the capped ramp. *)
Definition rampError (L : Z) : Q :=
  Qabs (Double.similarity L 1 - Qmin 0.99 (ramp L)).

(** The count the classification starts from: the stored one, or zero at a
    level divisible by ten. *)
Definition closeMatchesBase (g : GameState) : Z :=
  if Z.rem (level g) 10 =? 0 then 0 else closeMatches g.

(** The part of [handleColorSelect] that judges a classified pick, from the
    reset of the count to the three branches, as a function of the two
    classification flags and of the level, count and multiplier it reads. *)
Record Verdict : Type := mkVerdict {
  verdictCloseMatches : Z;       (* newCloseMatches *)
  verdictComboMultiplier : Q;    (* newComboMultiplier *)
  verdictGameOver : bool;        (* gameOver *)
  verdictMessage : string        (* feedbackMessage *)
}.

Definition verdict (isExactMatch isCloseMatch : bool)
  (level closeMatches : Z) (comboMultiplier : Q) : Verdict :=
  let newCloseMatches := closeMatches in
  let closeMatchLimit := getCloseMatchLimit level in
  (* Reset close matches every 10 levels *)
  let newCloseMatches := if Z.rem level 10 =? 0 then 0 else newCloseMatches in
  if isExactMatch then
    let newComboMultiplier := Qmin 5 (comboMultiplier + 0.5) in
    mkVerdict newCloseMatches newComboMultiplier false
      ("Perfect! " ++ toFixed1 newComboMultiplier ++ "x Combo!")%string
  else if isCloseMatch then
    let newCloseMatches := newCloseMatches + 1 in
    if newCloseMatches >? closeMatchLimit
    then mkVerdict newCloseMatches 1%Q true "Out of close matches!"%string
    else mkVerdict newCloseMatches 1%Q false "Close enough!"%string
  else
    mkVerdict newCloseMatches comboMultiplier true "Wrong color!"%string.

(** The result record built from the scoring. *)
Definition resultOf (s : Scoring) : ColorSelectionResult :=
  mkColorSelectionResult (over s) (message s) (exact s)
    (total s) (accuracy s) (speed s).

(** What two finished runs have in common when both ended as a loss. *)
Definition sameGameOver (a b : Component) : Prop :=
  isPlaying (gameState a) = isPlaying (gameState b)
  /\ targetColor (gameState a) = targetColor (gameState b)
  /\ options (gameState a) = options (gameState b)
  /\ timeLeft (gameState a) = timeLeft (gameState b)
  /\ score (gameState a) = score (gameState b)
  /\ level (gameState a) = level (gameState b)
  /\ showTarget a = showTarget b
  /\ showLossDialog a = showLossDialog b
  /\ isNewHighScore a = isNewHighScore b
  /\ showUsernameInput a = showUsernameInput b
  /\ localUserData a = localUserData b
  /\ isProcessingSelection a = isProcessingSelection b.

(** The values the combo multiplier takes: 1, 1.5, 2, ..., 5. *)
Definition halfStep (q : Q) : Prop :=
  exists k : Z, 2 <= k <= 10 /\ (q == inject_Z k / 2)%Q.

(** The state with another [timeLeft]. *)
Definition withTimeLeft (t : Z) : Update :=
  updateGameState (fun g =>
    mkGameState (targetColor g) (options g) (score g) (level g) t
      (isPlaying g) (highScore g) (closeMatches g)).

(** The game state of a finished run: target and options cleared, three
    seconds on the clock, the counters as they were. *)
Definition finished (g : GameState) : GameState :=
  mkGameState EmptyString [] (score g) (level g) 3 false
    (highScore g) (closeMatches g).

(** Events of a run in progress: timer ticks and clicks on swatches. *)
Definition inRun (e : Event) : Prop :=
  match e with
  | Tick | ClickSwatch _ => True
  | _ => False
  end.

(** What holds of every state the component can reach (see
    [reachable_wellFormed]). *)
Definition wellFormed (c : Component) : Prop :=
  let g := gameState c in
  1 <= level g
  /\ 0 <= score g
  /\ 1 <= timeLeft g <= 15
  /\ 0 <= closeMatches g
  /\ (isPlaying g = true -> closeMatches g <= getCloseMatchLimit (level g))
  /\ halfStep (comboMultiplier c)
  /\ (isPlaying g = false ->
      targetColor g = EmptyString /\ options g = [] /\ timeLeft g = 3)
  /\ (isPlaying g = true ->
      timeLeft g <= if showTarget c then 3
                    else selectionTime (difficulty (level g))).

(** ** Concrete runs

    A colour distance and two color pools to run the game on: one that
    always delivers, one that always fails. *)

Open Scope string_scope.

Definition exampleDifference (a b : string) : Q :=
  if a =? b then 0
  else if ((a =? "#112233") && (b =? "#112234"))
          || ((a =? "#112234") && (b =? "#112233")) then 3
  else 30.

Definition examplePool (level : Z) : option Colors.t :=
  Some (Colors.mk "#445566" ["#445566"; "#445567"; "#000000"]).

Definition failingPool (level : Z) : option Colors.t := None.

(** A round awaiting the selection: target ["#112233"], three options. *)
Definition awaiting (level timeLeft closeMatches : Z) (combo : Q) : Component :=
  mkComponent
    (mkGameState "#112233" ["#112233"; "#112234"; "#000000"]
       0 level timeLeft true 0 closeMatches)
    false combo false false false false None EmptyString false false.

(** The scenario of the specification: level 1, the whole selection time
    left, no close matches, combo multiplier 1. *)
Definition scenario : Component := awaiting 1 15 0 1.

(** A round of level 50 with the eight options its difficulty asks for. *)
Definition eightOptions : Component :=
  mkComponent
    (mkGameState "#112233"
       ["#112233"; "#112234"; "#000000"; "#000001"; "#000002"; "#000003";
        "#000004"; "#000005"]
       0 50 7 true 0 0)
    false 1 false false false false None EmptyString false false.

(** The first selection of the scenario in flight: its synchronous part has
    run, its promise callbacks have not. *)
Definition inFlight : Component :=
  selectionStarted exampleDifference examplePool scenario "#112233" scenario.

(** A run of the component: a start, the target phase, one more second and
    a click on the first swatch. *)
Definition played : Component :=
  run exampleDifference examplePool
    [StartGame; Tick; Tick; Tick; Tick; ClickSwatch 0] initialComponent.

(** The first round of a run, just started. *)
Definition roundStart : Component := startGame examplePool initialComponent.


(** A pool whose options hold the target, a colour at distance 3 from it
    and a colour far from it. *)
Definition nearPool (level : Z) : option Colors.t :=
  Some (Colors.mk "#112233" ["#112233"; "#112234"; "#000000"]).

(** A pool that delivers up to the level [last] and throws beyond. *)
Definition poolUpTo (last level : Z) : option Colors.t :=
  if (level <=? last)%Z then nearPool level else None.

(** A pool that delivers the first round and from then on returns no
    colors: an empty target and an empty option list. *)
Definition exhaustedPool (level : Z) : option Colors.t :=
  if (level =? 1)%Z then nearPool level else Some (Colors.mk EmptyString []).

(** The events of one round: the three seconds of the target phase and a
    click on the swatch at position [index]. *)
Definition playRound (index : nat) : list Event :=
  [Tick; Tick; Tick; ClickSwatch index].

(** The first round with its options on screen. *)
Definition level1Awaiting (pool : Z -> option Colors.t) : Component :=
  run exampleDifference pool [StartGame; Tick; Tick; Tick] initialComponent.

(** Level 3, reached by two exact matches, with its options on screen. *)
Definition level3Awaiting (pool : Z -> option Colors.t) : Component :=
  run exampleDifference pool
    (StartGame :: playRound 0 ++ playRound 0 ++ [Tick; Tick; Tick])
    initialComponent.

(** Level 4, reached by three close matches, with its options on screen. *)
Definition threeCloseMatches : Component :=
  run exampleDifference nearPool
    (StartGame :: playRound 1 ++ playRound 1 ++ playRound 1
       ++ [Tick; Tick; Tick])
    initialComponent.

(** Level 9, reached by a close match and seven exact ones, with its
    options on screen. *)
Definition level9Awaiting : Component :=
  run exampleDifference nearPool
    (StartGame :: playRound 1 ++ List.concat (repeat (playRound 0) 7)
       ++ [Tick; Tick; Tick])
    initialComponent.

(** The start of the round of level 10, reached by a close match and eight
    exact ones; and that round with its options on screen. *)
Definition level10Start : Component :=
  run exampleDifference nearPool
    (StartGame :: playRound 1 ++ List.concat (repeat (playRound 0) 8))
    initialComponent.

Definition level10Awaiting : Component :=
  run exampleDifference nearPool [Tick; Tick; Tick] level10Start.

(** Two runs that are over: one lost by a wrong pick, one by letting the
    selection time of the first round run out. *)
Definition lostByWrongPick : Component :=
  run exampleDifference nearPool (StartGame :: playRound 2) initialComponent.

Definition timedOut : Component :=
  run exampleDifference nearPool (StartGame :: repeat Tick 18)
    initialComponent.

(** For the earlier revisions: a distance on their scale, a worker that
    answers, one that stays silent, and a round awaiting the selection. *)
Definition fineDifference (a b : string) : Q :=
  if a =? b then 0
  else if ((a =? "#112233") && (b =? "#112234"))
          || ((a =? "#112234") && (b =? "#112233")) then 0.03
  else 30.

Definition exampleWorker (level : Z) (performanceRating : Q) : Rated.Reply :=
  Rated.Answer (Colors.mk "#445566" ["#445566"; "#445567"; "#000000"]).

Definition silentWorker (level : Z) (performanceRating : Q) : Rated.Reply :=
  Rated.NoAnswer.

Definition ratedRound (level closeMatches levelStarted : Z) : Rated.Component :=
  Rated.mkComponent
    (mkGameState "#112233" ["#112233"; "#112234"; "#000000"]
       0 level 15 true 0 0)
    false false false false false None EmptyString false false
    1 closeMatches levelStarted 1 false.

Close Scope string_scope.

(** * Properties *)

(** ** Arithmetic helpers *)

Lemma Qltb_lt (a b : Q) : Qltb a b = true <-> (a < b)%Q.
Proof.
  unfold Qltb. rewrite negb_true_iff.
  split; intro H.
  - apply Qnot_le_lt. intro Hle. apply Qle_bool_iff in Hle. congruence.
  - destruct (Qle_bool b a) eqn:E; [|reflexivity].
    apply Qle_bool_iff in E. apply Qle_not_lt in E. contradiction.
Qed.

Lemma Qltb_ge (a b : Q) : Qltb a b = false <-> (b <= a)%Q.
Proof.
  unfold Qltb. rewrite negb_false_iff. apply Qle_bool_iff.
Qed.

(** [Math.floor(a / b)] on integers is integer division. *)
Lemma floor_div (a : Z) (b : positive) :
  Math.floor (inject_Z a / inject_Z (Zpos b))%Q = a / Zpos b.
Proof.
  unfold Math.floor. symmetry. apply Zdiv_Qdiv.
Qed.

Lemma round_inject_Z (z : Z) : Math.round (inject_Z z) = z.
Proof.
  unfold Math.round, Qfloor, Qplus, inject_Z; simpl.
  replace (z * 2 + 1) with (1 + z * 2) by lia.
  rewrite Z.div_add by lia. reflexivity.
Qed.

Lemma round_proper (x y : Q) : (x == y)%Q -> Math.round x = Math.round y.
Proof.
  intro H. unfold Math.round. now rewrite H.
Qed.

(** ** The difficulty model *)

Lemma colorCount_div (L : Z) (pr : Q) :
  colorCount (calculateDifficulty L pr) = Z.min 10 (3 + L / 10).
Proof.
  unfold calculateDifficulty; cbn [colorCount].
  change 10%Q with (inject_Z 10). now rewrite floor_div.
Qed.

(** C8: for every level [L >= 1] (and whatever the performance rating) the
    option count of the difficulty model is [min(10, 3 + floor(L / 10))]; it
    lies in [[3, 10]] and does not decrease when the level grows. *)
Theorem optionCount_formula_range_monotone (L : Z) (pr : Q) :
  1 <= L ->
  colorCount (calculateDifficulty L pr) = Z.min 10 (3 + L / 10)
  /\ 3 <= colorCount (calculateDifficulty L pr) <= 10
  /\ (forall L' pr', L <= L' ->
        colorCount (calculateDifficulty L pr)
        <= colorCount (calculateDifficulty L' pr')).
Proof.
  intro HL. rewrite colorCount_div.
  assert (H0 : 0 <= L / 10) by (apply Z.div_pos; lia).
  repeat split; try lia.
  intros L' pr' HLL'. rewrite colorCount_div.
  assert (L / 10 <= L' / 10) by (apply Z.div_le_mono; lia).
  lia.
Qed.

Lemma optionCount_formula_range_monotone_witness :
  colorCount (calculateDifficulty 47 1) = 7
  /\ 3 <= colorCount (calculateDifficulty 47 1) <= 10
  /\ colorCount (calculateDifficulty 47 1)
     <= colorCount (calculateDifficulty 90 1).
Proof.
  destruct (optionCount_formula_range_monotone 47 1 ltac:(lia))
    as (Hf & Hr & Hm).
  split; [exact Hf | split; [exact Hr | apply Hm; lia]].
Defined.

Lemma inject_Z_sub (a b : Z) : (inject_Z (a - b) == inject_Z a - inject_Z b)%Q.
Proof.
  unfold Z.sub, Qminus. now rewrite inject_Z_plus, inject_Z_opp.
Qed.

Lemma similarity_ramp (L : Z) (pr : Q) :
  (similarity (calculateDifficulty L pr) == Qmin 0.99 (ramp L * pr))%Q.
Proof.
  unfold calculateDifficulty, ramp; cbn [similarity].
  apply Q.min_compat; [reflexivity|].
  destruct (L <=? 10); [|destruct (L <=? 30); [|destruct (L <=? 50)]]; ring.
Qed.

(** Carries the integer comparisons of the context over to [Q], for [lra]. *)
Ltac Z_facts_to_Q :=
  repeat match goal with
         | K : (_ <= _)%Z |- _ => rewrite Zle_Qle in K
         | K : (_ < _)%Z |- _ => rewrite Zlt_Qlt in K
         end;
  repeat match goal with
         | K : context [inject_Z (Zpos ?p)] |- _ =>
             change (inject_Z (Zpos p)) with (Zpos p # 1) in K
         | |- context [inject_Z (Zpos ?p)] =>
             change (inject_Z (Zpos p)) with (Zpos p # 1)
         end.

Lemma ramp_monotone (L L' : Z) : L <= L' -> (ramp L <= ramp L')%Q.
Proof.
  intro H. unfold ramp.
  destruct (Z.leb_spec L 10) as [A|A];
    [|destruct (Z.leb_spec L 30) as [B|B];
      [|destruct (Z.leb_spec L 50) as [C|C]]];
  (destruct (Z.leb_spec L' 10) as [A'|A'];
    [|destruct (Z.leb_spec L' 30) as [B'|B'];
      [|destruct (Z.leb_spec L' 50) as [C'|C']]]);
  try lia;
  rewrite ?inject_Z_sub; Z_facts_to_Q; lra.
Qed.

Lemma similarity_monotone (L L' : Z) (pr : Q) :
  (0 <= pr)%Q -> L <= L' ->
  (similarity (calculateDifficulty L pr)
   <= similarity (calculateDifficulty L' pr))%Q.
Proof.
  intros Hpr H. rewrite !similarity_ramp.
  apply Q.min_le_compat_l. apply Qmult_le_compat_r; [|exact Hpr].
  now apply ramp_monotone.
Qed.

Lemma similarity_capped (L : Z) (pr : Q) :
  (similarity (calculateDifficulty L pr) <= 0.99)%Q.
Proof.
  rewrite similarity_ramp. apply Q.le_min_l.
Qed.

(** ** Rounding to the nearest double *)

Lemma pow2_pos e : (0 < Double.pow2 e)%Q.
Proof. apply Qpower_0_lt. reflexivity. Qed.

Lemma pow2_add a b : (Double.pow2 (a + b) == Double.pow2 a * Double.pow2 b)%Q.
Proof. apply Qpower_plus. discriminate. Qed.

Lemma pow2_le a b : a <= b -> (Double.pow2 a <= Double.pow2 b)%Q.
Proof. intro H. apply Qpower_le_compat_l; [exact H | discriminate]. Qed.

Lemma pow2_lt_inv a b : (Double.pow2 a < Double.pow2 b)%Q -> a < b.
Proof. intro H. apply (Qpower_lt_compat_l_inv 2); [exact H | reflexivity]. Qed.

Lemma pow2_inject_Z a : 0 <= a -> (Double.pow2 a == inject_Z (2 ^ a))%Q.
Proof. intro H. unfold Double.pow2. now rewrite Zpower_Qpower. Qed.

(** [Double.exponent] is the exponent. *)
Lemma exponent_spec x :
  (0 < x)%Q ->
  (Double.pow2 (Double.exponent x) <= x
   < Double.pow2 (Double.exponent x + 1))%Q.
Proof.
  intro Hx. destruct x as [n d].
  assert (Hn : 0 < n).
  { unfold Qlt in Hx. cbn in Hx. lia. }
  unfold Double.exponent. cbn [Qnum Qden].
  set (a := Z.log2 n). set (b := Z.log2 (Zpos d)).
  pose proof (Z.log2_spec n Hn) as (Ha1 & Ha2). fold a in Ha1, Ha2.
  pose proof (Z.log2_spec (Zpos d) ltac:(lia)) as (Hb1 & Hb2).
  fold b in Hb1, Hb2.
  pose proof (Z.log2_nonneg n) as Ha0. fold a in Ha0.
  pose proof (Z.log2_nonneg (Zpos d)) as Hb0. fold b in Hb0.
  assert (Ex : (n # d == inject_Z n / inject_Z (Zpos d))%Q)
    by apply Qmake_Qdiv.
  assert (HD : (0 < inject_Z (Zpos d))%Q) by reflexivity.
  assert (Na1 : (Double.pow2 a <= inject_Z n)%Q)
    by (rewrite pow2_inject_Z by lia; now rewrite <- Zle_Qle).
  assert (Na2 : (inject_Z n < Double.pow2 (a + 1))%Q)
    by (rewrite pow2_inject_Z by lia; now rewrite <- Zlt_Qlt).
  assert (Nb1 : (Double.pow2 b <= inject_Z (Zpos d))%Q)
    by (rewrite pow2_inject_Z by lia; now rewrite <- Zle_Qle).
  assert (Nb2 : (inject_Z (Zpos d) < Double.pow2 (b + 1))%Q)
    by (rewrite pow2_inject_Z by lia; now rewrite <- Zlt_Qlt).
  destruct (Qle_bool (Double.pow2 (a - b)) (n # d)) eqn:E.
  - apply Qle_bool_iff in E. split; [exact E|].
    rewrite Ex. apply Qlt_shift_div_r; [exact HD|].
    apply (Qlt_le_trans _ _ _ Na2).
    replace (a + 1) with ((a - b + 1) + b) by lia. rewrite pow2_add.
    apply Qmult_le_l; [apply pow2_pos | exact Nb1].
  - assert (E' : (n # d < Double.pow2 (a - b))%Q).
    { apply Qnot_le_lt. intro K. apply Qle_bool_iff in K. congruence. }
    replace (a - b - 1 + 1) with (a - b) by lia.
    split; [|exact E'].
    rewrite Ex. apply Qle_shift_div_l; [exact HD|].
    apply Qle_trans with (Double.pow2 a); [|exact Na1].
    replace a with ((a - b - 1) + (b + 1)) at 2 by lia. rewrite pow2_add.
    apply Qmult_le_l; [apply pow2_pos | now apply Qlt_le_weak].
Qed.

Lemma exponent_le x y :
  (0 < x)%Q -> (x <= y)%Q -> Double.exponent x <= Double.exponent y.
Proof.
  intros Hx Hxy.
  destruct (exponent_spec x Hx) as (X1 & _).
  destruct (exponent_spec y (Qlt_le_trans _ _ _ Hx Hxy)) as (_ & Y2).
  assert (H : Double.exponent x < Double.exponent y + 1).
  { apply pow2_lt_inv. eapply Qle_lt_trans; [exact X1|].
    eapply Qle_lt_trans; [exact Hxy | exact Y2]. }
  lia.
Qed.

Lemma nearestEven_bounds q :
  Qfloor q <= Double.nearestEven q <= Qfloor q + 1.
Proof.
  unfold Double.nearestEven.
  repeat match goal with |- context [if ?b then _ else _] => destruct b end;
    lia.
Qed.

Lemma nearestEven_inject_Z n : Double.nearestEven (inject_Z n) = n.
Proof.
  unfold Double.nearestEven. rewrite Qfloor_Z.
  assert (E : Qltb (inject_Z n - inject_Z n) (1 # 2) = true).
  { apply Qltb_lt.
    setoid_replace (inject_Z n - inject_Z n)%Q with 0%Q by ring.
    reflexivity. }
  now rewrite E.
Qed.

Lemma nearestEven_monotone q q' :
  (q <= q')%Q -> Double.nearestEven q <= Double.nearestEven q'.
Proof.
  intro H.
  pose proof (Qfloor_resp_le _ _ H) as Hf.
  pose proof (nearestEven_bounds q) as Bq.
  pose proof (nearestEven_bounds q') as Bq'.
  destruct (Z.eq_dec (Qfloor q) (Qfloor q')) as [E|N]; [|lia].
  unfold Double.nearestEven. rewrite <- E.
  set (f := Qfloor q) in *.
  destruct (Qltb (q - inject_Z f) (1 # 2)) eqn:A.
  - repeat match goal with |- context [if ?b then _ else _] => destruct b end;
      lia.
  - apply Qltb_ge in A.
    assert (A' : Qltb (q' - inject_Z f) (1 # 2) = false).
    { apply Qltb_ge. lra. }
    rewrite A'.
    destruct (Qltb (1 # 2) (q - inject_Z f)) eqn:B.
    + apply Qltb_lt in B.
      assert (B' : Qltb (1 # 2) (q' - inject_Z f) = true).
      { apply Qltb_lt. lra. }
      rewrite B'. lia.
    + destruct (Qltb (1 # 2) (q' - inject_Z f)); [|lia].
      destruct (Z.even f); lia.
Qed.

Lemma roundPositive_eq x :
  (Double.roundPositive x
   == inject_Z (Double.nearestEven (x / Double.pow2 (Double.exponent x - 52)))
      * Double.pow2 (Double.exponent x - 52))%Q.
Proof. unfold Double.roundPositive. apply Qred_correct. Qed.

(** A positive number and its rounding lie in the same binade. *)
Lemma roundPositive_binade x :
  (0 < x)%Q ->
  (Double.pow2 (Double.exponent x) <= Double.roundPositive x
   <= Double.pow2 (Double.exponent x + 1))%Q.
Proof.
  intro Hx. destruct (exponent_spec x Hx) as (X1 & X2).
  rewrite roundPositive_eq.
  set (e := Double.exponent x) in *.
  set (u := Double.pow2 (e - 52)).
  assert (Hu : (0 < u)%Q) by apply pow2_pos.
  assert (E1 : (Double.pow2 e == inject_Z (2 ^ 52) * u)%Q).
  { rewrite <- (pow2_inject_Z 52) by lia. unfold u. rewrite <- pow2_add.
    now replace (52 + (e - 52)) with e by lia. }
  assert (E2 : (Double.pow2 (e + 1) == inject_Z (2 ^ 53) * u)%Q).
  { rewrite <- (pow2_inject_Z 53) by lia. unfold u. rewrite <- pow2_add.
    now replace (53 + (e - 52)) with (e + 1) by lia. }
  assert (Q1 : (inject_Z (2 ^ 52) <= x / u)%Q).
  { apply Qle_shift_div_l; [exact Hu|]. now rewrite <- E1. }
  assert (Q2 : (x / u < inject_Z (2 ^ 53))%Q).
  { apply Qlt_shift_div_r; [exact Hu|]. now rewrite <- E2. }
  split.
  - rewrite E1. apply Qmult_le_r; [exact Hu|].
    rewrite <- Zle_Qle.
    rewrite <- (nearestEven_inject_Z (2 ^ 52)).
    now apply nearestEven_monotone.
  - rewrite E2. apply Qmult_le_r; [exact Hu|].
    rewrite <- Zle_Qle.
    pose proof (nearestEven_bounds (x / u)) as (_ & B).
    assert (Qfloor (x / u) < 2 ^ 53).
    { rewrite Zlt_Qlt. eapply Qle_lt_trans; [apply Qfloor_le | exact Q2]. }
    lia.
Qed.

Lemma roundPositive_monotone x y :
  (0 < x)%Q -> (x <= y)%Q ->
  (Double.roundPositive x <= Double.roundPositive y)%Q.
Proof.
  intros Hx Hxy.
  assert (Hy : (0 < y)%Q) by (eapply Qlt_le_trans; eassumption).
  pose proof (exponent_le x y Hx Hxy) as He.
  destruct (Z.eq_dec (Double.exponent x) (Double.exponent y)) as [E|N].
  - rewrite !roundPositive_eq, E.
    apply Qmult_le_r; [apply pow2_pos|].
    rewrite <- Zle_Qle. apply nearestEven_monotone.
    apply Qmult_le_r; [apply Qinv_lt_0_compat, pow2_pos | exact Hxy].
  - destruct (roundPositive_binade x Hx) as (_ & B).
    destruct (roundPositive_binade y Hy) as (B' & _).
    eapply Qle_trans; [exact B|]. eapply Qle_trans; [|exact B'].
    apply pow2_le. lia.
Qed.

Lemma roundPositive_pos x : (0 < x)%Q -> (0 < Double.roundPositive x)%Q.
Proof.
  intro Hx. destruct (roundPositive_binade x Hx) as (B & _).
  eapply Qlt_le_trans; [apply pow2_pos | exact B].
Qed.

(** Rounding is monotone; so are the operations of the doubles. *)
Lemma double_round_monotone x y :
  (x <= y)%Q -> (Double.round x <= Double.round y)%Q.
Proof.
  intro Hxy. unfold Double.round.
  destruct (Qltb 0 x) eqn:X0.
  - apply Qltb_lt in X0.
    assert (Y0 : Qltb 0 y = true) by (apply Qltb_lt; lra).
    rewrite Y0. now apply roundPositive_monotone.
  - apply Qltb_ge in X0.
    destruct (Qltb x 0) eqn:X1.
    + apply Qltb_lt in X1.
      pose proof (roundPositive_pos (- x) ltac:(lra)) as Px.
      destruct (Qltb 0 y) eqn:Y0.
      * apply Qltb_lt in Y0. pose proof (roundPositive_pos y Y0). lra.
      * apply Qltb_ge in Y0.
        destruct (Qltb y 0) eqn:Y1; [|lra].
        apply Qltb_lt in Y1.
        pose proof (roundPositive_monotone (- y) (- x) ltac:(lra) ltac:(lra)).
        lra.
    + apply Qltb_ge in X1.
      destruct (Qltb 0 y) eqn:Y0.
      * apply Qltb_lt in Y0. pose proof (roundPositive_pos y Y0). lra.
      * apply Qltb_ge in Y0.
        assert (Y1 : Qltb y 0 = false) by (apply Qltb_ge; lra).
        rewrite Y1. lra.
Qed.

Lemma double_add_monotone a b b' :
  (b <= b')%Q -> (Double.add a b <= Double.add a b')%Q.
Proof. intro H. apply double_round_monotone. lra. Qed.

Lemma double_sub_monotone a a' b :
  (a <= a')%Q -> (Double.sub a b <= Double.sub a' b)%Q.
Proof. intro H. apply double_round_monotone. lra. Qed.

Lemma double_mul_monotone a a' b :
  (0 <= b)%Q -> (a <= a')%Q -> (Double.mul a b <= Double.mul a' b)%Q.
Proof.
  intros Hb H. apply double_round_monotone. now apply Qmult_le_compat_r.
Qed.

(** ** The similarity threshold in doubles *)

(** What a check on each level of a range proves. *)
Lemma checked_levels (P : Z -> bool) first count :
  forallb P (levelsFrom first count) = true ->
  forall L, first <= L < first + Z.of_nat count -> P L = true.
Proof.
  intros H L HL. rewrite forallb_forall in H. apply H.
  unfold levelsFrom. apply in_map_iff.
  exists (Z.to_nat (L - first)). split; [lia|].
  apply in_seq. lia.
Qed.

(** On the levels 1 to 1000 the rounding of [Double] computes what the
    binary64 arithmetic of the kernel computes. *)
Lemma double_similarity_is_binary64_similarity L :
  1 <= L <= 1000 ->
  exists q, Binary64.toQ (Binary64.similarity L) = Some q
            /\ (q == Double.similarity L 1)%Q.
Proof.
  intro H.
  assert (C : forallb
                (fun L => match Binary64.toQ (Binary64.similarity L) with
                          | Some q => Qeq_bool q (Double.similarity L 1)
                          | None => false
                          end) (levelsFrom 1 1000) = true)
    by (vm_compute; reflexivity).
  pose proof (checked_levels _ 1 1000 C L ltac:(lia)) as K. cbv beta in K.
  destruct (Binary64.toQ (Binary64.similarity L)) as [q|]; [|discriminate].
  exists q. split; [reflexivity | now apply Qeq_bool_iff].
Qed.

(** From level 111 on the ramp is above the cap, in doubles too. *)
Lemma double_similarity_at_cap L :
  111 <= L -> (Double.similarity L 1 == Double.literal 0.99)%Q.
Proof.
  intro H. unfold Double.similarity.
  destruct (Z.leb_spec L 10); [lia|].
  destruct (Z.leb_spec L 30); [lia|].
  destruct (Z.leb_spec L 50); [lia|].
  apply Q.min_l.
  apply Qle_trans
    with (Double.mul
            (Double.add (Double.literal 0.96)
               (Double.mul (Double.sub (inject_Z 111) 50)
                  (Double.literal 0.0005))) 1).
  - vm_compute. discriminate.
  - apply double_mul_monotone; [discriminate|].
    apply double_add_monotone.
    apply double_mul_monotone; [vm_compute; discriminate|].
    apply double_sub_monotone. now rewrite <- Zle_Qle.
Qed.

Lemma double_similarity_le_cap L pr :
  (Double.similarity L pr <= Double.literal 0.99)%Q.
Proof. unfold Double.similarity. apply Q.le_min_l. Qed.

Lemma double_similarity_capped L pr : (Double.similarity L pr <= 0.99)%Q.
Proof.
  eapply Qle_trans; [apply double_similarity_le_cap|].
  vm_compute. discriminate.
Qed.

(** Up to level 111, level by level. *)
Lemma double_similarity_steps :
  forallb (fun L => Qle_bool (Double.similarity L 1)
                      (Double.similarity (L + 1) 1))
    (levelsFrom 1 110) = true.
Proof. vm_compute. reflexivity. Qed.

Lemma double_similarity_monotone_to_111 (n : nat) L :
  1 <= L -> L + Z.of_nat n <= 111 ->
  (Double.similarity L 1 <= Double.similarity (L + Z.of_nat n) 1)%Q.
Proof.
  intros H1. induction n as [|n IH]; intro H2.
  - replace (L + Z.of_nat 0) with L by lia. apply Qle_refl.
  - eapply Qle_trans; [apply IH; lia|].
    replace (L + Z.of_nat (S n)) with (L + Z.of_nat n + 1) by lia.
    apply Qle_bool_iff.
    apply (checked_levels _ 1 110 double_similarity_steps). lia.
Qed.

Lemma double_similarity_monotone L L' :
  1 <= L -> L <= L' ->
  (Double.similarity L 1 <= Double.similarity L' 1)%Q.
Proof.
  intros H1 H.
  destruct (Z.le_gt_cases L' 111) as [A|A].
  - replace L' with (L + Z.of_nat (Z.to_nat (L' - L))) by lia.
    apply double_similarity_monotone_to_111; lia.
  - rewrite (double_similarity_at_cap L') by lia.
    apply double_similarity_le_cap.
Qed.

(** The distance between the similarity in doubles and the exact value of
    the capped ramp. *)
Lemma rampError_to_111 :
  forallb (fun L => Qle_bool (rampError L) (Double.pow2 (-53)))
    (levelsFrom 1 111) = true.
Proof. vm_compute. reflexivity. Qed.

Lemma ramp_above_cap L : 110 <= L -> (0.99 <= ramp L)%Q.
Proof.
  intro H. unfold ramp.
  destruct (Z.leb_spec L 10); [lia|].
  destruct (Z.leb_spec L 30); [lia|].
  destruct (Z.leb_spec L 50); [lia|].
  rewrite inject_Z_sub. Z_facts_to_Q. lra.
Qed.

Lemma rampError_small L : 1 <= L -> (rampError L <= Double.pow2 (-53))%Q.
Proof.
  intro H. destruct (Z.le_gt_cases L 111) as [A|A].
  - apply Qle_bool_iff.
    apply (checked_levels _ 1 111 rampError_to_111). lia.
  - unfold rampError.
    rewrite (double_similarity_at_cap L) by lia.
    rewrite (Q.min_l 0.99 (ramp L)) by (apply ramp_above_cap; lia).
    vm_compute. discriminate.
Qed.

(** The capped ramp, band by band. *)
Lemma capped_ramp_bands (L : Z) :
  1 <= L ->
  (L <= 10 -> (Qmin 0.99 (ramp L) == 0.70 + 0.01 * inject_Z L)%Q)
  /\ (11 <= L <= 30 ->
        (Qmin 0.99 (ramp L) == 0.80 + 0.005 * inject_Z (L - 10))%Q)
  /\ (31 <= L <= 50 ->
        (Qmin 0.99 (ramp L) == 0.90 + 0.003 * inject_Z (L - 30))%Q)
  /\ (51 <= L ->
        (Qmin 0.99 (ramp L)
         == Qmin 0.99 (0.96 + 0.0005 * inject_Z (L - 50)))%Q).
Proof.
  intro HL.
  assert (band : forall r : Q, (ramp L == r)%Q -> (r <= 0.99)%Q ->
            (Qmin 0.99 (ramp L) == r)%Q).
  { intros r Hr Hle. rewrite Hr. now apply Q.min_r. }
  repeat split.
  - intro H. apply band.
    + unfold ramp. destruct (Z.leb_spec L 10); [reflexivity | lia].
    + Z_facts_to_Q. lra.
  - intros [H1 H2]. apply band.
    + unfold ramp. destruct (Z.leb_spec L 10); [lia|].
      destruct (Z.leb_spec L 30); [reflexivity | lia].
    + rewrite inject_Z_sub. Z_facts_to_Q. lra.
  - intros [H1 H2]. apply band.
    + unfold ramp. destruct (Z.leb_spec L 10); [lia|].
      destruct (Z.leb_spec L 30); [lia|].
      destruct (Z.leb_spec L 50); [reflexivity | lia].
    + rewrite inject_Z_sub. Z_facts_to_Q. lra.
  - intro H. apply Q.min_compat; [reflexivity|].
    unfold ramp. destruct (Z.leb_spec L 10); [lia|].
    destruct (Z.leb_spec L 30); [lia|].
    destruct (Z.leb_spec L 50); [lia | reflexivity].
Qed.

(** C7 (amended): for every level [L >= 1] the similarity threshold of the
    difficulty model, computed in doubles as the code computes it, follows
    the four-band ramp, the last band capped at 0.99, up to the rounding of
    the doubles: it lies within [2 ^ -53] of the exact value of the ramp.
    It does not decrease when the level grows and never exceeds 0.99. *)
Theorem similarityThreshold_ramp_monotone_capped (L : Z) :
  1 <= L ->
  let s := Double.similarity L 1 in
  let within (value : Q) := (Qabs (s - value) <= Double.pow2 (-53))%Q in
  (L <= 10 -> within (0.70 + 0.01 * inject_Z L)%Q)
  /\ (11 <= L <= 30 -> within (0.80 + 0.005 * inject_Z (L - 10))%Q)
  /\ (31 <= L <= 50 -> within (0.90 + 0.003 * inject_Z (L - 30))%Q)
  /\ (51 <= L -> within (Qmin 0.99 (0.96 + 0.0005 * inject_Z (L - 50))))
  /\ within (similarity (difficulty L))
  /\ (forall L', L <= L' -> (s <= Double.similarity L' 1)%Q)
  /\ (s <= 0.99)%Q.
Proof.
  intros HL s within.
  pose proof (rampError_small L HL) as E. unfold rampError in E. fold s in E.
  destruct (capped_ramp_bands L HL) as (B1 & B2 & B3 & B4).
  assert (Ex : (similarity (difficulty L) == Qmin 0.99 (ramp L))%Q).
  { unfold difficulty. rewrite similarity_ramp.
    apply Q.min_compat; [reflexivity | ring]. }
  unfold within.
  split; [intro H; now rewrite <- (B1 H)|].
  split; [intro H; now rewrite <- (B2 H)|].
  split; [intro H; now rewrite <- (B3 H)|].
  split; [intro H; now rewrite <- (B4 H)|].
  split; [now rewrite Ex|].
  split; [intros L' H; now apply double_similarity_monotone|].
  apply double_similarity_capped.
Qed.

Lemma similarityThreshold_ramp_monotone_capped_witness :
  (* level 55: 0.9624999999999999, next to the 0.9625 of the ramp *)
  (Qabs (Double.similarity 55 1 - 0.9625) <= Double.pow2 (-53))%Q
  /\ (Double.similarity 55 1 < 0.9625)%Q
  /\ (Double.similarity 55 1 <= Double.similarity 120 1)%Q
  /\ (Double.similarity 55 1 <= 0.99)%Q
  (* level 10: 0.7999999999999999 *)
  /\ (Qabs (Double.similarity 10 1 - 0.8) <= Double.pow2 (-53))%Q
  /\ (Double.similarity 10 1 <= Double.similarity 11 1)%Q.
Proof.
  destruct (similarityThreshold_ramp_monotone_capped 55 ltac:(lia))
    as (_ & _ & _ & Hband & _ & Hmono & Hcap).
  destruct (similarityThreshold_ramp_monotone_capped 10 ltac:(lia))
    as (Hband10 & _ & _ & _ & _ & Hmono10 & _).
  split; [|split; [|split; [|split; [|split]]]].
  - eapply Qle_trans; [|exact (Hband ltac:(lia))].
    vm_compute. discriminate.
  - vm_compute. reflexivity.
  - apply Hmono. lia.
  - exact Hcap.
  - eapply Qle_trans; [|exact (Hband10 ltac:(lia))].
    vm_compute. discriminate.
  - apply Hmono10. lia.
Defined.

(** C7, as the specification states it, fails: at level 10 the threshold
    is the double 0.7999999999999999, below the 0.70 + 0.01 * 10 of the
    ramp; the binary64 arithmetic of the kernel gives the same number. *)
Lemma similarityThreshold_at_level_10_counterexample :
  ~ (Double.similarity 10 1 == 0.70 + 0.01 * inject_Z 10)%Q
  /\ Binary64.toQ (Binary64.similarity 10) = Some (Double.similarity 10 1)
  /\ (Double.similarity 10 1
      == 7205759403792793 # 9007199254740992)%Q.
Proof.
  split; [|split].
  - intro H. vm_compute in H. discriminate H.
  - vm_compute. reflexivity.
  - vm_compute. reflexivity.
Qed.

(** The tolerance of a close match at level 50 is 1 in exact arithmetic and
    a little more in doubles: a difference of exactly 1 is then a close
    match for the code and a wrong pick for [scoreSelection]. *)
Lemma closeMatchTolerance_at_level_50 :
  (25 * (1 - similarity (difficulty 50)) == 1)%Q
  /\ (1 < Double.closeMatchTolerance 50)%Q
  /\ (Double.closeMatchTolerance 50 <= 1 + Double.pow2 (-50))%Q.
Proof.
  split; [|split]; vm_compute; reflexivity || discriminate.
Qed.

(** From level 51 on the tolerance is below 1, the bound of an exact match,
    in doubles as well: a pick is then exact or wrong, never a close match
    that is not exact. *)
Lemma closeMatchTolerance_from_level_51 L :
  51 <= L -> (Double.closeMatchTolerance L < 1)%Q.
Proof.
  intro H. unfold Double.closeMatchTolerance.
  apply Qle_lt_trans with (Double.closeMatchTolerance 51);
    [|vm_compute; reflexivity].
  unfold Double.closeMatchTolerance, Double.mul, Double.sub.
  apply double_round_monotone.
  apply Qmult_le_l; [reflexivity|].
  apply double_round_monotone.
  pose proof (double_similarity_monotone 51 L ltac:(lia) H). lra.
Qed.

(** ** Scoring and classification *)

Section Selection.

Variable calculateColorDifference : string -> string -> Q.
Variable generateGameColors : Z -> option Colors.t.

Abbreviation scoreSelection := (scoreSelection calculateColorDifference).
Abbreviation handleColorSelect :=
  (handleColorSelect calculateColorDifference generateGameColors).
Abbreviation handleColorSelection :=
  (handleColorSelection calculateColorDifference generateGameColors).
Abbreviation select := (select calculateColorDifference generateGameColors).

Lemma scoring_difference snap color :
  difference (scoreSelection snap color)
  = calculateColorDifference (targetColor (gameState snap)) color.
Proof.
  unfold Engine.scoreSelection.
  repeat match goal with |- context [if ?b then _ else _] => destruct b end;
    reflexivity.
Qed.

Lemma scoring_exact snap color :
  exact (scoreSelection snap color)
  = Qltb (difference (scoreSelection snap color)) 1.
Proof.
  rewrite scoring_difference. unfold Engine.scoreSelection.
  repeat match goal with |- context [if ?b then _ else _] => destruct b end;
    reflexivity.
Qed.

Lemma scoring_close snap color :
  close (scoreSelection snap color)
  = Qltb (difference (scoreSelection snap color))
      (25 * (1 - similarity (difficulty (level (gameState snap))))).
Proof.
  rewrite scoring_difference. unfold Engine.scoreSelection.
  repeat match goal with |- context [if ?b then _ else _] => destruct b end;
    reflexivity.
Qed.

Lemma scoring_closeMatchLimit snap color :
  closeMatchLimit (scoreSelection snap color)
  = if level (gameState snap) <=? 50 then 3 else 1.
Proof.
  unfold Engine.scoreSelection, getCloseMatchLimit.
  repeat match goal with |- context [if ?b then _ else _] => destruct b end;
    reflexivity.
Qed.

Lemma scoring_newCloseMatches snap color :
  let s := scoreSelection snap color in
  newCloseMatches s
  = if exact s then closeMatchesBase (gameState snap)
    else if close s then closeMatchesBase (gameState snap) + 1
    else closeMatchesBase (gameState snap).
Proof.
  cbv zeta. rewrite scoring_exact, scoring_close, scoring_difference.
  unfold Engine.scoreSelection, closeMatchesBase.
  repeat match goal with |- context [if ?b then _ else _] => destruct b end;
    reflexivity.
Qed.

Lemma scoring_newComboMultiplier snap color :
  let s := scoreSelection snap color in
  newComboMultiplier s
  = if exact s then Qmin 5 (comboMultiplier snap + 0.5)
    else if close s then 1%Q
    else comboMultiplier snap.
Proof.
  cbv zeta. rewrite scoring_exact, scoring_close, scoring_difference.
  unfold Engine.scoreSelection.
  repeat match goal with |- context [if ?b then _ else _] => destruct b end;
    reflexivity.
Qed.

Lemma scoring_over snap color :
  let s := scoreSelection snap color in
  over s
  = if exact s then false
    else if close s then newCloseMatches s >? closeMatchLimit s
    else true.
Proof.
  cbv zeta. rewrite scoring_exact, scoring_close, scoring_difference.
  unfold Engine.scoreSelection.
  repeat match goal with |- context [if ?b then _ else _] => destruct b eqn:? end;
    cbn in *; congruence.
Qed.

Lemma scoring_points snap color :
  let s := scoreSelection snap color in
  let g := gameState snap in
  accuracy s = Z.max 0 (100 - Math.round (difference s * 1000))
  /\ speed s
     = Math.round
         (Qmax 0 (inject_Z (timeLeft g)
                  / inject_Z (selectionTime (difficulty (level g)))) * 50)
  /\ total s
     = Math.round (inject_Z (accuracy s + speed s) * newComboMultiplier s).
Proof.
  unfold Engine.scoreSelection.
  repeat match goal with |- context [if ?b then _ else _] => destruct b end;
    cbn; auto.
Qed.

(** *** What [handleColorSelect] returns and does *)

Lemma handleColorSelect_not_playing snap color :
  isPlaying (gameState snap) = false ->
  handleColorSelect snap color = (Resolved None, skip).
Proof.
  intro H. unfold Engine.handleColorSelect. now rewrite H.
Qed.

Lemma handleColorSelect_terminal snap color :
  isPlaying (gameState snap) = true ->
  over (scoreSelection snap color) = true ->
  let s := scoreSelection snap color in
  handleColorSelect snap color
  = (Resolved (Some (resultOf s)),
     updateGameState (fun prev =>
       mkGameState (targetColor prev) (options prev) (score prev)
         (level prev) (timeLeft prev) false (highScore prev)
         (newCloseMatches s)) >>
     handleGameEnd snap true >>
     setComboMultiplier (newComboMultiplier s)).
Proof.
  intros Hp Ho. unfold Engine.handleColorSelect, resultOf.
  rewrite Hp, Ho. reflexivity.
Qed.

Lemma handleColorSelect_advance snap color newColors :
  isPlaying (gameState snap) = true ->
  over (scoreSelection snap color) = false ->
  generateGameColors (level (gameState snap) + 1) = Some newColors ->
  let s := scoreSelection snap color in
  handleColorSelect snap color
  = (Resolved (Some (resultOf s)),
     updateGameState (fun prevState =>
       mkGameState (Colors.target newColors) (Colors.options newColors)
         (score prevState + total s) (level prevState + 1) 3
         (isPlaying prevState) (highScore prevState)
         (newCloseMatches s)) >>
     setShowTarget true >>
     setComboMultiplier (newComboMultiplier s)).
Proof.
  intros Hp Ho Hg. unfold Engine.handleColorSelect, generateColors, resultOf.
  rewrite Hp, Ho, Hg. reflexivity.
Qed.

Lemma handleColorSelect_rejected snap color :
  isPlaying (gameState snap) = true ->
  over (scoreSelection snap color) = false ->
  generateGameColors (level (gameState snap) + 1) = None ->
  handleColorSelect snap color = (Rejected, skip).
Proof.
  intros Hp Ho Hg. unfold Engine.handleColorSelect, generateColors.
  now rewrite Hp, Ho, Hg.
Qed.

(** When the promise resolves with a result, the result is the scored
    verdict and the store holds the new counters. *)
Lemma handleColorSelect_resolved snap color r :
  fst (handleColorSelect snap color) = Resolved (Some r) ->
  let s := scoreSelection snap color in
  isPlaying (gameState snap) = true
  /\ r = resultOf s
  /\ forall c : Component,
       let c' := snd (handleColorSelect snap color) c in
       closeMatches (gameState c') = newCloseMatches s
       /\ comboMultiplier c' = newComboMultiplier s
       /\ isPlaying (gameState c')
          = (if over s then false else isPlaying (gameState c))
       /\ level (gameState c')
          = (if over s then level (gameState c) else level (gameState c) + 1)
       /\ score (gameState c')
          = (if over s then score (gameState c)
             else score (gameState c) + total s).
Proof.
  cbv zeta. unfold Engine.handleColorSelect, generateColors, resultOf.
  destruct (isPlaying (gameState snap)); cbn [negb fst snd]; [|discriminate].
  destruct (over (scoreSelection snap color)) eqn:Ho; cbn [fst snd].
  - intro H; injection H as <-. repeat split.
    all: unfold handleGameEnd, endGame, andThen; cbn;
      destruct (localUserData snap);
      try destruct (score (gameState snap) >? _); reflexivity.
  - destruct (generateGameColors _); cbn [fst snd]; [|discriminate].
    intro H; injection H as <-. repeat split.
Qed.

(** The promise callbacks leave the counters alone. *)
Lemma handleGameEndOfComponent_frame snap lost c :
  let c' := handleGameEndOfComponent snap lost c in
  closeMatches (gameState c') = closeMatches (gameState c)
  /\ comboMultiplier c' = comboMultiplier c
  /\ level (gameState c') = level (gameState c)
  /\ score (gameState c') = score (gameState c)
  /\ isPlaying (gameState c') = false
  /\ options (gameState c') = []
  /\ targetColor (gameState c') = EmptyString
  /\ showTarget c' = showTarget c
  /\ showLossDialog c' = true.
Proof.
  unfold handleGameEndOfComponent, handleGameEnd, endGame, updateUserData,
    andThen.
  destruct lost, (localUserData snap) as [d|];
    repeat match goal with
           | |- context [if ?b then _ else _] => destruct b
           end; cbn; repeat split.
Qed.

Lemma handleColorSelect_settles snap color :
  isPlaying (gameState snap) = true ->
  fst (handleColorSelect snap color) <> Rejected ->
  fst (handleColorSelect snap color)
  = Resolved (Some (resultOf (scoreSelection snap color))).
Proof.
  intros Hp Hr.
  destruct (over (scoreSelection snap color)) eqn:Ho.
  - now rewrite handleColorSelect_terminal.
  - destruct (generateGameColors (level (gameState snap) + 1)) eqn:Hg.
    + now rewrite (handleColorSelect_advance _ _ _ Hp Ho Hg).
    + now rewrite handleColorSelect_rejected in Hr.
Qed.

Lemma select_unfold snap color r :
  isPlaying (gameState snap) = true ->
  isProcessingSelection snap = false ->
  fst (handleColorSelect snap color) = Resolved (Some r) ->
  select color snap
  = setIsProcessingSelection false
      ((if gameOver r then handleGameEndOfComponent snap true else skip)
         (setShowFeedback true
            (setFeedbackText (feedbackMessage r)
               (setExactMatch (isExactMatch r)
                  (snd (handleColorSelect snap color)
                     (setIsProcessingSelection true snap)))))).
Proof.
  intros Hp Hf Hs.
  unfold Engine.select, dispatch, Engine.handleColorSelection.
  rewrite Hp, Hf; cbn [negb orb].
  unfold selectionSettled. rewrite Hs. reflexivity.
Qed.

(** The state after a whole selection that the guard lets through and whose
    promise resolves. *)
Lemma select_resolved snap color :
  isPlaying (gameState snap) = true ->
  isProcessingSelection snap = false ->
  fst (handleColorSelect snap color) <> Rejected ->
  let s := scoreSelection snap color in
  let c' := select color snap in
  closeMatches (gameState c') = newCloseMatches s
  /\ comboMultiplier c' = newComboMultiplier s
  /\ isPlaying (gameState c') = negb (over s)
  /\ level (gameState c')
     = (if over s then level (gameState snap) else level (gameState snap) + 1)
  /\ score (gameState c')
     = (if over s then score (gameState snap)
        else score (gameState snap) + total s)
  /\ showTarget c' = (if over s then showTarget snap else true)
  /\ isProcessingSelection c' = false.
Proof.
  intros Hp Hf Hr s c'. subst c' s.
  pose proof (handleColorSelect_settles _ _ Hp Hr) as Hs.
  destruct (handleColorSelect_resolved _ _ _ Hs) as (_ & _ & Hc).
  specialize (Hc (setIsProcessingSelection true snap)).
  cbv zeta in Hc. destruct Hc as (H1 & H2 & H3 & H4 & H5).
  rewrite (select_unfold _ _ _ Hp Hf Hs). cbn [resultOf gameOver].
  set (mid := snd (handleColorSelect snap color)
                (setIsProcessingSelection true snap)) in *.
  assert (Ht : showTarget mid
               = if over (scoreSelection snap color)
                 then showTarget snap else true).
  { subst mid. destruct (over (scoreSelection snap color)) eqn:Ho.
    - rewrite (handleColorSelect_terminal _ _ Hp Ho). cbn [snd].
      unfold handleGameEnd, endGame, andThen.
      destruct (localUserData snap);
        try destruct (score (gameState snap) >? _); reflexivity.
    - destruct (generateGameColors (level (gameState snap) + 1)) eqn:Hg.
      + rewrite (handleColorSelect_advance _ _ _ Hp Ho Hg). reflexivity.
      + now rewrite handleColorSelect_rejected in Hr. }
  destruct (over (scoreSelection snap color)) eqn:Ho.
  - match goal with
    | |- context [handleGameEndOfComponent snap true ?c] =>
        pose proof (handleGameEndOfComponent_frame snap true c) as F
    end.
    cbv zeta in F. destruct F as (F1 & F2 & F3 & F4 & F5 & _ & _ & F8 & _).
    cbn [setIsProcessingSelection gameState comboMultiplier showTarget
         isProcessingSelection].
    rewrite F1, F2, F3, F4, F5, F8. cbn.
    rewrite H1, H2, H4, H5, Ht. repeat split.
  - cbn. rewrite H1, H2, H3, H4, H5, Ht. cbn. rewrite Hp. repeat split.
Qed.

Lemma rem_10_divide (n : Z) : (Z.rem n 10 =? 0) = true <-> (10 | n).
Proof.
  rewrite Z.eqb_eq. apply Z.rem_divide. lia.
Qed.

Lemma closeMatchesBase_reset (g : GameState) :
  (10 | level g) -> closeMatchesBase g = 0.
Proof.
  intro H. unfold closeMatchesBase.
  apply rem_10_divide in H. now rewrite H.
Qed.

Lemma closeMatchesBase_carried (g : GameState) :
  ~ (10 | level g) -> closeMatchesBase g = closeMatches g.
Proof.
  intro H. unfold closeMatchesBase.
  destruct (Z.rem (level g) 10 =? 0) eqn:E; [|reflexivity].
  apply rem_10_divide in E. contradiction.
Qed.

Lemma select_rejected snap color :
  isPlaying (gameState snap) = true ->
  isProcessingSelection snap = false ->
  over (scoreSelection snap color) = false ->
  generateGameColors (level (gameState snap) + 1) = None ->
  select color snap
  = setIsProcessingSelection false
      (handleGameEndOfComponent snap true
         (setIsProcessingSelection true snap)).
Proof.
  intros Hp Hf Ho Hg.
  unfold Engine.select, dispatch, Engine.handleColorSelection.
  rewrite Hp, Hf; cbn [negb orb].
  unfold selectionStarted, selectionSettled.
  now rewrite (handleColorSelect_rejected _ _ Hp Ho Hg).
Qed.

(** *** The two outcomes of a pick that does not end the run at once *)

(** [handleColorSelect] returns unless the pick keeps the run going and the
    color pool throws when asked for the next round's colors. *)
Lemma handleColorSelect_returns snap color :
  isPlaying (gameState snap) = true ->
  over (scoreSelection snap color) = true
  \/ generateGameColors (level (gameState snap) + 1) <> None ->
  fst (handleColorSelect snap color) <> Rejected.
Proof.
  intros Hp [Ho|Hg].
  - now rewrite handleColorSelect_terminal.
  - destruct (over (scoreSelection snap color)) eqn:Ho.
    + now rewrite handleColorSelect_terminal.
    + destruct (generateGameColors (level (gameState snap) + 1)) eqn:E;
        [|contradiction].
      now rewrite (handleColorSelect_advance _ _ _ Hp Ho E).
Qed.

(** When the pool throws, the promise is rejected before any counter is
    written, and the [catch] handler ends the run. *)
Lemma select_rejected_fields snap color :
  isPlaying (gameState snap) = true ->
  isProcessingSelection snap = false ->
  over (scoreSelection snap color) = false ->
  generateGameColors (level (gameState snap) + 1) = None ->
  let c' := select color snap in
  fst (handleColorSelect snap color) = Rejected
  /\ closeMatches (gameState c') = closeMatches (gameState snap)
  /\ comboMultiplier c' = comboMultiplier snap
  /\ level (gameState c') = level (gameState snap)
  /\ score (gameState c') = score (gameState snap)
  /\ isPlaying (gameState c') = false
  /\ showLossDialog c' = true.
Proof.
  intros Hp Hf Ho Hg c'. subst c'.
  rewrite (select_rejected _ _ Hp Hf Ho Hg).
  pose proof (handleGameEndOfComponent_frame snap true
                (setIsProcessingSelection true snap)) as F.
  cbv zeta in F. destruct F as (F1 & F2 & F3 & F4 & F5 & _ & _ & _ & F9).
  split; [now rewrite (handleColorSelect_rejected _ _ Hp Ho Hg)|].
  cbn [setIsProcessingSelection gameState comboMultiplier showLossDialog].
  rewrite F1, F2, F3, F4, F5, F9. repeat split.
Qed.

(** When the round advances, the next one starts with the target shown
    and three seconds on the clock. *)
Lemma select_cases_advance snap color :
  isPlaying (gameState snap) = true ->
  isProcessingSelection snap = false ->
  over (scoreSelection snap color) = false ->
  generateGameColors (level (gameState snap) + 1) <> None ->
  level (gameState (select color snap)) = level (gameState snap) + 1
  /\ showTarget (select color snap) = true
  /\ timeLeft (gameState (select color snap)) = 3.
Proof.
  intros Hp Hf Ho Hg.
  destruct (generateGameColors (level (gameState snap) + 1)) as [colors|]
    eqn:E; [|contradiction].
  assert (Hs : fst (handleColorSelect snap color)
               = Resolved (Some (resultOf (scoreSelection snap color))))
    by now rewrite (handleColorSelect_advance _ _ _ Hp Ho E).
  rewrite (select_unfold _ _ _ Hp Hf Hs).
  rewrite (handleColorSelect_advance _ _ _ Hp Ho E).
  cbn [resultOf gameOver snd]. rewrite Ho. cbn. repeat split.
Qed.

(** *** Combo multiplier *)

(** C2 (amended): for every selection processed while playing, an exact
    match sets the combo multiplier to [min(5, comboMultiplier + 0.5)] and a
    close match sets it to 1, provided the color pool delivers the next
    round's colors when it is asked for them; it is not asked after a close
    match that goes over the limit, which sets the multiplier to 1 in any
    case.  If the pool throws, the run ends and the combo multiplier is left
    as it was. *)
Theorem combo_after_selection snap color :
  isPlaying (gameState snap) = true ->
  isProcessingSelection snap = false ->
  let s := scoreSelection snap color in
  let c' := select color snap in
  let nextColors := generateGameColors (level (gameState snap) + 1) in
  (exact s = true -> nextColors <> None ->
     comboMultiplier c' = Qmin 5 (comboMultiplier snap + 0.5))
  /\ (exact s = false -> close s = true -> nextColors <> None ->
        comboMultiplier c' = 1%Q)
  /\ (exact s = false -> close s = true -> over s = true ->
        comboMultiplier c' = 1%Q)
  /\ (over s = false -> nextColors = None ->
        comboMultiplier c' = comboMultiplier snap
        /\ isPlaying (gameState c') = false).
Proof.
  intros Hp Hf s c' nextColors.
  pose proof (scoring_newComboMultiplier snap color) as Hn.
  cbv zeta in Hn. fold s in Hn.
  assert (Hret : over s = true \/ nextColors <> None ->
                 comboMultiplier c' = newComboMultiplier s).
  { intro H.
    pose proof (handleColorSelect_returns _ _ Hp H) as Hr.
    now destruct (select_resolved _ _ Hp Hf Hr) as (_ & Hcombo & _). }
  split; [|split; [|split]].
  - intros He Hg. rewrite Hret by now right. now rewrite Hn, He.
  - intros He Hc Hg. rewrite Hret by now right. now rewrite Hn, He, Hc.
  - intros He Hc Ho. rewrite Hret by now left. now rewrite Hn, He, Hc.
  - intros Ho Hg.
    destruct (select_rejected_fields _ _ Hp Hf Ho Hg)
      as (_ & _ & Hcombo & _ & _ & Hplay & _).
    split; [exact Hcombo | exact Hplay].
Qed.

(** *** Close matches *)

Lemma scoreSelection_verdict snap color :
  let s := scoreSelection snap color in
  let v := verdict (exact s) (close s) (level (gameState snap))
             (closeMatches (gameState snap)) (comboMultiplier snap) in
  newCloseMatches s = verdictCloseMatches v
  /\ newComboMultiplier s = verdictComboMultiplier v
  /\ over s = verdictGameOver v
  /\ message s = verdictMessage v.
Proof.
  cbv zeta. rewrite scoring_exact, scoring_close, scoring_difference.
  unfold Engine.scoreSelection, verdict.
  repeat match goal with |- context [if ?b then _ else _] => destruct b eqn:? end;
    cbn in *; repeat split; congruence.
Qed.

(** C3: for a selection classified as a close match, with the limit 3 up to
    level 50 and 1 beyond, the verdict is game over exactly when the
    incremented count of close matches exceeds the limit; a close match that
    leaves the count at or under the limit keeps the run going.  The first
    part is about the branch that judges a classified pick, at every level
    and count; the second about the selection of a round so classified. *)
Theorem close_match_terminal_iff_over_limit snap color :
  (forall level closeMatches combo,
     let limit := if level <=? 50 then 3 else 1 in
     let incremented :=
       (if Z.rem level 10 =? 0 then 0 else closeMatches) + 1 in
     let v := verdict false true level closeMatches combo in
     getCloseMatchLimit level = limit
     /\ verdictCloseMatches v = incremented
     /\ (verdictGameOver v = true <-> limit < incremented)
     /\ (verdictGameOver v = false <-> incremented <= limit))
  /\ (let s := scoreSelection snap color in
      let g := gameState snap in
      let v := verdict (exact s) (close s) (level g) (closeMatches g)
                 (comboMultiplier snap) in
      over s = verdictGameOver v
      /\ newCloseMatches s = verdictCloseMatches v
      /\ closeMatchLimit s = getCloseMatchLimit (level g))
  /\ (isPlaying (gameState snap) = true ->
      isProcessingSelection snap = false ->
      let s := scoreSelection snap color in
      exact s = false ->
      close s = true ->
      let limit := if level (gameState snap) <=? 50 then 3 else 1 in
      let incremented := closeMatchesBase (gameState snap) + 1 in
      newCloseMatches s = incremented
      /\ (over s = true <-> limit < incremented)
      /\ (forall r, fst (handleColorSelect snap color) = Resolved (Some r) ->
            (gameOver r = true <-> limit < incremented))
      /\ (limit < incremented ->
            fst (handleColorSelect snap color) = Resolved (Some (resultOf s))
            /\ isPlaying (gameState (select color snap)) = false
            /\ closeMatches (gameState (select color snap)) = incremented)
      /\ (incremented <= limit ->
            generateGameColors (level (gameState snap) + 1) <> None ->
            isPlaying (gameState (select color snap)) = true
            /\ level (gameState (select color snap))
               = level (gameState snap) + 1
            /\ closeMatches (gameState (select color snap)) = incremented)).
Proof.
  split; [|split].
  - intros level closeMatches combo limit incremented v.
    subst v limit incremented. unfold verdict, getCloseMatchLimit.
    set (base := if Z.rem level 10 =? 0 then 0 else closeMatches).
    set (limit := if level <=? 50 then 3 else 1).
    destruct (Z.gtb_spec (base + 1) limit) as [Hgt|Hle];
      cbn [verdictCloseMatches verdictGameOver];
      repeat split; intros; try reflexivity; try lia; try discriminate.
  - destruct (scoreSelection_verdict snap color) as (Hn & _ & Ho & _).
    split; [exact Ho|]. split; [exact Hn|].
    rewrite scoring_closeMatchLimit. reflexivity.
  - intros Hp Hf s He Hc limit incremented.
    pose proof (scoring_newCloseMatches snap color) as Hn.
    pose proof (scoring_over snap color) as Ho.
    pose proof (scoring_closeMatchLimit snap color) as Hl.
    cbv zeta in Hn, Ho. fold s in Hn, Ho, Hl. fold limit in Hl.
    rewrite He, Hc in Hn, Ho. fold incremented in Hn. rewrite Hn, Hl in Ho.
    assert (Hiff : over s = true <-> limit < incremented).
    { rewrite Ho. rewrite Z.gtb_ltb. apply Z.ltb_lt. }
    split; [exact Hn|]. split; [exact Hiff|].
    split; [|split].
    + intros r Hs.
      destruct (handleColorSelect_resolved _ _ _ Hs) as (_ & -> & _).
      exact Hiff.
    + intro Hgt. apply Hiff in Hgt.
      assert (Hs : fst (handleColorSelect snap color)
                   = Resolved (Some (resultOf s))).
      { subst s. now rewrite handleColorSelect_terminal. }
      assert (Hr : fst (handleColorSelect snap color) <> Rejected)
        by (rewrite Hs; discriminate).
      destruct (select_resolved _ _ Hp Hf Hr) as (H1 & _ & H3 & _).
      fold s in H1, H3. rewrite H1, H3, Hgt, Hn. auto.
    + intros Hle Hg.
      assert (Hno : over s = false).
      { destruct (over s); [|reflexivity].
        assert (limit < incremented) by now apply Hiff. lia. }
      assert (Hr : fst (handleColorSelect snap color) <> Rejected)
        by (apply handleColorSelect_returns; [exact Hp | now right]).
      destruct (select_resolved _ _ Hp Hf Hr) as (H1 & _ & H3 & H4 & _).
      fold s in H1, H3, H4. rewrite H1, H3, H4, Hno, Hn. auto.
Qed.

(** A tick of the timer leaves the stored close-match count alone. *)
Lemma runTimer_closeMatches c :
  closeMatches (gameState (dispatch runTimer c)) = closeMatches (gameState c).
Proof.
  unfold dispatch, runTimer.
  destruct (isPlaying (gameState c)); [|reflexivity].
  destruct (timeLeft (gameState c) >? 1); [reflexivity|].
  destruct (showTarget c); [reflexivity|].
  unfold handleGameEnd, endGame, andThen.
  destruct (localUserData c);
    try destruct (score (gameState c) >? _); reflexivity.
Qed.

(** C4 (amended): within a run the close-match count is reset to 0 exactly
    when the selection of a round at a level divisible by 10 is handled,
    before that selection is evaluated, and not when that round starts: the
    selection is judged against 0 and the count stored afterwards is 0, plus
    1 for a close match, while from the start of the round until its
    selection the stored count is the one carried in, which the ticks of the
    timer leave alone.  At the selection of a round at any other level the
    count is carried over, plus 1 for a close match, and never lowered.  If
    the color pool throws when the next round's colors are requested, the
    run ends with the stored count as it was. *)
Theorem closeMatches_reset_when_selection_at_level_divisible_by_10 snap color :
  isPlaying (gameState snap) = true ->
  isProcessingSelection snap = false ->
  let s := scoreSelection snap color in
  let g := gameState snap in
  let increment := if negb (exact s) && close s then 1 else 0 in
  let after := closeMatches (gameState (select color snap)) in
  let nextColors := generateGameColors (level g + 1) in
  closeMatches (gameState (dispatch runTimer snap)) = closeMatches g
  /\ ((10 | level g) ->
        newCloseMatches s = 0 + increment
        /\ (exact s = false -> close s = true ->
            (over s = true <-> closeMatchLimit s < 0 + 1))
        /\ (over s = true \/ nextColors <> None -> after = 0 + increment))
  /\ (~ (10 | level g) ->
        newCloseMatches s = closeMatches g + increment
        /\ (exact s = false -> close s = true ->
            (over s = true <-> closeMatchLimit s < closeMatches g + 1))
        /\ (over s = true \/ nextColors <> None ->
            after = closeMatches g + increment /\ closeMatches g <= after))
  /\ (over s = false -> nextColors <> None ->
        (* the next round starts with the count of this selection,
           whatever its level *)
        level (gameState (select color snap)) = level g + 1
        /\ showTarget (select color snap) = true
        /\ timeLeft (gameState (select color snap)) = 3
        /\ after = newCloseMatches s)
  /\ (over s = false -> nextColors = None ->
        after = closeMatches g
        /\ isPlaying (gameState (select color snap)) = false).
Proof.
  intros Hp Hf s g increment after nextColors.
  pose proof (scoring_newCloseMatches snap color) as Hn.
  pose proof (scoring_over snap color) as Ho.
  cbv zeta in Hn, Ho. fold s g in Hn, Ho.
  assert (Hnew : newCloseMatches s = closeMatchesBase g + increment).
  { rewrite Hn. subst increment.
    destruct (exact s), (close s); cbn; lia. }
  assert (Hafter : over s = true \/ nextColors <> None ->
                   after = newCloseMatches s).
  { intro H. pose proof (handleColorSelect_returns _ _ Hp H) as Hr.
    now destruct (select_resolved _ _ Hp Hf Hr) as (H1 & _). }
  assert (Hover : exact s = false -> close s = true ->
            (over s = true <-> closeMatchLimit s < closeMatchesBase g + 1)).
  { intros He Hc. rewrite Ho, Hn, He, Hc. rewrite Z.gtb_ltb. apply Z.ltb_lt. }
  split; [apply runTimer_closeMatches|].
  split; [|split; [|split]].
  - intro Hd. rewrite (closeMatchesBase_reset _ Hd) in Hnew, Hover.
    split; [exact Hnew|]. split; [exact Hover|].
    intro H. now rewrite (Hafter H).
  - intro Hd. rewrite (closeMatchesBase_carried _ Hd) in Hnew, Hover.
    split; [exact Hnew|]. split; [exact Hover|].
    intro H. rewrite (Hafter H), Hnew. split; [reflexivity|].
    subst increment. destruct (negb (exact s) && close s); lia.
  - intros Hov Hg.
    destruct (select_cases_advance _ _ Hp Hf Hov Hg) as (E1 & E2 & E3).
    split; [exact E1|]. split; [exact E2|]. split; [exact E3|].
    apply Hafter. now right.
  - intros Hov Hg.
    destruct (select_rejected_fields _ _ Hp Hf Hov Hg)
      as (_ & Hcm & _ & _ & _ & Hplay & _).
    split; [exact Hcm | exact Hplay].
Qed.

(** C5 (amended): a selection classified as an exact match never increments
    the close-match count.  When the color pool delivers the next round's
    colors, the selection leaves the count unchanged at a level that is not
    divisible by 10 and sets it to 0 at a level divisible by 10; when the
    pool throws, the run ends with the count as it was. *)
Theorem exact_match_closeMatches snap color :
  isPlaying (gameState snap) = true ->
  isProcessingSelection snap = false ->
  exact (scoreSelection snap color) = true ->
  let g := gameState snap in
  let after := closeMatches (gameState (select color snap)) in
  let nextColors := generateGameColors (level g + 1) in
  (nextColors <> None -> ~ (10 | level g) -> after = closeMatches g)
  /\ (nextColors <> None -> (10 | level g) -> after = 0)
  /\ (nextColors = None ->
        after = closeMatches g
        /\ isPlaying (gameState (select color snap)) = false)
  /\ (0 <= closeMatches g -> after <= closeMatches g).
Proof.
  intros Hp Hf He g after nextColors.
  pose proof (scoring_newCloseMatches snap color) as Hn.
  pose proof (scoring_over snap color) as Ho.
  cbv zeta in Hn, Ho. rewrite He in Hn, Ho. fold g in Hn.
  assert (Hdel : nextColors <> None -> after = closeMatchesBase g).
  { intro Hg.
    assert (Hr : fst (handleColorSelect snap color) <> Rejected)
      by (apply handleColorSelect_returns; [exact Hp | now right]).
    destruct (select_resolved _ _ Hp Hf Hr) as (H1 & _).
    fold after in H1. now rewrite H1, Hn. }
  assert (Hthrow : nextColors = None ->
                   after = closeMatches g
                   /\ isPlaying (gameState (select color snap)) = false).
  { intro Hg.
    destruct (select_rejected_fields _ _ Hp Hf Ho Hg)
      as (_ & Hcm & _ & _ & _ & Hplay & _).
    split; [exact Hcm | exact Hplay]. }
  split; [|split; [|split]].
  - intros Hg Hd. now rewrite Hdel, closeMatchesBase_carried.
  - intros Hg Hd. now rewrite Hdel, closeMatchesBase_reset.
  - exact Hthrow.
  - intro H0. destruct nextColors eqn:Hg.
    + rewrite Hdel by discriminate. unfold closeMatchesBase.
      destruct (Z.rem (level g) 10 =? 0); lia.
    + destruct (Hthrow eq_refl) as (-> & _). lia.
Qed.

(** *** The selection guard *)

(** C6: a call of [select] while a prior selection is being processed (the
    processing flag is up), or while not playing, does nothing at all: the
    state stays as it is, and with it score, level and combo multiplier. *)
Theorem select_ignored_when_processing_or_not_playing snap color :
  isProcessingSelection snap = true \/ isPlaying (gameState snap) = false ->
  select color snap = snap
  /\ (forall c, handleColorSelection snap color c = c)
  /\ (forall c, onClick calculateColorDifference generateGameColors
                  snap color c = c)
  /\ score (gameState (select color snap)) = score (gameState snap)
  /\ level (gameState (select color snap)) = level (gameState snap)
  /\ comboMultiplier (select color snap) = comboMultiplier snap.
Proof.
  intro H.
  assert (Hh : forall c, handleColorSelection snap color c = c).
  { intro c. unfold Engine.handleColorSelection.
    destruct H as [-> | ->]; [reflexivity|].
    now rewrite orb_true_r. }
  assert (Hs : select color snap = snap) by apply Hh.
  split; [exact Hs|]. split; [exact Hh|]. split.
  - intro c. unfold onClick.
    destruct (negb (isProcessingSelection snap) && isPlaying (gameState snap));
      [apply Hh | reflexivity].
  - now rewrite Hs.
Qed.

(** While the first selection is in flight (its synchronous part has run,
    its promise callbacks have not), the processing flag is up. *)
Lemma selection_in_flight snap color :
  isPlaying (gameState snap) = true ->
  over (scoreSelection snap color) = false ->
  isProcessingSelection
    (selectionStarted calculateColorDifference generateGameColors
       snap color snap) = true.
Proof.
  intros Hp Ho. unfold selectionStarted, andThen.
  destruct (generateGameColors (level (gameState snap) + 1)) eqn:Hg.
  - now rewrite (handleColorSelect_advance _ _ _ Hp Ho Hg).
  - now rewrite (handleColorSelect_rejected _ _ Hp Ho Hg).
Qed.

(** *** Failure of the color pool *)

(** When the color pool throws while a selection is handled, the run ends in
    game over through the same game-end routine as a loss, with the same
    outcome as a wrong pick. *)
Lemma generation_failure_ends_run snap color :
  isPlaying (gameState snap) = true ->
  isProcessingSelection snap = false ->
  over (scoreSelection snap color) = false ->
  generateGameColors (level (gameState snap) + 1) = None ->
  let c' := select color snap in
  fst (handleColorSelect snap color) = Rejected
  /\ c' = setIsProcessingSelection false
            (handleGameEndOfComponent snap true
               (setIsProcessingSelection true snap))
  /\ isPlaying (gameState c') = false
  /\ showLossDialog c' = true
  /\ targetColor (gameState c') = EmptyString
  /\ options (gameState c') = []
  /\ isProcessingSelection c' = false
  /\ score (gameState c') = score (gameState snap)
  /\ level (gameState c') = level (gameState snap)
  /\ ~ (isPlaying (gameState c') = true /\ showTarget c' = true
        /\ options (gameState c') = [])
  /\ (forall wrong, over (scoreSelection snap wrong) = true ->
        sameGameOver c' (select wrong snap)).
Proof.
  intros Hp Hf Ho Hg c'.
  pose proof (select_rejected _ _ Hp Hf Ho Hg) as Hc. fold c' in Hc.
  pose proof (handleGameEndOfComponent_frame snap true
                (setIsProcessingSelection true snap)) as F.
  cbv zeta in F. destruct F as (_ & _ & F3 & F4 & F5 & F6 & F7 & _ & F9).
  split; [now rewrite (handleColorSelect_rejected _ _ Hp Ho Hg)|].
  split; [exact Hc|].
  rewrite Hc.
  cbn [setIsProcessingSelection gameState showLossDialog showTarget
       isProcessingSelection].
  rewrite F3, F4, F5, F6, F7, F9.
  repeat (split; [reflexivity|]). split; [intros (K & _); discriminate|].
  intros wrong Hw.
  assert (Hs : fst (handleColorSelect snap wrong)
               = Resolved (Some (resultOf (scoreSelection snap wrong))))
    by now rewrite handleColorSelect_terminal.
  rewrite (select_unfold _ _ _ Hp Hf Hs).
  rewrite (handleColorSelect_terminal _ _ Hp Hw).
  cbn [resultOf gameOver snd]. rewrite Hw.
  unfold sameGameOver, handleGameEndOfComponent, handleGameEnd, endGame,
    updateUserData, andThen.
  destruct (localUserData snap) as [d|];
    repeat match goal with
           | |- context [if ?b then _ else _] => destruct b
           end; cbn; repeat split.
Qed.

(** C9: a color pool that fails by returning no colors (an empty target and
    an empty option list) instead of throwing is not treated as a failure
    while a selection is handled: the promise resolves, the empty round is
    stored and the component is left playing, with the target phase on and
    no options.  [startGame] rejects the same result. *)
Theorem generation_of_no_colors_leaves_round_without_options snap color :
  isPlaying (gameState snap) = true ->
  isProcessingSelection snap = false ->
  over (scoreSelection snap color) = false ->
  generateGameColors (level (gameState snap) + 1)
  = Some (Colors.mk EmptyString []) ->
  let c' := select color snap in
  fst (handleColorSelect snap color)
  = Resolved (Some (resultOf (scoreSelection snap color)))
  /\ isPlaying (gameState c') = true
  /\ showTarget c' = true
  /\ options (gameState c') = []
  /\ targetColor (gameState c') = EmptyString
  /\ level (gameState c') = level (gameState snap) + 1
  /\ showLossDialog c' = showLossDialog snap
  /\ (generateGameColors 1 = Some (Colors.mk EmptyString []) ->
      forall c, isPlaying (gameState (startGame generateGameColors c)) = false).
Proof.
  intros Hp Hf Ho Hg c'. subst c'.
  assert (Hs : fst (handleColorSelect snap color)
               = Resolved (Some (resultOf (scoreSelection snap color))))
    by now rewrite (handleColorSelect_advance _ _ _ Hp Ho Hg).
  split; [exact Hs|].
  rewrite (select_unfold _ _ _ Hp Hf Hs).
  rewrite (handleColorSelect_advance _ _ _ Hp Ho Hg).
  cbn [resultOf gameOver snd]. rewrite Ho. cbn. rewrite Hp.
  repeat split.
  intros H1 c. unfold startGame, generateColors. rewrite H1. reflexivity.
Qed.

(** *** The options grid *)

Lemma renderedOptions_firstn snap :
  renderedOptions snap = firstn 6 (options (gameState snap)).
Proof.
  unfold renderedOptions, slice. cbn [skipn].
  set (l := options (gameState snap)).
  destruct (Nat.le_ge_cases 6 (List.length l)) as [H|H].
  - now rewrite Nat.min_l.
  - rewrite Nat.min_r by exact H.
    rewrite !firstn_all2; auto.
Qed.

(** C10: the grid shows, and lets the player pick, only the first
    [min(6, options.length)] options: a click on one of these swatches,
    while the grid is on screen and no selection is being processed, is the
    selection of its color; an option at position 6 or beyond has no swatch
    and a click there selects nothing, also when the difficulty model asks
    for 7 to 10 options. *)
Theorem only_first_six_options_selectable snap :
  let opts := options (gameState snap) in
  renderedOptions snap = firstn (Nat.min 6 (List.length opts)) opts
  /\ List.length (renderedOptions snap) = Nat.min 6 (List.length opts)
  /\ (forall i, (i < 6)%nat ->
        nth_error (renderedOptions snap) i = nth_error opts i)
  /\ (forall i color, (i < Nat.min 6 (List.length opts))%nat ->
        nth_error opts i = Some color ->
        isPlaying (gameState snap) = true ->
        showTarget snap = false ->
        isProcessingSelection snap = false ->
        (forall c, clickSwatch calculateColorDifference generateGameColors
                     snap i c
                   = handleColorSelection snap color c)
        /\ dispatch (fun snap => clickSwatch calculateColorDifference
                                   generateGameColors snap i) snap
           = select color snap)
  /\ (forall i, (6 <= i)%nat ->
        nth_error (renderedOptions snap) i = None
        /\ forall c, clickSwatch calculateColorDifference generateGameColors
                       snap i c = c)
  /\ (forall L, 7 <= colorCount (difficulty L) ->
        Z.of_nat (List.length opts) = colorCount (difficulty L) ->
        exists color, nth_error opts 6 = Some color
                      /\ nth_error (renderedOptions snap) 6 = None).
Proof.
  intro opts.
  assert (Hlen : List.length (renderedOptions snap)
                 = Nat.min 6 (List.length opts)).
  { rewrite renderedOptions_firstn. apply length_firstn. }
  assert (Hnone : forall i, (6 <= i)%nat ->
            nth_error (renderedOptions snap) i = None).
  { intros i Hi. apply nth_error_None. rewrite Hlen. lia. }
  assert (Hsome : forall i, (i < 6)%nat ->
            nth_error (renderedOptions snap) i = nth_error opts i).
  { intros i Hi. rewrite renderedOptions_firstn, nth_error_firstn.
    apply Nat.ltb_lt in Hi. now rewrite Hi. }
  split; [reflexivity|]. split; [exact Hlen|]. split; [exact Hsome|].
  split; [|split].
  - intros i color Hi Hc Hp Ht Hf.
    assert (Hclick : forall c,
              clickSwatch calculateColorDifference generateGameColors snap i c
              = handleColorSelection snap color c).
    { intro c. unfold clickSwatch, onClick.
      rewrite Hp, Ht, Hf, Hsome, Hc by lia. reflexivity. }
    split; [exact Hclick|]. unfold Engine.select, dispatch. apply Hclick.
  - intros i Hi. split; [now apply Hnone|].
    intro c. unfold clickSwatch. rewrite (Hnone i Hi).
    now destruct (isPlaying (gameState snap) && negb (showTarget snap)).
  - intros L H7 HL.
    destruct (nth_error opts 6) as [color|] eqn:E.
    + exists color. split; [reflexivity | now apply Hnone].
    + apply nth_error_None in E. lia.
Qed.

(** *** The level-1 scenario *)

(** C1 (amended): at level 1, with the selected color equal to the target
    (difference 0), all of the selection time of level 1 left (15 seconds)
    and a combo multiplier of 1, the selection is an exact match worth 100
    accuracy points and 50 speed points; the combo multiplier becomes 1.5,
    the total, computed with the new multiplier, is 225 points, and the
    round advances to level 2. *)
Theorem level1_exact_match_scenario snap color next :
  isPlaying (gameState snap) = true ->
  isProcessingSelection snap = false ->
  level (gameState snap) = 1 ->
  color = targetColor (gameState snap) ->
  (calculateColorDifference (targetColor (gameState snap)) color == 0)%Q ->
  timeLeft (gameState snap) = selectionTime (difficulty 1) ->
  (comboMultiplier snap == 1)%Q ->
  generateGameColors 2 = Some next ->
  selectionTime (difficulty 1) = 15
  /\ exists r,
       fst (handleColorSelect snap color) = Resolved (Some r)
       /\ isExactMatch r = true
       /\ accuracyPoints r = 100
       /\ speedPoints r = 50
       /\ totalPoints r = 225
       /\ gameOver r = false
       /\ (comboMultiplier (select color snap) == 1.5)%Q
       /\ level (gameState (select color snap)) = 2
       /\ score (gameState (select color snap))
          = score (gameState snap) + 225.
Proof.
  intros Hp Hf Hl _ Hd Ht Hc Hg.
  split; [reflexivity|].
  set (s := scoreSelection snap color).
  assert (Hdiff : (difference s == 0)%Q)
    by (unfold s; now rewrite scoring_difference).
  assert (He : exact s = true).
  { unfold s. rewrite scoring_exact. apply Qltb_lt.
    fold s. rewrite Hdiff. reflexivity. }
  assert (Ho : over s = false).
  { pose proof (scoring_over snap color) as K. cbv zeta in K. fold s in K.
    now rewrite K, He. }
  assert (Hn : (newComboMultiplier s == 1.5)%Q).
  { pose proof (scoring_newComboMultiplier snap color) as K.
    cbv zeta in K. fold s in K. rewrite K, He, Hc. reflexivity. }
  destruct (scoring_points snap color) as (Ha & Hs & Htot).
  fold s in Ha, Hs, Htot.
  assert (Hacc : accuracy s = 100).
  { rewrite Ha. rewrite (round_proper _ 0) by (rewrite Hdiff; reflexivity).
    reflexivity. }
  assert (Hspeed : speed s = 50).
  { rewrite Hs, Hl, Ht. reflexivity. }
  assert (Htotal : total s = 225).
  { rewrite Htot, Hacc, Hspeed.
    rewrite (round_proper _ 225) by (rewrite Hn; reflexivity).
    reflexivity. }
  assert (Hg' : generateGameColors (level (gameState snap) + 1) = Some next)
    by now rewrite Hl.
  assert (Hres : fst (handleColorSelect snap color)
                 = Resolved (Some (resultOf s)))
    by (unfold s; now rewrite (handleColorSelect_advance _ _ _ Hp Ho Hg')).
  assert (Hr : fst (handleColorSelect snap color) <> Rejected)
    by (rewrite Hres; discriminate).
  destruct (select_resolved _ _ Hp Hf Hr) as (_ & H2 & _ & H4 & H5 & _).
  fold s in H2, H4, H5. rewrite Ho in H4, H5.
  exists (resultOf s). cbn [resultOf isExactMatch accuracyPoints speedPoints
                             totalPoints gameOver].
  rewrite H2, H4, H5, Hl, Htotal.
  repeat split; auto.
Qed.

End Selection.

(** ** The properties on the concrete runs *)

(** Closes a goal between closed terms by evaluating both sides. *)
Ltac computed := vm_compute; reflexivity.

Open Scope string_scope.

Lemma level1_exact_match_scenario_witness :
  exists r,
    fst (handleColorSelect exampleDifference examplePool scenario "#112233")
    = Resolved (Some r)
    /\ isExactMatch r = true
    /\ accuracyPoints r = 100
    /\ speedPoints r = 50
    /\ totalPoints r = 225
    /\ level (gameState (select exampleDifference examplePool "#112233"
                           scenario)) = 2.
Proof.
  destruct (level1_exact_match_scenario exampleDifference examplePool
              scenario "#112233"
              (Colors.mk "#445566" ["#445566"; "#445567"; "#000000"])
              eq_refl eq_refl eq_refl eq_refl (Qeq_refl 0) eq_refl
              (Qeq_refl 1) eq_refl)
    as (_ & r & Hr & He & Ha & Hs & Ht & _ & _ & Hl & _).
  exists r. repeat split; assumption.
Defined.

(** C1, as the specification states it, fails: in its scenario the total is
    225 points, not 150. *)
Lemma level1_scenario_total_150_counterexample :
  ~ (exists r,
       fst (handleColorSelect exampleDifference examplePool scenario "#112233")
       = Resolved (Some r)
       /\ isExactMatch r = true
       /\ accuracyPoints r = 100
       /\ speedPoints r = 50
       /\ (comboMultiplier (select exampleDifference examplePool "#112233"
                              scenario) == 1.5)%Q
       /\ totalPoints r = 150
       /\ level (gameState (select exampleDifference examplePool "#112233"
                              scenario)) = 2).
Proof.
  intros (r & Hr & _ & _ & _ & _ & Ht & _).
  vm_compute in Hr. injection Hr as <-. discriminate Ht.
Qed.

Lemma combo_after_selection_witness :
  (* level 3, combo multiplier 2: an exact match raises it to 2.5 *)
  (comboMultiplier (select exampleDifference nearPool "#112233"
                      (level3Awaiting nearPool)) == 2.5)%Q
  (* a close match sets it to 1 *)
  /\ comboMultiplier (select exampleDifference nearPool "#112234"
                        (level3Awaiting nearPool)) = 1%Q
  (* an exact match when the pool throws leaves it at 2 and ends the run *)
  /\ (comboMultiplier (select exampleDifference (poolUpTo 3) "#112233"
                         (level3Awaiting (poolUpTo 3))) == 2)%Q
  /\ isPlaying (gameState (select exampleDifference (poolUpTo 3) "#112233"
                             (level3Awaiting (poolUpTo 3)))) = false.
Proof.
  destruct (combo_after_selection exampleDifference nearPool
              (level3Awaiting nearPool) "#112233" ltac:(computed)
                ltac:(computed))
    as (Hexact & _).
  destruct (combo_after_selection exampleDifference nearPool
              (level3Awaiting nearPool) "#112234" ltac:(computed)
                ltac:(computed))
    as (_ & Hclose & _).
  destruct (combo_after_selection exampleDifference (poolUpTo 3)
              (level3Awaiting (poolUpTo 3)) "#112233" ltac:(computed)
                ltac:(computed))
    as (_ & _ & _ & Hthrow).
  cbv zeta in Hexact, Hclose, Hthrow.
  destruct (Hthrow ltac:(computed) ltac:(computed)) as (Hsame & Hover).
  split; [|split; [|split]].
  - rewrite (Hexact ltac:(computed) ltac:(discriminate)). computed.
  - exact (Hclose ltac:(computed) ltac:(computed) ltac:(discriminate)).
  - rewrite Hsame. computed.
  - exact Hover.
Defined.

(** C2, as the specification states it, fails: at level 3 with a combo
    multiplier of 2, an exact match made when the color pool throws leaves
    the multiplier at 2 instead of 2.5, and a wrong pick leaves it at 2
    instead of 1. *)
Lemma combo_rule_counterexample :
  ~ (exact (scoreSelection exampleDifference (level3Awaiting (poolUpTo 3))
              "#112233") = true ->
     (comboMultiplier (select exampleDifference (poolUpTo 3) "#112233"
                         (level3Awaiting (poolUpTo 3)))
      == Qmin 5 (comboMultiplier (level3Awaiting (poolUpTo 3)) + 0.5))%Q)
  /\ ~ (exact (scoreSelection exampleDifference (level3Awaiting nearPool)
                 "#000000") = false ->
        (comboMultiplier (select exampleDifference nearPool "#000000"
                            (level3Awaiting nearPool)) == 1)%Q).
Proof.
  split; intro H; specialize (H ltac:(computed)); vm_compute in H;
    discriminate H.
Qed.

Lemma close_match_terminal_iff_over_limit_witness :
  (* beyond level 50 the limit is 1: a first close match keeps the run
     going, a second one ends it *)
  getCloseMatchLimit 51 = 1
  /\ verdictGameOver (verdict false true 51 0 1) = false
  /\ verdictGameOver (verdict false true 51 1 1) = true
  (* up to level 50 it is 3 *)
  /\ verdictGameOver (verdict false true 49 2 1) = false
  /\ verdictGameOver (verdict false true 49 3 1) = true
  (* a fourth close match at level 4 ends the run *)
  /\ isPlaying (gameState (select exampleDifference nearPool "#112234"
                             threeCloseMatches)) = false
  (* a first one at level 3 does not *)
  /\ isPlaying (gameState (select exampleDifference nearPool "#112234"
                             (level3Awaiting nearPool))) = true.
Proof.
  destruct (close_match_terminal_iff_over_limit exampleDifference nearPool
              threeCloseMatches "#112234") as (Hv & _ & Hfourth).
  destruct (close_match_terminal_iff_over_limit exampleDifference nearPool
              (level3Awaiting nearPool) "#112234") as (_ & _ & Hfirst).
  destruct (Hv 51 0 1%Q) as (Hlimit & _ & _ & H510).
  destruct (Hv 51 1 1%Q) as (_ & _ & H511 & _).
  destruct (Hv 49 2 1%Q) as (_ & _ & _ & H492).
  destruct (Hv 49 3 1%Q) as (_ & _ & H493 & _).
  destruct (Hfourth ltac:(computed) ltac:(computed) ltac:(computed)
    ltac:(computed))
    as (_ & _ & _ & Hend & _).
  destruct (Hfirst ltac:(computed) ltac:(computed) ltac:(computed)
    ltac:(computed))
    as (_ & _ & _ & _ & Hon).
  split; [exact Hlimit|].
  split; [apply H510; vm_compute; discriminate|].
  split; [apply H511; reflexivity|].
  split; [apply H492; vm_compute; discriminate|].
  split; [apply H493; reflexivity|].
  split; [apply Hend; computed|].
  apply Hon; [vm_compute; discriminate | discriminate].
Defined.

Lemma ten_divides_10 : (10 | 10).
Proof. exists 1. reflexivity. Defined.

Lemma ten_does_not_divide_4 : ~ (10 | 4).
Proof. intros (k & Hk). lia. Defined.

Lemma ten_does_not_divide_9 : ~ (10 | 9).
Proof. intros (k & Hk). lia. Defined.

Lemma closeMatches_reset_when_selection_at_level_divisible_by_10_witness :
  (* an exact match at level 9, one close match counted: the round of
     level 10 starts with that count *)
  level (gameState (select exampleDifference nearPool "#112233"
                      level9Awaiting)) = 10
  /\ showTarget (select exampleDifference nearPool "#112233" level9Awaiting)
     = true
  /\ closeMatches (gameState (select exampleDifference nearPool "#112233"
                                level9Awaiting)) = 1
  (* the ticks of its target phase leave the count alone *)
  /\ closeMatches (gameState level10Awaiting) = 1
  /\ closeMatches (gameState (dispatch runTimer level10Awaiting)) = 1
  (* an exact match in that round stores 0, a close match 0 + 1 *)
  /\ closeMatches (gameState (select exampleDifference nearPool "#112233"
                                level10Awaiting)) = 0
  /\ closeMatches (gameState (select exampleDifference nearPool "#112234"
                                level10Awaiting)) = 1
  (* at level 4, three close matches stay three after an exact match *)
  /\ closeMatches (gameState (select exampleDifference nearPool "#112233"
                                threeCloseMatches)) = 3
  (* at level 3 a close match made when the pool throws is not counted *)
  /\ closeMatches (gameState (select exampleDifference (poolUpTo 3) "#112234"
                                (level3Awaiting (poolUpTo 3)))) = 0.
Proof.
  destruct (closeMatches_reset_when_selection_at_level_divisible_by_10
              exampleDifference nearPool level10Awaiting "#112233"
              ltac:(computed) ltac:(computed)) as (Htick & Hten & _).
  destruct (closeMatches_reset_when_selection_at_level_divisible_by_10
              exampleDifference nearPool level10Awaiting "#112234"
              ltac:(computed) ltac:(computed)) as (_ & Hten' & _).
  destruct (closeMatches_reset_when_selection_at_level_divisible_by_10
              exampleDifference nearPool threeCloseMatches "#112233"
              ltac:(computed) ltac:(computed)) as (_ & _ & Hfour & _).
  destruct (closeMatches_reset_when_selection_at_level_divisible_by_10
              exampleDifference (poolUpTo 3) (level3Awaiting (poolUpTo 3))
              "#112234" ltac:(computed)
                ltac:(computed)) as (_ & _ & _ & _ & Hthrow).
  destruct (closeMatches_reset_when_selection_at_level_divisible_by_10
              exampleDifference nearPool level9Awaiting "#112233"
              ltac:(computed) ltac:(computed)) as (_ & _ & _ & Hround & _).
  cbv zeta in Htick, Hten, Hten', Hfour, Hthrow, Hround.
  assert (Hg9 : nearPool (level (gameState level9Awaiting) + 1) <> None)
    by discriminate.
  destruct (Hround ltac:(computed) Hg9) as (R1 & R2 & _ & R4).
  assert (L10 : level (gameState level10Awaiting) = 10) by computed.
  assert (L4 : level (gameState threeCloseMatches) = 4) by computed.
  rewrite L10 in Hten, Hten'. rewrite L4 in Hfour.
  destruct (Hten ten_divides_10) as (_ & _ & Hexact).
  destruct (Hten' ten_divides_10) as (_ & _ & Hclose).
  destruct (Hfour ten_does_not_divide_4) as (_ & _ & Hcarried).
  assert (Hg10 : nearPool (10 + 1) <> None) by discriminate.
  assert (Hg4 : nearPool (4 + 1) <> None) by discriminate.
  destruct (Hcarried (or_intror Hg4)) as (Hcarried' & _).
  destruct (Hthrow ltac:(computed) ltac:(computed)) as (Hthrow' & _).
  split; [rewrite R1; computed|].
  split; [exact R2|].
  split; [rewrite R4; computed|].
  split; [computed|].
  split; [rewrite Htick; computed|].
  split; [rewrite (Hexact (or_intror Hg10)); computed|].
  split; [rewrite (Hclose (or_intror Hg10)); computed|].
  split; [rewrite Hcarried'; computed | rewrite Hthrow'; computed].
Defined.

(** C4, as the specification states it, fails: the round of level 10 starts
    with the close match of an earlier round still counted. *)
Lemma round_start_at_level_10_keeps_closeMatches_counterexample :
  ~ (isPlaying (gameState level10Start) = true ->
     level (gameState level10Start) = 10 ->
     showTarget level10Start = true ->
     timeLeft (gameState level10Start) = 3 ->
     closeMatches (gameState level10Start) = 0).
Proof.
  intro H.
  specialize (H ltac:(computed) ltac:(computed) ltac:(computed)
                ltac:(computed)).
  vm_compute in H. discriminate H.
Qed.

Lemma exact_match_closeMatches_witness :
  closeMatches (gameState (select exampleDifference examplePool "#112233"
                             (awaiting 9 15 2 1))) = 2
  /\ closeMatches (gameState (select exampleDifference examplePool "#112233"
                                (awaiting 10 15 2 1))) = 0
  /\ closeMatches (gameState (select exampleDifference failingPool "#112233"
                                (awaiting 10 15 2 1))) = 2
  /\ closeMatches (gameState (select exampleDifference nearPool "#112233"
                                level10Awaiting)) = 0.
Proof.
  destruct (exact_match_closeMatches exampleDifference examplePool
              (awaiting 9 15 2 1) "#112233" ltac:(computed) ltac:(computed)
                ltac:(computed))
    as (Hnine & _).
  destruct (exact_match_closeMatches exampleDifference examplePool
              (awaiting 10 15 2 1) "#112233" ltac:(computed) ltac:(computed)
                ltac:(computed))
    as (_ & Hten & _).
  destruct (exact_match_closeMatches exampleDifference failingPool
              (awaiting 10 15 2 1) "#112233" ltac:(computed) ltac:(computed)
                ltac:(computed))
    as (_ & _ & Hthrow & _).
  destruct (exact_match_closeMatches exampleDifference nearPool
              level10Awaiting "#112233" ltac:(computed) ltac:(computed)
                ltac:(computed))
    as (_ & Hrun & _).
  split; [exact (Hnine ltac:(discriminate) ten_does_not_divide_9)|].
  split; [exact (Hten ltac:(discriminate) ten_divides_10)|].
  split; [exact (proj1 (Hthrow ltac:(computed)))|].
  exact (Hrun ltac:(discriminate) ten_divides_10).
Defined.

(** C5, as the specification states it, fails: at level 10 an exact match
    turns a close-match count of 2 into 0; in the run that reaches level 10
    with one close match, it turns the 1 into 0. *)
Lemma exact_match_keeps_closeMatches_counterexample :
  ~ (exact (scoreSelection exampleDifference (awaiting 10 15 2 1) "#112233")
     = true ->
     closeMatches (gameState (select exampleDifference examplePool "#112233"
                                (awaiting 10 15 2 1)))
     = closeMatches (gameState (awaiting 10 15 2 1)))
  /\ ~ (exact (scoreSelection exampleDifference level10Awaiting "#112233")
        = true ->
        closeMatches (gameState (select exampleDifference nearPool "#112233"
                                   level10Awaiting))
        = closeMatches (gameState level10Awaiting)).
Proof.
  split; intro H; specialize (H ltac:(computed)); vm_compute in H;
    discriminate H.
Qed.

Lemma select_ignored_when_processing_or_not_playing_witness :
  isProcessingSelection inFlight = true
  /\ select exampleDifference examplePool "#112234" inFlight = inFlight
  /\ select exampleDifference examplePool "#112233" initialComponent
     = initialComponent.
Proof.
  split; [reflexivity|]. split.
  - apply (select_ignored_when_processing_or_not_playing exampleDifference
             examplePool inFlight "#112234").
    left. reflexivity.
  - apply (select_ignored_when_processing_or_not_playing exampleDifference
             examplePool initialComponent "#112233").
    right. reflexivity.
Defined.

Lemma generation_failure_ends_run_example :
  let c' := select exampleDifference failingPool "#112233" scenario in
  isPlaying (gameState c') = false
  /\ showLossDialog c' = true
  /\ sameGameOver c' (select exampleDifference failingPool "#000000" scenario).
Proof.
  destruct (generation_failure_ends_run exampleDifference failingPool
              scenario "#112233" ltac:(computed) ltac:(computed)
                ltac:(computed) ltac:(computed))
    as (_ & _ & Hp & Hd & _ & _ & _ & _ & _ & _ & Hw).
  split; [exact Hp|]. split; [exact Hd|].
  apply Hw. reflexivity.
Defined.

Lemma generation_of_no_colors_leaves_round_without_options_witness :
  (* the first round, its options on screen, the target picked *)
  let c' := select exampleDifference exhaustedPool "#112233"
              (level1Awaiting exhaustedPool) in
  isPlaying (gameState c') = true
  /\ showTarget c' = true
  /\ options (gameState c') = []
  /\ level (gameState c') = 2
  /\ showLossDialog c' = false.
Proof.
  destruct (generation_of_no_colors_leaves_round_without_options
              exampleDifference exhaustedPool (level1Awaiting exhaustedPool)
              "#112233" ltac:(computed) ltac:(computed) ltac:(computed)
                ltac:(computed))
    as (_ & Hp & Ht & Ho & _ & Hl & Hd & _).
  split; [exact Hp|]. split; [exact Ht|]. split; [exact Ho|].
  split; [exact Hl | exact Hd].
Defined.

Lemma only_first_six_options_selectable_witness :
  colorCount (difficulty 50) = 8
  /\ renderedOptions eightOptions
     = ["#112233"; "#112234"; "#000000"; "#000001"; "#000002"; "#000003"]
  (* a click on the first swatch selects its color: the round advances *)
  /\ dispatch (fun snap => clickSwatch exampleDifference examplePool snap 0)
       eightOptions
     = select exampleDifference examplePool "#112233" eightOptions
  /\ level (gameState
              (dispatch (fun snap => clickSwatch exampleDifference examplePool
                                       snap 0) eightOptions)) = 51
  (* a click on the sixth one selects its color: a wrong pick *)
  /\ isPlaying (gameState
                  (dispatch (fun snap => clickSwatch exampleDifference
                                           examplePool snap 5) eightOptions))
     = false
  (* the seventh option has no swatch *)
  /\ nth_error (options (gameState eightOptions)) 6 = Some "#000004"
  /\ nth_error (renderedOptions eightOptions) 6 = None
  /\ clickSwatch exampleDifference examplePool eightOptions 6 eightOptions
     = eightOptions.
Proof.
  destruct (only_first_six_options_selectable exampleDifference examplePool
              eightOptions) as (Hr & _ & _ & Hsel & Hsix & _).
  destruct (Hsel 0%nat "#112233" ltac:(vm_compute; lia) ltac:(computed)
    ltac:(computed)
              ltac:(computed) ltac:(computed)) as (_ & Hfirst).
  destruct (Hsel 5%nat "#000003" ltac:(vm_compute; lia) ltac:(computed)
    ltac:(computed)
              ltac:(computed) ltac:(computed)) as (_ & Hsixth).
  split; [reflexivity|]. split; [exact Hr|].
  split; [exact Hfirst|].
  split; [rewrite Hfirst; reflexivity|].
  split; [rewrite Hsixth; reflexivity|].
  split; [reflexivity|].
  destruct (Hsix 6%nat (Nat.le_refl 6)) as (Hn & Hc).
  split; [exact Hn | apply Hc].
Defined.

Close Scope string_scope.

(** * Further properties of the component *)

(** ** The state after each handler *)

Lemma handleGameEnd_gameState snap lost c :
  gameState (handleGameEnd snap lost c) = finished (gameState c).
Proof.
  unfold handleGameEnd, endGame, andThen, finished.
  destruct lost, (localUserData snap);
    try destruct (score (gameState snap) >? _); reflexivity.
Qed.

Lemma handleGameEndOfComponent_gameState snap lost c :
  gameState (handleGameEndOfComponent snap lost c) = finished (gameState c).
Proof.
  unfold handleGameEndOfComponent, handleGameEnd, endGame, updateUserData,
    andThen, finished.
  destruct lost, (localUserData snap) as [d|];
    repeat match goal with
           | |- context [if ?b then _ else _] => destruct b
           end; reflexivity.
Qed.

Lemma handleGameEnd_comboMultiplier snap lost c :
  comboMultiplier (handleGameEnd snap lost c) = comboMultiplier c.
Proof.
  unfold handleGameEnd, endGame, andThen.
  destruct lost, (localUserData snap);
    try destruct (score (gameState snap) >? _); reflexivity.
Qed.

Lemma handleGameEnd_showTarget snap lost c :
  showTarget (handleGameEnd snap lost c) = showTarget c.
Proof.
  unfold handleGameEnd, endGame, andThen.
  destruct lost, (localUserData snap);
    try destruct (score (gameState snap) >? _); reflexivity.
Qed.

Lemma handleGameEndOfComponent_comboMultiplier snap lost c :
  comboMultiplier (handleGameEndOfComponent snap lost c) = comboMultiplier c.
Proof.
  now destruct (handleGameEndOfComponent_frame snap lost c) as (_ & H & _).
Qed.

Lemma handleGameEndOfComponent_showTarget snap lost c :
  showTarget (handleGameEndOfComponent snap lost c) = showTarget c.
Proof.
  now destruct (handleGameEndOfComponent_frame snap lost c)
    as (_ & _ & _ & _ & _ & _ & _ & H & _).
Qed.

(** ** The selection time of the difficulty model *)

Lemma round_div_1 (t : Z) : Math.round (inject_Z t / 1) = t.
Proof.
  rewrite (round_proper _ (inject_Z t)) by (field).
  apply round_inject_Z.
Qed.

Lemma round_nonneg (x : Q) : (0 <= x)%Q -> 0 <= Math.round x.
Proof.
  intro H. unfold Math.round.
  change 0 with (Qfloor 0). apply Qfloor_resp_le. lra.
Qed.

Lemma round_monotone (x y : Q) : (x <= y)%Q -> Math.round x <= Math.round y.
Proof.
  intro H. unfold Math.round. apply Qfloor_resp_le. lra.
Qed.

Lemma round_le (x : Q) (n : Z) : (x <= inject_Z n)%Q -> Math.round x <= n.
Proof.
  intro H. apply Z.le_trans with (Math.round (inject_Z n)).
  - now apply round_monotone.
  - rewrite round_inject_Z. lia.
Qed.

Lemma round_ge (x : Q) (n : Z) : (inject_Z n <= x)%Q -> n <= Math.round x.
Proof.
  intro H. apply Z.le_trans with (Math.round (inject_Z n)).
  - rewrite round_inject_Z. lia.
  - now apply round_monotone.
Qed.

(** The selection time before the performance rating is applied. *)
Lemma selectionTime_base (L : Z) (pr : Q) :
  selectionTime (calculateDifficulty L pr)
  = Z.max 2 (Math.round
               (inject_Z (if L <=? 10 then 15
                          else if L <=? 80 then Z.max 2 (15 - (L - 10) / 5)
                          else 2) / pr)).
Proof.
  unfold calculateDifficulty; cbn [selectionTime].
  change 5%Q with (inject_Z 5). now rewrite floor_div.
Qed.

Lemma baseSelectionTime_range (L : Z) :
  2 <= (if L <=? 10 then 15
        else if L <=? 80 then Z.max 2 (15 - (L - 10) / 5) else 2) <= 15.
Proof.
  destruct (Z.leb_spec L 10); [lia|].
  destruct (Z.leb_spec L 80); [|lia].
  assert (0 <= (L - 10) / 5) by (apply Z.div_pos; lia). lia.
Qed.

Lemma baseSelectionTime_antitone (L L' : Z) :
  L <= L' ->
  (if L' <=? 10 then 15
   else if L' <=? 80 then Z.max 2 (15 - (L' - 10) / 5) else 2)
  <= (if L <=? 10 then 15
      else if L <=? 80 then Z.max 2 (15 - (L - 10) / 5) else 2).
Proof.
  intro H.
  pose proof (baseSelectionTime_range L) as R.
  pose proof (baseSelectionTime_range L') as R'.
  destruct (Z.leb_spec L 10); [lia|].
  destruct (Z.leb_spec L' 10); [lia|].
  destruct (Z.leb_spec L' 80); [|lia].
  destruct (Z.leb_spec L 80); [|lia].
  assert ((L - 10) / 5 <= (L' - 10) / 5) by (apply Z.div_le_mono; lia).
  lia.
Qed.

Lemma selectionTime_neutral (L : Z) :
  selectionTime (difficulty L)
  = if L <=? 10 then 15
    else if L <=? 80 then Z.max 2 (15 - (L - 10) / 5) else 2.
Proof.
  unfold difficulty. rewrite selectionTime_base, round_div_1.
  pose proof (baseSelectionTime_range L). lia.
Qed.

Lemma selectionTime_neutral_range (L : Z) :
  2 <= selectionTime (difficulty L) <= 15.
Proof.
  rewrite selectionTime_neutral. apply baseSelectionTime_range.
Qed.

(** X24: at the neutral rating the selection time is 15 seconds up to level 10,
    loses a second every five levels down to 2, which it reaches at level
    75; it lies in [[2, 15]] and never grows with the level. *)
Theorem selectionTime_at_neutral_rating (L : Z) :
  selectionTime (difficulty L)
  = (if L <=? 10 then 15
     else if L <=? 80 then Z.max 2 (15 - (L - 10) / 5) else 2)
  /\ 2 <= selectionTime (difficulty L) <= 15
  /\ (forall L', L <= L' ->
        selectionTime (difficulty L') <= selectionTime (difficulty L))
  /\ (selectionTime (difficulty L) = 2 <-> 75 <= L).
Proof.
  pose proof selectionTime_neutral as E.
  split; [apply E|]. split; [rewrite E; apply baseSelectionTime_range|].
  split.
  - intros L' H. rewrite !E. now apply baseSelectionTime_antitone.
  - rewrite E.
    destruct (Z.leb_spec L 10); [lia|].
    destruct (Z.leb_spec L 80); [|lia].
    split; intro H1.
    + destruct (Z.le_gt_cases 75 L) as [|Hlt]; [assumption|].
      assert ((L - 10) / 5 <= 12).
      { replace 12 with (64 / 5) by reflexivity. apply Z.div_le_mono; lia. }
      lia.
    + assert (13 <= (L - 10) / 5).
      { replace 13 with (65 / 5) by reflexivity. apply Z.div_le_mono; lia. }
      lia.
Qed.

(** X25: whatever the level and the performance rating, the player has at
    least two seconds to select; under a positive rating the selection time never
    grows with the level. *)
Theorem selectionTime_floor_any_rating (L : Z) (pr : Q) :
  2 <= selectionTime (calculateDifficulty L pr)
  /\ ((0 < pr)%Q -> forall L', L <= L' ->
        selectionTime (calculateDifficulty L' pr)
        <= selectionTime (calculateDifficulty L pr)).
Proof.
  split; [rewrite selectionTime_base; lia|].
  intros Hpr L' H. rewrite !selectionTime_base.
  apply Z.max_le_compat_l, round_monotone.
  apply Qmult_le_compat_r.
  - rewrite <- Zle_Qle. now apply baseSelectionTime_antitone.
  - apply Qinv_le_0_compat. lra.
Qed.

Lemma ramp_positive (L : Z) : 1 <= L -> (0 < ramp L)%Q.
Proof.
  intro H. apply Qlt_le_trans with (ramp 1); [reflexivity|].
  now apply ramp_monotone.
Qed.

(** X26: a higher performance rating never makes a round easier: the similarity
    threshold does not fall, the selection time does not grow, and the
    number of options is the same. *)
Theorem higher_rating_is_harder (L : Z) (pr pr' : Q) :
  1 <= L ->
  (0 < pr)%Q ->
  (pr <= pr')%Q ->
  (similarity (calculateDifficulty L pr)
   <= similarity (calculateDifficulty L pr'))%Q
  /\ selectionTime (calculateDifficulty L pr')
     <= selectionTime (calculateDifficulty L pr)
  /\ colorCount (calculateDifficulty L pr')
     = colorCount (calculateDifficulty L pr).
Proof.
  intros HL Hpr Hle. split; [|split].
  - rewrite !similarity_ramp. apply Q.min_le_compat_l.
    rewrite !(Qmult_comm (ramp L)).
    apply Qmult_le_compat_r; [exact Hle|].
    apply Qlt_le_weak. now apply ramp_positive.
  - rewrite !selectionTime_base.
    apply Z.max_le_compat_l, round_monotone.
    set (t := if L <=? 10 then 15
              else if L <=? 80 then Z.max 2 (15 - (L - 10) / 5) else 2).
    assert (Ht : (0 <= inject_Z t)%Q).
    { change 0%Q with (inject_Z 0). rewrite <- Zle_Qle.
      pose proof (baseSelectionTime_range L). unfold t. lia. }
    unfold Qdiv. rewrite !(Qmult_comm (inject_Z t)).
    apply Qmult_le_compat_r; [|exact Ht].
    assert (Hpr' : (0 < pr')%Q) by lra.
    apply Qle_shift_inv_l; [exact Hpr|].
    rewrite Qmult_comm. apply Qle_shift_div_r; [exact Hpr'|]. lra.
  - now rewrite !colorCount_div.
Qed.

(** Computes the fields of a state written with the setters. *)
Ltac state_fields :=
  unfold withTimeLeft, updateGameState, finished, skip;
  cbn [gameState showTarget comboMultiplier isProcessingSelection
       showLossDialog isNewHighScore showUsernameInput localUserData
       feedbackText showFeedback exactMatch
       targetColor options score level timeLeft isPlaying highScore
       closeMatches
       setGameState setShowTarget setComboMultiplier
       setIsProcessingSelection setShowLossDialog setIsNewHighScore
       setShowUsernameInput setLocalUserData setFeedbackText
       setShowFeedback setExactMatch].

(** Division by two as a multiplication, for [lra]. *)
Ltac halves :=
  unfold Qdiv in *; change (/ 2)%Q with (1 # 2)%Q in *.

Section Machine.

Variable calculateColorDifference : string -> string -> Q.
Variable generateGameColors : Z -> option Colors.t.

Abbreviation scoreSelection := (scoreSelection calculateColorDifference).
Abbreviation select := (select calculateColorDifference generateGameColors).
Abbreviation step := (step calculateColorDifference generateGameColors).
Abbreviation run := (run calculateColorDifference generateGameColors).
Abbreviation reachable :=
  (reachable calculateColorDifference generateGameColors).

(** The three ways a selection that passes the guard can go. *)
Lemma select_cases snap color :
  isPlaying (gameState snap) = true ->
  isProcessingSelection snap = false ->
  let s := scoreSelection snap color in
  let g := gameState snap in
  let c' := select color snap in
  (over s = true
   /\ gameState c'
      = mkGameState EmptyString [] (score g) (level g) 3 false (highScore g)
          (newCloseMatches s)
   /\ comboMultiplier c' = newComboMultiplier s
   /\ showTarget c' = showTarget snap)
  \/ (over s = false
      /\ exists colors,
           generateGameColors (level g + 1) = Some colors
           /\ gameState c'
              = mkGameState (Colors.target colors) (Colors.options colors)
                  (score g + total s) (level g + 1) 3 true (highScore g)
                  (newCloseMatches s)
           /\ comboMultiplier c' = newComboMultiplier s
           /\ showTarget c' = true)
  \/ (over s = false
      /\ generateGameColors (level g + 1) = None
      /\ gameState c' = finished g
      /\ comboMultiplier c' = comboMultiplier snap
      /\ showTarget c' = showTarget snap).
Proof.
  intros Hp Hf s g c'. subst s g c'.
  destruct (over (scoreSelection snap color)) eqn:Ho.
  - left. split; [reflexivity|].
    assert (Hs : fst (handleColorSelect calculateColorDifference
                        generateGameColors snap color)
                 = Resolved (Some (resultOf (scoreSelection snap color))))
      by now rewrite handleColorSelect_terminal.
    rewrite (select_unfold _ _ _ _ _ Hp Hf Hs).
    rewrite (handleColorSelect_terminal _ _ _ _ Hp Ho).
    cbn [resultOf gameOver snd]. rewrite Ho.
    cbn [setIsProcessingSelection gameState comboMultiplier showTarget].
    rewrite handleGameEndOfComponent_gameState,
      handleGameEndOfComponent_comboMultiplier,
      handleGameEndOfComponent_showTarget.
    unfold andThen. cbn [setShowFeedback setFeedbackText setExactMatch
                         setComboMultiplier gameState comboMultiplier
                         showTarget].
    rewrite handleGameEnd_gameState, handleGameEnd_showTarget.
    repeat split.
  - right.
    destruct (generateGameColors (level (gameState snap) + 1)) as [colors|]
      eqn:Hg.
    + left. split; [reflexivity|]. exists colors. split; [reflexivity|].
      assert (Hs : fst (handleColorSelect calculateColorDifference
                          generateGameColors snap color)
                   = Resolved (Some (resultOf (scoreSelection snap color))))
        by now rewrite (handleColorSelect_advance _ _ _ _ _ Hp Ho Hg).
      rewrite (select_unfold _ _ _ _ _ Hp Hf Hs).
      rewrite (handleColorSelect_advance _ _ _ _ _ Hp Ho Hg).
      cbn [resultOf gameOver snd]. rewrite Ho. cbn. rewrite Hp.
      repeat split.
    + right. split; [reflexivity|]. split; [reflexivity|].
      rewrite (select_rejected _ _ _ _ Hp Hf Ho Hg).
      cbn [setIsProcessingSelection gameState comboMultiplier showTarget].
      rewrite handleGameEndOfComponent_gameState,
        handleGameEndOfComponent_comboMultiplier,
        handleGameEndOfComponent_showTarget.
      repeat split.
Qed.

(** What a click on a swatch amounts to. *)
Lemma click_cases c index :
  step (ClickSwatch index) c = c
  \/ (isPlaying (gameState c) = true
      /\ showTarget c = false
      /\ isProcessingSelection c = false
      /\ exists color,
           nth_error (renderedOptions c) index = Some color
           /\ step (ClickSwatch index) c = select color c).
Proof.
  unfold Engine.step, dispatch, clickSwatch, onClick.
  destruct (isPlaying (gameState c)) eqn:Hp; cbn [andb]; [|now left].
  destruct (showTarget c) eqn:Ht; cbn [negb]; [now left|].
  destruct (nth_error (renderedOptions c) index) as [color|] eqn:Hn;
    [|now left].
  destruct (isProcessingSelection c) eqn:Hf; cbn [negb andb]; [now left|].
  right. repeat split. exists color. split; reflexivity.
Qed.

(** What a tick of the timer amounts to. *)
Lemma tick_cases c :
  let g := gameState c in
  dispatch runTimer c
  = if isPlaying g then
      if timeLeft g >? 1 then withTimeLeft (timeLeft g - 1) c
      else if showTarget c
           then withTimeLeft (selectionTime (difficulty (level g)))
                  (setShowTarget false c)
           else handleGameEnd c true c
    else c.
Proof.
  unfold dispatch, runTimer.
  destruct (isPlaying (gameState c)); [|reflexivity].
  destruct (timeLeft (gameState c) >? 1); [reflexivity|].
  destruct (showTarget c); reflexivity.
Qed.

(** What starting a game amounts to. *)
Lemma startGame_cases c :
  let c' := startGame generateGameColors c in
  (exists colors,
     generateGameColors 1 = Some colors
     /\ Colors.target colors <> EmptyString
     /\ gameState c'
        = mkGameState (Colors.target colors) (Colors.options colors)
            0 1 3 true (highScore (gameState c)) 0
     /\ showTarget c' = true
     /\ comboMultiplier c' = 1%Q)
  \/ ((generateGameColors 1 = None
       \/ exists colors, generateGameColors 1 = Some colors
                         /\ Colors.target colors = EmptyString)
      /\ gameState c'
         = mkGameState EmptyString [] 0 1 3 false (highScore (gameState c)) 0
      /\ showTarget c' = showTarget c
      /\ comboMultiplier c' = comboMultiplier c).
Proof.
  unfold startGame, generateColors.
  destruct (generateGameColors 1) as [colors|].
  - destruct (String.eqb_spec (Colors.target colors) EmptyString) as [E|E].
    + right. split; [right; exists colors; auto|]. repeat split.
    + left. exists colors. repeat split; auto.
  - right. split; [now left|]. repeat split.
Qed.

Lemma handlePlayAgain_startGame c :
  gameState (handlePlayAgain generateGameColors c)
  = gameState (startGame generateGameColors c)
  /\ showTarget (handlePlayAgain generateGameColors c)
     = showTarget (startGame generateGameColors c)
  /\ comboMultiplier (handlePlayAgain generateGameColors c)
     = comboMultiplier (startGame generateGameColors c).
Proof.
  unfold handlePlayAgain, startGame, generateColors, andThen.
  destruct (generateGameColors 1) as [colors|]; [|repeat split].
  destruct (Colors.target colors =? EmptyString)%string; repeat split.
Qed.

(** Induction over the reachable states. *)
Lemma reachable_ind (P : Component -> Prop) :
  P initialComponent ->
  (forall c e, reachable c -> P c -> P (step e c)) ->
  forall c, reachable c -> P c.
Proof.
  intros H0 Hstep c (events & ->).
  induction events as [|e events IH] using rev_ind.
  - exact H0.
  - unfold Engine.run in *. rewrite fold_left_app. cbn [fold_left].
    apply Hstep; [|exact IH]. now exists events.
Qed.

Lemma reachable_step c e : reachable c -> reachable (step e c).
Proof.
  intros (events & ->). exists (events ++ [e]).
  unfold Engine.run. now rewrite fold_left_app.
Qed.

(** ** Invariants of the reachable states *)

Lemma halfStep_bounds q : halfStep q -> (1 <= q <= 5)%Q.
Proof.
  intros (k & Hk & E). rewrite E.
  destruct Hk as [H2 H10]. Z_facts_to_Q. halves. lra.
Qed.

Lemma halfStep_next q : halfStep q -> halfStep (Qmin 5 (q + 0.5)).
Proof.
  intros (k & Hk & E).
  destruct (Z.le_gt_cases k 9) as [H|H].
  - exists (k + 1). split; [lia|].
    rewrite Q.min_r.
    + rewrite E, inject_Z_plus. change (inject_Z 1) with 1%Q. field.
    + rewrite E. Z_facts_to_Q. halves. lra.
  - exists 10. split; [lia|].
    assert (k = 10) by lia. subst k.
    rewrite Q.min_l; [reflexivity|]. rewrite E. halves.
    change (inject_Z 10) with 10%Q. lra.
Qed.

Lemma halfStep_1 : halfStep 1.
Proof. exists 2. split; [lia | reflexivity]. Qed.

Lemma newComboMultiplier_halfStep snap color :
  halfStep (comboMultiplier snap) ->
  halfStep (newComboMultiplier (scoreSelection snap color)).
Proof.
  intro H. pose proof (scoring_newComboMultiplier calculateColorDifference
                         snap color) as E.
  cbv zeta in E. rewrite E.
  destruct (exact _); [now apply halfStep_next|].
  destruct (close _); [apply halfStep_1 | exact H].
Qed.

Lemma total_nonneg snap color :
  (0 <= comboMultiplier snap)%Q ->
  0 <= total (scoreSelection snap color).
Proof.
  intro H.
  destruct (scoring_points calculateColorDifference snap color)
    as (Ha & Hs & Ht).
  pose proof (scoring_newComboMultiplier calculateColorDifference
                snap color) as E. cbv zeta in E.
  rewrite Ht. apply round_nonneg.
  assert (0 <= accuracy (scoreSelection snap color)) by (rewrite Ha; lia).
  assert (0 <= speed (scoreSelection snap color)).
  { rewrite Hs. apply round_nonneg.
    pose proof (Q.le_max_l 0 (inject_Z (timeLeft (gameState snap)) /
      inject_Z (selectionTime (difficulty (level (gameState snap)))))).
    lra. }
  assert (Hn : (0 <= newComboMultiplier (scoreSelection snap color))%Q).
  { rewrite E. destruct (exact _); [|destruct (close _); [lra | exact H]].
    apply Q.min_glb; lra. }
  apply Qmult_le_0_compat; [|exact Hn].
  change 0%Q with (inject_Z 0). rewrite <- Zle_Qle. lia.
Qed.

Lemma newCloseMatches_nonneg snap color :
  0 <= closeMatches (gameState snap) ->
  0 <= newCloseMatches (scoreSelection snap color).
Proof.
  intro H. pose proof (scoring_newCloseMatches calculateColorDifference
                         snap color) as E.
  cbv zeta in E. rewrite E. unfold closeMatchesBase.
  destruct (exact (scoreSelection snap color));
    [|destruct (close (scoreSelection snap color))];
    destruct (Z.rem (level (gameState snap)) 10 =? 0); lia.
Qed.

(** The count a round is entered with stays within the limit of that
    round, however the pick was classified: the limit only changes after
    level 50, a level at which the count restarts from 0. *)
Lemma newCloseMatches_within_next_limit snap color :
  let g := gameState snap in
  let s := scoreSelection snap color in
  0 <= closeMatches g ->
  closeMatches g <= getCloseMatchLimit (level g) ->
  over s = false ->
  newCloseMatches s <= getCloseMatchLimit (level g + 1).
Proof.
  intros g s H0 Hlim Ho. subst s.
  pose proof (scoring_newCloseMatches calculateColorDifference snap color)
    as En.
  pose proof (scoring_over calculateColorDifference snap color) as Eo.
  pose proof (scoring_closeMatchLimit calculateColorDifference snap color)
    as El.
  cbv zeta in En, Eo. fold g in En, El.
  assert (Hbase : 0 <= closeMatchesBase g <= closeMatches g).
  { unfold closeMatchesBase. destruct (Z.rem (level g) 10 =? 0); lia. }
  assert (Hbase50 : level g = 50 -> closeMatchesBase g = 0).
  { intro H. unfold closeMatchesBase. now rewrite H. }
  unfold getCloseMatchLimit in *.
  destruct (exact (scoreSelection snap color)) eqn:He.
  - rewrite En.
    destruct (Z.leb_spec (level g + 1) 50), (Z.leb_spec (level g) 50); lia.
  - destruct (close (scoreSelection snap color)) eqn:Hc;
      [|rewrite Ho in Eo; discriminate].
    rewrite Ho, El in Eo. symmetry in Eo.
    rewrite Z.gtb_ltb in Eo. apply Z.ltb_ge in Eo.
    destruct (Z.leb_spec (level g + 1) 50), (Z.leb_spec (level g) 50); lia.
Qed.

Lemma wellFormed_ext c1 c2 :
  gameState c1 = gameState c2 ->
  showTarget c1 = showTarget c2 ->
  comboMultiplier c1 = comboMultiplier c2 ->
  wellFormed c2 -> wellFormed c1.
Proof.
  unfold wellFormed. intros -> -> ->. exact (fun H => H).
Qed.

Lemma wellFormed_initial : wellFormed initialComponent.
Proof.
  unfold wellFormed, initialComponent, initialGameState; state_fields.
  repeat split; try lia; try discriminate.
  apply halfStep_1.
Qed.

Lemma wellFormed_startGame c :
  wellFormed c -> wellFormed (startGame generateGameColors c).
Proof.
  intros (_ & _ & _ & _ & _ & Hcombo & _).
  destruct (startGame_cases c) as [(colors & _ & _ & Eg & Et & Ec)
                                  |(_ & Eg & Et & Ec)];
    unfold wellFormed; rewrite Eg, Ec; try rewrite Et; state_fields.
  - repeat split; try lia; try discriminate. apply halfStep_1.
  - repeat split; try lia; try discriminate. exact Hcombo.
Qed.

Lemma wellFormed_tick c : wellFormed c -> wellFormed (dispatch runTimer c).
Proof.
  intros W. pose proof W as (Hl & Hs & Ht & Hc & Hlim & Hcombo & Hnp & Hp).
  rewrite tick_cases. cbv zeta.
  destruct (isPlaying (gameState c)) eqn:Ep; [|exact W].
  destruct (Z.gtb_spec (timeLeft (gameState c)) 1) as [Hgt|Hle].
  - unfold wellFormed; state_fields. rewrite Ep.
    specialize (Hp eq_refl). repeat split; auto; try lia; try discriminate.
  - destruct (showTarget c) eqn:Es.
    + pose proof (selectionTime_neutral_range (level (gameState c))) as Hr.
      unfold wellFormed; state_fields. rewrite Ep.
      repeat split; auto; try lia; try discriminate.
    + unfold wellFormed.
      rewrite handleGameEnd_gameState, handleGameEnd_comboMultiplier.
      state_fields.
      repeat split; auto; try lia; try discriminate.
Qed.

Lemma wellFormed_select c color :
  isPlaying (gameState c) = true ->
  isProcessingSelection c = false ->
  showTarget c = false ->
  wellFormed c -> wellFormed (select color c).
Proof.
  intros Ep Ef Es W.
  pose proof W as (Hl & Hs & Ht & Hc & Hlim & Hcombo & Hnp & Hp).
  specialize (Hlim Ep).
  pose proof (newComboMultiplier_halfStep c color Hcombo) as Hn.
  pose proof (newCloseMatches_nonneg c color Hc) as Hm.
  destruct (select_cases c color Ep Ef)
    as [(Ho & Eg & Ec & Et)
       |[(Ho & colors & _ & Eg & Ec & Et)|(Ho & _ & Eg & Ec & Et)]];
    cbv zeta in *; unfold wellFormed; rewrite Eg, Ec; try rewrite Et;
    state_fields.
  - repeat split; auto; try lia; try discriminate.
  - pose proof (newCloseMatches_within_next_limit c color Hc Hlim Ho) as K1.
    cbv zeta in K1.
    assert (0 <= total (scoreSelection c color)).
    { apply total_nonneg. destruct (halfStep_bounds _ Hcombo). lra. }
    repeat split; auto; try lia; try discriminate.
  - repeat split; auto; try lia; try discriminate.
Qed.

Lemma wellFormed_step c e : wellFormed c -> wellFormed (step e c).
Proof.
  intro W. destruct e; cbn [Engine.step].
  - now apply wellFormed_startGame.
  - destruct (handlePlayAgain_startGame c) as (E1 & E2 & E3).
    apply (wellFormed_ext _ _ E1 E2 E3). now apply wellFormed_startGame.
  - now apply wellFormed_tick.
  - destruct (click_cases c index) as [E|(Ep & Es & Ef & color & _ & E)];
      cbn [Engine.step] in E; rewrite E; [exact W|].
    now apply wellFormed_select.
  - exact W.
  - exact W.
  - exact W.
  - exact W.
Qed.

Lemma reachable_wellFormed c : reachable c -> wellFormed c.
Proof.
  apply reachable_ind; [exact wellFormed_initial|].
  intros c0 e _. apply wellFormed_step.
Qed.

(** X1: in every state the component can reach the level is at least 1, the
    score and the close-match count are not negative, and the clock shows
    between 1 and 15 seconds: it never reaches 0. *)
Theorem reachable_counters_in_range c :
  reachable c ->
  let g := gameState c in
  1 <= level g
  /\ 0 <= score g
  /\ 1 <= timeLeft g <= 15
  /\ 0 <= closeMatches g.
Proof.
  intro R. destruct (reachable_wellFormed c R) as (A & B & C & D & _).
  cbv zeta. auto.
Qed.

(** X2: while a run is on, the clock never shows more than the duration of
    the phase it is in: 3 seconds while the target is shown, the selection
    time of the level afterwards. *)
Theorem reachable_clock_within_phase c :
  reachable c ->
  isPlaying (gameState c) = true ->
  timeLeft (gameState c)
  <= (if showTarget c then viewTime (difficulty (level (gameState c)))
      else selectionTime (difficulty (level (gameState c)))).
Proof.
  intros R Hp.
  destruct (reachable_wellFormed c R) as (_ & _ & _ & _ & _ & _ & _ & H).
  exact (H Hp).
Qed.

(** X3: in every reachable state the combo multiplier is one of 1, 1.5, 2,
    ..., 5. *)
Theorem reachable_combo_half_steps c :
  reachable c ->
  (exists k : Z, 2 <= k <= 10 /\ (comboMultiplier c == inject_Z k / 2)%Q)
  /\ (1 <= comboMultiplier c <= 5)%Q.
Proof.
  intro R.
  destruct (reachable_wellFormed c R) as (_ & _ & _ & _ & _ & H & _).
  split; [exact H | now apply halfStep_bounds].
Qed.

(** X4: while a run is on, the stored close-match count is not negative
    and never exceeds the close-match limit of the current level: at most
    3 up to level 50 and at most 1 beyond. *)
Theorem reachable_closeMatches_within_limit c :
  reachable c ->
  isPlaying (gameState c) = true ->
  0 <= closeMatches (gameState c) <= getCloseMatchLimit (level (gameState c))
  /\ (level (gameState c) <= 50 -> closeMatches (gameState c) <= 3)
  /\ (51 <= level (gameState c) -> closeMatches (gameState c) <= 1).
Proof.
  intros R Hp.
  destruct (reachable_wellFormed c R) as (_ & _ & _ & H0 & H1 & _).
  specialize (H1 Hp). unfold getCloseMatchLimit in *.
  destruct (Z.leb_spec (level (gameState c)) 50); repeat split; lia.
Qed.

(** X5: whenever no run is on, the target is empty, there are no options
    and the clock is back at 3. *)
Theorem reachable_idle_is_cleared c :
  reachable c ->
  isPlaying (gameState c) = false ->
  targetColor (gameState c) = EmptyString
  /\ options (gameState c) = []
  /\ timeLeft (gameState c) = 3.
Proof.
  intros R Hp.
  destruct (reachable_wellFormed c R) as (_ & _ & _ & _ & _ & _ & H & _).
  exact (H Hp).
Qed.

(** X6: while a run is on, the target and the options on display are a
    pair the color pool delivered: whatever holds of every result of the
    pool holds of them. *)
Theorem reachable_colors_from_pool (P : string -> list string -> Prop) c :
  (forall L colors, generateGameColors L = Some colors ->
                    P (Colors.target colors) (Colors.options colors)) ->
  reachable c ->
  isPlaying (gameState c) = true ->
  P (targetColor (gameState c)) (options (gameState c)).
Proof.
  intros HP R. revert c R.
  apply (reachable_ind
           (fun c => isPlaying (gameState c) = true ->
                     P (targetColor (gameState c)) (options (gameState c)))).
  - discriminate.
  - intros c e _ IH.
    assert (Hstart : isPlaying (gameState (startGame generateGameColors c))
                     = true ->
                     P (targetColor (gameState
                                       (startGame generateGameColors c)))
                       (options (gameState
                                   (startGame generateGameColors c)))).
    { destruct (startGame_cases c) as [(colors & Hg & _ & Eg & _)
                                      |(_ & Eg & _)];
        rewrite Eg; state_fields; [|discriminate].
      intros _. now apply (HP 1). }
    destruct e; cbn [Engine.step].
    + exact Hstart.
    + destruct (handlePlayAgain_startGame c) as (E1 & _). rewrite E1.
      exact Hstart.
    + rewrite tick_cases. cbv zeta.
      destruct (isPlaying (gameState c)) eqn:Ep; [|rewrite Ep; discriminate].
      destruct (timeLeft (gameState c) >? 1); [state_fields; auto|].
      destruct (showTarget c); [state_fields; auto|].
      rewrite handleGameEnd_gameState. state_fields. discriminate.
    + destruct (click_cases c index) as [E|(Ep & Es & Ef & color & _ & E)];
        cbn [Engine.step] in E; rewrite E; [exact IH|].
      destruct (select_cases c color Ep Ef)
        as [(_ & Eg & _)|[(_ & colors & Hg & Eg & _)|(_ & _ & Eg & _)]];
        cbv zeta in Eg; rewrite Eg; state_fields; try discriminate.
      intros _. now apply (HP (level (gameState c) + 1)).
    + exact IH.
    + exact IH.
    + exact IH.
    + exact IH.
Qed.

(** X7: within a run, that is under timer ticks and clicks on swatches, the
    score never decreases and the level never decreases; the level grows by
    at most one, and when it does a new round begins with the target shown
    and 3 seconds on the clock. *)
Theorem score_and_level_never_decrease c e :
  reachable c ->
  inRun e ->
  let c' := step e c in
  score (gameState c) <= score (gameState c')
  /\ level (gameState c) <= level (gameState c') <= level (gameState c) + 1
  /\ (level (gameState c') = level (gameState c) + 1 ->
      isPlaying (gameState c') = true
      /\ showTarget c' = true
      /\ timeLeft (gameState c') = 3).
Proof.
  intros R He c'. subst c'.
  destruct (reachable_wellFormed c R)
    as (_ & _ & _ & _ & _ & Hcombo & _).
  destruct e; try contradiction; cbn [Engine.step].
  - rewrite tick_cases. cbv zeta.
    destruct (isPlaying (gameState c)); [|lia].
    destruct (timeLeft (gameState c) >? 1); [state_fields; lia|].
    destruct (showTarget c); [state_fields; lia|].
    rewrite handleGameEnd_gameState. state_fields. lia.
  - destruct (click_cases c index) as [E|(Ep & Es & Ef & color & _ & E)];
      cbn [Engine.step] in E; rewrite E; [lia|].
    destruct (select_cases c color Ep Ef)
      as [(_ & Eg & _)|[(_ & colors & Hg & Eg & _ & Et)|(_ & _ & Eg & _)]];
      cbv zeta in *; rewrite Eg; try rewrite Et; state_fields; try lia.
    assert (0 <= total (scoreSelection c color)).
    { apply total_nonneg. destruct (halfStep_bounds _ Hcombo). lra. }
    repeat split; lia.
Qed.

(** X8: every pick that is not an exact match earns no accuracy points; a
    close match earns exactly its speed points. *)
Theorem non_exact_pick_earns_no_accuracy snap color :
  let s := scoreSelection snap color in
  exact s = false ->
  accuracy s = 0 /\ (close s = true -> total s = speed s).
Proof.
  intros s He.
  destruct (scoring_points calculateColorDifference snap color)
    as (Ha & _ & Ht). fold s in Ha, Ht.
  assert (Hacc : accuracy s = 0).
  { rewrite Ha. unfold s in He. rewrite scoring_exact in He. fold s in He.
    apply Qltb_ge in He.
    assert (1000 <= Math.round (difference s * 1000)).
    { apply round_ge. change (inject_Z 1000) with 1000%Q. lra. }
    lia. }
  split; [exact Hacc|]. intro Hc.
  pose proof (scoring_newComboMultiplier calculateColorDifference snap color)
    as En. cbv zeta in En. fold s in En. rewrite He, Hc in En.
  rewrite Ht, En, Hacc.
  rewrite (round_proper _ (inject_Z (speed s))) by (cbn [Z.add]; ring).
  apply round_inject_Z.
Qed.

Lemma accuracy_bounds snap color :
  (0 <= calculateColorDifference (targetColor (gameState snap)) color)%Q ->
  0 <= accuracy (scoreSelection snap color) <= 100.
Proof.
  intro Hd.
  destruct (scoring_points calculateColorDifference snap color) as (Ha & _).
  rewrite Ha, scoring_difference.
  assert (0 <= Math.round
                 (calculateColorDifference (targetColor (gameState snap))
                    color * 1000))
    by (apply round_nonneg; lra).
  lia.
Qed.

Lemma speed_bounds snap color :
  timeLeft (gameState snap)
  <= selectionTime (difficulty (level (gameState snap))) ->
  0 <= speed (scoreSelection snap color) <= 50.
Proof.
  intro Ht.
  destruct (scoring_points calculateColorDifference snap color)
    as (_ & Hs & _).
  pose proof (selectionTime_neutral_range (level (gameState snap))) as Hr.
  set (t := selectionTime (difficulty (level (gameState snap)))) in *.
  assert (Hbonus : (0 <= Qmax 0 (inject_Z (timeLeft (gameState snap))
                                 / inject_Z t) <= 1)%Q).
  { split; [apply Q.le_max_l|]. apply Q.max_lub; [lra|].
    apply Qle_shift_div_r.
    - change 0%Q with (inject_Z 0). rewrite <- Zlt_Qlt. lia.
    - rewrite Qmult_1_l. now rewrite <- Zle_Qle. }
  rewrite Hs. split; [apply round_nonneg; lra|].
  apply round_le. change (inject_Z 50) with 50%Q. lra.
Qed.

Lemma total_bounds snap color :
  0 <= accuracy (scoreSelection snap color) <= 100 ->
  0 <= speed (scoreSelection snap color) <= 50 ->
  (1 <= comboMultiplier snap <= 5)%Q ->
  0 <= total (scoreSelection snap color) <= 750.
Proof.
  intros Hacc Hspeed Hc.
  destruct (scoring_points calculateColorDifference snap color)
    as (_ & _ & Htot).
  set (s := scoreSelection snap color) in *.
  assert (Hn : (1 <= newComboMultiplier s <= 5)%Q).
  { pose proof (scoring_newComboMultiplier calculateColorDifference
                  snap color) as En. cbv zeta in En. fold s in En.
    rewrite En. destruct (exact s); [|destruct (close s); lra].
    split; [apply Q.min_glb; lra | apply Q.le_min_l]. }
  assert (H150 : (0 <= inject_Z (accuracy s + speed s) <= 150)%Q).
  { split.
    - change 0%Q with (inject_Z 0). rewrite <- Zle_Qle. lia.
    - change 150%Q with (inject_Z 150). rewrite <- Zle_Qle. lia. }
  rewrite Htot. split.
  - apply round_nonneg. apply Qmult_le_0_compat; lra.
  - apply round_le. change (inject_Z 750) with (150 * 5)%Q.
    apply Qle_trans with (inject_Z (accuracy s + speed s) * 5)%Q.
    + rewrite !(Qmult_comm (inject_Z (accuracy s + speed s))).
      apply Qmult_le_compat_r; lra.
    + apply Qmult_le_compat_r; lra.
Qed.

(** X9: with a distance that is not negative, no more time left than the
    selection time and a combo multiplier between 1 and 5, a pick earns
    between 0 and 100 accuracy points, between 0 and 50 speed points and
    between 0 and 750 points in total. *)
Theorem selection_points_bounds snap color :
  let g := gameState snap in
  let s := scoreSelection snap color in
  (0 <= calculateColorDifference (targetColor g) color)%Q ->
  timeLeft g <= selectionTime (difficulty (level g)) ->
  (1 <= comboMultiplier snap <= 5)%Q ->
  0 <= accuracy s <= 100
  /\ 0 <= speed s <= 50
  /\ 0 <= total s <= 750.
Proof.
  intros g s Hd Ht Hc.
  pose proof (accuracy_bounds snap color Hd) as Hacc.
  pose proof (speed_bounds snap color Ht) as Hspeed.
  split; [exact Hacc|]. split; [exact Hspeed|].
  now apply total_bounds.
Qed.

(** X10: with a distance that is never negative, the score of a reachable
    state is at most 750 points for each level completed. *)
Theorem reachable_score_bound c :
  (forall a b, (0 <= calculateColorDifference a b)%Q) ->
  reachable c ->
  score (gameState c) <= 750 * (level (gameState c) - 1).
Proof.
  intros Hd R. revert c R.
  apply (reachable_ind
           (fun c => score (gameState c) <= 750 * (level (gameState c) - 1))).
  - cbn. lia.
  - intros c e R IH.
    destruct (reachable_wellFormed c R)
      as (_ & _ & _ & _ & _ & Hcombo & _ & Hclock).
    assert (Hstart : score (gameState (startGame generateGameColors c))
                     <= 750 * (level (gameState
                                        (startGame generateGameColors c)) - 1)).
    { destruct (startGame_cases c) as [(colors & _ & _ & Eg & _)
                                      |(_ & Eg & _)];
        rewrite Eg; state_fields; lia. }
    destruct e; cbn [Engine.step]; try exact IH.
    + exact Hstart.
    + destruct (handlePlayAgain_startGame c) as (E1 & _). rewrite E1.
      exact Hstart.
    + rewrite tick_cases. cbv zeta.
      destruct (isPlaying (gameState c)); [|exact IH].
      destruct (timeLeft (gameState c) >? 1); [state_fields; exact IH|].
      destruct (showTarget c); [state_fields; exact IH|].
      rewrite handleGameEnd_gameState. state_fields. exact IH.
    + destruct (click_cases c index) as [E|(Ep & Es & Ef & color & _ & E)];
        cbn [Engine.step] in E; rewrite E; [exact IH|].
      specialize (Hclock Ep). rewrite Es in Hclock.
      pose proof (total_bounds c color (accuracy_bounds c color (Hd _ _))
                    (speed_bounds c color Hclock)
                    (halfStep_bounds _ Hcombo)) as Htot.
      destruct (select_cases c color Ep Ef)
        as [(_ & Eg & _)|[(_ & colors & Hg & Eg & _)|(_ & _ & Eg & _)]];
        cbv zeta in *; rewrite Eg; state_fields; lia.
Qed.

(** X11: after a selection that passes the guard the run is still on
    exactly when the pick was an exact match, or a close match that keeps
    the count within the limit, and the color pool delivered the colors of
    the next level. *)
Theorem run_continues_iff snap color :
  isPlaying (gameState snap) = true ->
  isProcessingSelection snap = false ->
  let s := scoreSelection snap color in
  let g := gameState snap in
  isPlaying (gameState (select color snap)) = true
  <-> ((exact s = true
        \/ (close s = true
            /\ closeMatchesBase g + 1 <= getCloseMatchLimit (level g)))
       /\ generateGameColors (level g + 1) <> None).
Proof.
  intros Hp Hf s g.
  pose proof (scoring_over calculateColorDifference snap color) as Eo.
  pose proof (scoring_newCloseMatches calculateColorDifference snap color)
    as En.
  pose proof (scoring_closeMatchLimit calculateColorDifference snap color)
    as El.
  cbv zeta in Eo, En. fold s g in Eo, En, El.
  assert (Hover : over s = false
                  <-> (exact s = true
                       \/ (close s = true
                           /\ closeMatchesBase g + 1
                              <= getCloseMatchLimit (level g)))).
  { rewrite Eo. unfold getCloseMatchLimit. rewrite <- El.
    destruct (exact s); [intuition|].
    destruct (close s).
    - rewrite En, Z.gtb_ltb, Z.ltb_ge. intuition; discriminate.
    - intuition; discriminate. }
  destruct (select_cases snap color Hp Hf)
    as [(Ho & Eg & _)|[(Ho & colors & Hg & Eg & _)|(Ho & Hg & Eg & _)]];
    cbv zeta in *; fold s g in Ho, Eg; rewrite Eg; state_fields.
  - split; [discriminate|]. intros (H & _). apply Hover in H. congruence.
  - fold g in Hg. rewrite Hg. split; [|reflexivity].
    intros _. split; [now apply Hover | discriminate].
  - fold g in Hg. rewrite Hg. split; [discriminate|].
    intros (_ & H). contradiction.
Qed.

(** X12: starting a game puts a run on exactly when the color pool delivers
    colors with a target for level 1.  Either way the score is 0, the level
    1, the close-match count 0 and the clock at 3; a start that succeeds
    shows the target with a combo multiplier of 1, a start that fails
    leaves target and options empty and does not open the loss dialog. *)
Theorem startGame_outcome c :
  let c' := startGame generateGameColors c in
  (isPlaying (gameState c') = true
   <-> exists colors, generateGameColors 1 = Some colors
                      /\ Colors.target colors <> EmptyString)
  /\ score (gameState c') = 0
  /\ level (gameState c') = 1
  /\ closeMatches (gameState c') = 0
  /\ timeLeft (gameState c') = 3
  /\ isProcessingSelection c' = false
  /\ showLossDialog c' = showLossDialog c
  /\ (isPlaying (gameState c') = true ->
      showTarget c' = true /\ comboMultiplier c' = 1%Q
      /\ generateGameColors 1
         = Some (Colors.mk (targetColor (gameState c'))
                           (options (gameState c'))))
  /\ (isPlaying (gameState c') = false ->
      targetColor (gameState c') = EmptyString
      /\ options (gameState c') = []).
Proof.
  cbv zeta.
  assert (Hflag : isProcessingSelection (startGame generateGameColors c)
                  = false
                  /\ showLossDialog (startGame generateGameColors c)
                     = showLossDialog c).
  { unfold startGame, generateColors, andThen.
    destruct (generateGameColors 1) as [colors|]; [|split; reflexivity].
    destruct (Colors.target colors =? EmptyString)%string; split; reflexivity. }
  destruct Hflag as (Hflag & Hdialog).
  destruct (startGame_cases c)
    as [(colors & Hg & Hne & Eg & Et & Ec)
       |([Hg|(colors & Hg & He)] & Eg & Et & Ec)];
    cbv zeta in *; rewrite Eg, Hflag, Hdialog; state_fields.
  - repeat split; auto.
    + exists colors. auto.
    + rewrite Hg. now destruct colors.
    + discriminate.
    + discriminate.
  - repeat split; auto; try discriminate.
    intros (colors & Hc & _). congruence.
  - repeat split; auto; try discriminate.
    intros (colors' & Hc & Hne). congruence.
Qed.

(** X13: a selection never leaves the processing flag up, whether its
    promise resolves or is rejected; in every reachable state the flag is
    down, so the guard never locks the player out. *)
Theorem processing_flag_released c :
  (forall color, isProcessingSelection c = false ->
                 isProcessingSelection (select color c) = false)
  /\ (reachable c -> isProcessingSelection c = false).
Proof.
  assert (Hsel : forall c0 color, isProcessingSelection c0 = false ->
                   isProcessingSelection (select color c0) = false).
  { intros c0 color Hf.
    unfold Engine.select, dispatch, Engine.handleColorSelection.
    rewrite Hf. cbn [orb].
    destruct (isPlaying (gameState c0)); cbn [negb]; [|exact Hf].
    unfold selectionSettled, andThen. reflexivity. }
  split; [apply Hsel|].
  revert c. apply reachable_ind; [reflexivity|].
  intros c e _ IH. destruct e; cbn [Engine.step]; try exact IH.
  - unfold startGame, generateColors, andThen.
    destruct (generateGameColors 1) as [colors|]; [|reflexivity].
    destruct (Colors.target colors =? EmptyString)%string; reflexivity.
  - unfold handlePlayAgain, startGame, generateColors, andThen.
    destruct (generateGameColors 1) as [colors|]; [|reflexivity].
    destruct (Colors.target colors =? EmptyString)%string; reflexivity.
  - rewrite tick_cases. cbv zeta.
    destruct (isPlaying (gameState c)); [|exact IH].
    destruct (timeLeft (gameState c) >? 1); [exact IH|].
    destruct (showTarget c); [exact IH|].
    unfold handleGameEnd, endGame, andThen.
    destruct (localUserData c);
      try destruct (score (gameState c) >? _); reflexivity.
  - destruct (click_cases c index) as [E|(_ & _ & Ef & color & _ & E)];
      cbn [Engine.step] in E; rewrite E; [exact IH|].
    now apply Hsel.
Qed.

(** X14: once no run is on, timer ticks and clicks on swatches change
    nothing, however many there are: only a start brings the game back. *)
Theorem idle_ignores_ticks_and_clicks events c :
  isPlaying (gameState c) = false ->
  Forall inRun events ->
  run events c = c.
Proof.
  intros Hp H. induction H as [|e events He _ IH]; [reflexivity|].
  unfold Engine.run in *. cbn [fold_left].
  assert (E : step e c = c).
  { destruct e; try contradiction; cbn [Engine.step].
    - rewrite tick_cases. cbv zeta. now rewrite Hp.
    - destruct (click_cases c index) as [E|(Ep & _)]; [exact E|congruence]. }
  rewrite E. exact IH.
Qed.

End Machine.

(** ** The timer *)

Lemma withTimeLeft_same c : withTimeLeft (timeLeft (gameState c)) c = c.
Proof.
  destruct c as [g t q f l n u d ft sf em]. now destruct g.
Qed.

Lemma withTimeLeft_twice t t' c :
  withTimeLeft t (withTimeLeft t' c) = withTimeLeft t c.
Proof. reflexivity. Qed.

Lemma withTimeLeft_fields t c :
  isPlaying (gameState (withTimeLeft t c)) = isPlaying (gameState c)
  /\ timeLeft (gameState (withTimeLeft t c)) = t
  /\ showTarget (withTimeLeft t c) = showTarget c
  /\ level (gameState (withTimeLeft t c)) = level (gameState c).
Proof. repeat split. Qed.

Lemma ticks_S n c : ticks (S n) c = dispatch runTimer (ticks n c).
Proof. reflexivity. Qed.

Lemma ticks_add n m c : ticks (n + m) c = ticks n (ticks m c).
Proof. unfold ticks. apply Nat.iter_add. Qed.

(** While more than [n] seconds are left, [n] ticks only lower the clock. *)
Lemma countdown n c :
  isPlaying (gameState c) = true ->
  Z.of_nat n < timeLeft (gameState c) ->
  ticks n c = withTimeLeft (timeLeft (gameState c) - Z.of_nat n) c.
Proof.
  intros Hp. induction n as [|n IH]; intro Hn.
  - cbn [ticks Nat.iter Z.of_nat]. rewrite Z.sub_0_r.
    symmetry. apply withTimeLeft_same.
  - rewrite ticks_S, IH by lia. rewrite tick_cases. cbv zeta.
    destruct (withTimeLeft_fields (timeLeft (gameState c) - Z.of_nat n) c)
      as (E1 & E2 & _).
    rewrite E1, E2, Hp.
    destruct (Z.gtb_spec (timeLeft (gameState c) - Z.of_nat n) 1); [|lia].
    rewrite withTimeLeft_twice. f_equal. lia.
Qed.

(** The tick that finds one second left on the clock of the target phase
    hides the target. *)
Lemma target_phase_end c :
  isPlaying (gameState c) = true ->
  showTarget c = true ->
  1 <= timeLeft (gameState c) ->
  ticks (Z.to_nat (timeLeft (gameState c))) c
  = withTimeLeft (selectionTime (difficulty (level (gameState c))))
      (setShowTarget false c).
Proof.
  intros Hp Hs Ht.
  set (t := timeLeft (gameState c)) in *.
  replace (Z.to_nat t) with (S (Z.to_nat (t - 1))) by lia.
  rewrite ticks_S, countdown by (first [exact Hp | fold t; lia]).
  rewrite tick_cases. cbv zeta. fold t.
  destruct (withTimeLeft_fields (t - Z.of_nat (Z.to_nat (t - 1))) c)
    as (E1 & E2 & E3 & E4).
  rewrite E1, E2, E3, E4, Hp, Hs.
  destruct (Z.gtb_spec (t - Z.of_nat (Z.to_nat (t - 1))) 1);
    [lia | reflexivity].
Qed.

(** X15: a round that starts with the target shown keeps showing it, the
    clock running down, until as many ticks have passed as there were
    seconds on the clock (3 at the start of a round); that tick hides the
    target and puts the selection time of the level on the clock. *)
Theorem target_phase_lasts_its_seconds c :
  isPlaying (gameState c) = true ->
  showTarget c = true ->
  1 <= timeLeft (gameState c) ->
  let g := gameState c in
  (forall n, Z.of_nat n < timeLeft g ->
             ticks n c = withTimeLeft (timeLeft g - Z.of_nat n) c)
  /\ ticks (Z.to_nat (timeLeft g)) c
     = withTimeLeft (selectionTime (difficulty (level g)))
         (setShowTarget false c).
Proof.
  intros Hp Hs Ht g. subst g. split.
  - intros n Hn. now apply countdown.
  - now apply target_phase_end.
Qed.

Lemma handleGameEnd_showLossDialog snap c :
  showLossDialog (handleGameEnd snap true c) = true.
Proof.
  unfold handleGameEnd, endGame, andThen.
  destruct (localUserData snap);
    try destruct (score (gameState snap) >? _); reflexivity.
Qed.

(** X16: a round that is left alone is lost by timeout at the tick number
    3 + [selectionTime(level)] after its start, and not before: until then
    the run is on with score and level untouched; that tick ends the run,
    opens the loss dialog and clears target and options, the score, the
    level and the close-match count staying as they were. *)
Theorem untouched_round_times_out c :
  isPlaying (gameState c) = true ->
  showTarget c = true ->
  timeLeft (gameState c) = 3 ->
  let g := gameState c in
  let t := Z.to_nat (selectionTime (difficulty (level g))) in
  (forall n, (n < 3 + t)%nat ->
             isPlaying (gameState (ticks n c)) = true
             /\ score (gameState (ticks n c)) = score g
             /\ level (gameState (ticks n c)) = level g
             /\ showTarget (ticks n c) = (n <? 3)%nat)
  /\ gameState (ticks (3 + t) c) = finished g
  /\ showLossDialog (ticks (3 + t) c) = true.
Proof.
  intros Hp Hs Ht g t.
  pose proof (selectionTime_neutral_range (level g)) as Hr.
  set (sel := withTimeLeft (selectionTime (difficulty (level g)))
                (setShowTarget false c)).
  assert (H3 : ticks 3 c = sel).
  { pose proof (target_phase_end c Hp Hs ltac:(lia)) as H.
    rewrite Ht in H. exact H. }
  assert (Hsel : forall k, Z.of_nat k < selectionTime (difficulty (level g)) ->
            ticks (k + 3) c
            = withTimeLeft (selectionTime (difficulty (level g)) - Z.of_nat k)
                sel).
  { intros k Hk. rewrite ticks_add, H3.
    rewrite (countdown k sel) by (first [exact Hp | exact Hk]).
    unfold sel. state_fields. reflexivity. }
  split; [|split].
  - intros n Hn. destruct (Nat.ltb_spec n 3) as [Hlt|Hge].
    + rewrite (countdown n c Hp) by lia. state_fields. auto.
    + replace n with ((n - 3) + 3)%nat by lia.
      rewrite Hsel by (subst t; lia). unfold sel. state_fields. auto.
  - replace (3 + t)%nat with (S ((t - 1) + 3)) by (subst t; lia).
    rewrite ticks_S, Hsel by (subst t; lia).
    rewrite tick_cases. cbv zeta. unfold sel. state_fields. rewrite Hp.
    destruct (Z.gtb_spec (selectionTime (difficulty (level g))
                          - Z.of_nat (t - 1)) 1); [subst t; lia|].
    rewrite handleGameEnd_gameState. reflexivity.
  - replace (3 + t)%nat with (S ((t - 1) + 3)) by (subst t; lia).
    rewrite ticks_S, Hsel by (subst t; lia).
    rewrite tick_cases. cbv zeta. unfold sel. state_fields. rewrite Hp.
    destruct (Z.gtb_spec (selectionTime (difficulty (level g))
                          - Z.of_nat (t - 1)) 1); [subst t; lia|].
    apply handleGameEnd_showLossDialog.
Qed.

(** ** The end of a run *)

(** X17: ending the run is idempotent: a second call of the game-end
    handler from the same render changes nothing, and the component's
    handler after the hook's, which is what a lost selection runs, leaves
    the state the component's handler alone would. *)
Theorem handleGameEnd_idempotent snap lost c :
  handleGameEnd snap lost (handleGameEnd snap lost c)
  = handleGameEnd snap lost c
  /\ handleGameEndOfComponent snap lost (handleGameEnd snap lost c)
     = handleGameEndOfComponent snap lost c
  /\ handleGameEndOfComponent snap lost
       (handleGameEndOfComponent snap lost c)
     = handleGameEndOfComponent snap lost c.
Proof.
  unfold handleGameEndOfComponent, handleGameEnd, endGame, updateUserData,
    andThen.
  destruct lost, (localUserData snap) as [d|];
    repeat match goal with
           | |- context [if ?b then _ else _] => destruct b
           end; repeat split.
Qed.


(** * Properties of the earlier revisions *)

Section Revisions.

Variable calculateColorDifference : string -> string -> Q.
Variable generateColorsWithWorker : Z -> Q -> Rated.Reply.

Abbreviation judge := (Rated.Guarded.judge calculateColorDifference).
Abbreviation guarded :=
  (Rated.Guarded.handleColorSelect calculateColorDifference
     generateColorsWithWorker).
Abbreviation unguarded :=
  (Rated.Unguarded.handleColorSelect calculateColorDifference
     generateColorsWithWorker).

(** Computes the fields of a state written with the setters. *)
Ltac rated_fields :=
  unfold Rated.endGame, Rated.andThen, Rated.skip;
  cbn [Rated.gameState Rated.isLoading Rated.showTarget Rated.showLossDialog
       Rated.isNewHighScore Rated.showUsernameInput Rated.localUserData
       Rated.feedbackText Rated.showFeedback Rated.exactMatch
       Rated.performanceRating Rated.closeMatches Rated.levelStarted
       Rated.comboMultiplier Rated.isProcessingSelection
       Rated.setGameState Rated.setIsLoading Rated.setShowTarget
       Rated.setShowLossDialog Rated.setIsNewHighScore
       Rated.setShowUsernameInput Rated.setFeedbackText
       Rated.setShowFeedback Rated.setExactMatch
       Rated.setPerformanceRating Rated.setCloseMatches
       Rated.setLevelStarted Rated.setComboMultiplier
       Rated.setIsProcessingSelection
       stopPlaying nextRound firstRound setClock negb orb andb
       targetColor options score level timeLeft isPlaying highScore].

Lemma judge_isExactMatch snap color :
  Rated.Guarded.isExactMatch (judge snap color)
  = Qltb (calculateColorDifference
            (targetColor (Rated.gameState snap)) color) 0.01.
Proof.
  unfold Rated.Guarded.judge.
  repeat match goal with |- context [if ?b then _ else _] => destruct b end;
    reflexivity.
Qed.

Lemma judge_difference snap color :
  Rated.Guarded.difference (judge snap color)
  = calculateColorDifference (targetColor (Rated.gameState snap)) color.
Proof.
  unfold Rated.Guarded.judge.
  repeat match goal with |- context [if ?b then _ else _] => destruct b end;
    reflexivity.
Qed.

Lemma judge_currentTenLevelBlock snap color :
  Rated.Guarded.currentTenLevelBlock (judge snap color)
  = level (Rated.gameState snap) / 10.
Proof.
  unfold Rated.Guarded.judge.
  change 10%Q with (inject_Z 10). rewrite floor_div.
  repeat match goal with |- context [if ?b then _ else _] => destruct b end;
    reflexivity.
Qed.

Lemma judge_newCloseMatches snap color :
  Rated.Guarded.newCloseMatches (judge snap color)
  = (if Rated.levelStarted snap =? level (Rated.gameState snap) / 10
     then Rated.closeMatches snap else 0)
    + (if Rated.Guarded.isExactMatch (judge snap color) then 0 else 1).
Proof.
  rewrite judge_isExactMatch. unfold Rated.Guarded.judge.
  change 10%Q with (inject_Z 10). rewrite floor_div.
  destruct (Rated.levelStarted snap =? level (Rated.gameState snap) / 10);
    cbn [negb];
    destruct (Qltb (calculateColorDifference
                      (targetColor (Rated.gameState snap)) color) 0.01);
    cbn [negb andb];
    repeat match goal with |- context [if ?b then _ else _] => destruct b end;
    cbn [Rated.Guarded.newCloseMatches]; lia.
Qed.

Lemma judge_newPerformanceRating snap color :
  Rated.Guarded.newPerformanceRating (judge snap color)
  = if Rated.Guarded.isExactMatch (judge snap color)
    then Qmin 1.1 (Rated.performanceRating snap + 0.01)
    else Qmax 0.9 (Rated.performanceRating snap - 0.02).
Proof.
  rewrite judge_isExactMatch. unfold Rated.Guarded.judge.
  destruct (Qltb (calculateColorDifference
                    (targetColor (Rated.gameState snap)) color) 0.01);
    cbn [negb andb];
    repeat match goal with |- context [if ?b then _ else _] => destruct b end;
    reflexivity.
Qed.

Lemma judge_gameOver snap color :
  let j := judge snap color in
  let g := Rated.gameState snap in
  Rated.Guarded.gameOver j
  = (negb (Rated.Guarded.isExactMatch j)
     && (Rated.Guarded.newCloseMatches j
         >? (if level g <=? 50 then 3 else 1)))
    || Qle_bool (Rated.mismatchThreshold (level g))
         (Rated.Guarded.difference j).
Proof.
  cbv zeta. rewrite judge_newCloseMatches, judge_isExactMatch,
    judge_difference.
  unfold Rated.Guarded.judge.
  change 10%Q with (inject_Z 10). rewrite floor_div.
  destruct (Rated.levelStarted snap =? level (Rated.gameState snap) / 10);
    cbn [negb];
    destruct (Qltb (calculateColorDifference
                      (targetColor (Rated.gameState snap)) color) 0.01);
    cbn [negb andb orb];
    repeat match goal with
           | |- context [if ?b then _ else _] => destruct b eqn:?
           end; cbn in *; congruence.
Qed.

Lemma rating_down (pr : Q) :
  (0.9 <= pr <= 1.1)%Q -> (0.9 <= Qmax 0.9 (pr - 0.02) <= 1.1)%Q.
Proof.
  intro H. split; [apply Q.le_max_l | apply Q.max_lub; lra].
Qed.

Lemma rating_up (pr : Q) :
  (0.9 <= pr <= 1.1)%Q -> (0.9 <= Qmin 1.1 (pr + 0.01) <= 1.1)%Q.
Proof.
  intro H. split; [apply Q.min_glb; lra | apply Q.le_min_l].
Qed.

(** X19: in both earlier revisions a selection keeps the performance
    rating between 0.9 and 1.1, whatever its outcome. *)
Theorem performanceRating_stays_in_band snap color :
  (0.9 <= Rated.performanceRating snap <= 1.1)%Q ->
  (0.9 <= Rated.performanceRating
            (Rated.Guarded.handleColorSelect calculateColorDifference
               generateColorsWithWorker snap color snap) <= 1.1)%Q
  /\ (0.9 <= Rated.performanceRating
               (Rated.Unguarded.handleColorSelect calculateColorDifference
                  generateColorsWithWorker snap color snap) <= 1.1)%Q.
Proof.
  intro H. split.
  - unfold Rated.Guarded.handleColorSelect.
    destruct (negb (isPlaying (Rated.gameState snap))
              || Rated.isProcessingSelection snap); [exact H|].
    pose proof (judge_newPerformanceRating snap color) as E.
    assert (Hn : (0.9 <= Rated.Guarded.newPerformanceRating (judge snap color)
                  <= 1.1)%Q).
    { rewrite E. destruct (Rated.Guarded.isExactMatch _);
        [now apply rating_up | now apply rating_down]. }
    destruct (Rated.Guarded.gameOver (judge snap color)).
    + destruct (Rated.localUserData snap); rated_fields; exact Hn.
    + destruct (generateColorsWithWorker _ _); rated_fields;
        try exact Hn; try exact H.
      destruct (Rated.localUserData snap); rated_fields; exact H.
  - unfold Rated.Unguarded.handleColorSelect, Rated.endGame.
    repeat match goal with
           | |- context [if ?b then _ else _] => destruct b
           | |- context [match generateColorsWithWorker ?l ?r with _ => _ end] =>
               destruct (generateColorsWithWorker l r)
           | |- context [match Rated.localUserData snap with _ => _ end] =>
               destruct (Rated.localUserData snap)
           end; rated_fields;
      first [exact H | now apply rating_up | now apply rating_down].
Qed.

Lemma block_changes_iff (L : Z) :
  1 <= L -> ((L - 1) / 10 =? L / 10) = negb (Z.rem L 10 =? 0).
Proof.
  intro H. rewrite Z.rem_mod_nonneg by lia.
  destruct (Z.eqb_spec ((L - 1) / 10) (L / 10)),
           (Z.eqb_spec (L mod 10) 0); cbn [negb]; try reflexivity;
    exfalso; Z.div_mod_to_equations; lia.
Qed.

(** X20: in the revision with the processing flag the count of close
    matches restarts when the ten-level block of the level differs from
    the block of the last selection.  Along a run, where that block is the
    one of the level before, this is the reset at a level divisible by 10
    of the latest revision; a selection that advances the round keeps the
    two in step. *)
Theorem block_reset_is_reset_at_levels_divisible_by_10 snap color :
  let g := Rated.gameState snap in
  let j := judge snap color in
  1 <= level g ->
  Rated.levelStarted snap = (level g - 1) / 10 ->
  Rated.Guarded.newCloseMatches j
  = (if Z.rem (level g) 10 =? 0 then 0 else Rated.closeMatches snap)
    + (if Rated.Guarded.isExactMatch j then 0 else 1)
  /\ (isPlaying g = true ->
      Rated.isProcessingSelection snap = false ->
      Rated.Guarded.gameOver j = false ->
      forall colors,
        generateColorsWithWorker (level g + 1)
          (Rated.Guarded.newPerformanceRating j) = Rated.Answer colors ->
        let c' := guarded snap color snap in
        level (Rated.gameState c') = level g + 1
        /\ Rated.levelStarted c' = (level (Rated.gameState c') - 1) / 10
        /\ Rated.closeMatches c' = Rated.Guarded.newCloseMatches j).
Proof.
  intros g j HL Hs. split.
  - unfold j. rewrite judge_newCloseMatches. fold g. rewrite Hs.
    rewrite block_changes_iff by exact HL.
    now destruct (Z.rem (level g) 10 =? 0).
  - intros Hp Hf Ho colors Hw c'. subst c'.
    unfold Rated.Guarded.handleColorSelect. fold g j.
    rewrite Hp, Hf, Ho, Hw. rated_fields.
    unfold j. rewrite judge_currentTenLevelBlock. fold g.
    repeat split. f_equal. lia.
Qed.

Lemma mismatchThreshold_bounds (L : Z) :
  (0.05 <= Rated.mismatchThreshold L)%Q
  /\ (1 <= L -> (Rated.mismatchThreshold L <= 0.099)%Q).
Proof.
  unfold Rated.mismatchThreshold.
  assert (Hmin : Z.min L 50 <= 50) by lia.
  split.
  - Z_facts_to_Q. lra.
  - intro H. assert (1 <= Z.min L 50) by lia. Z_facts_to_Q. lra.
Qed.

(** X21: in the revision with the processing flag an exact match never
    ends the run: it is below every mismatch threshold (which lies between
    0.05 and 0.099) and does not count as a close match; when the worker
    answers, the round advances with the combo multiplier raised and the
    processing flag down. *)
Theorem exact_match_advances_in_guarded_revision snap color colors :
  let g := Rated.gameState snap in
  let j := judge snap color in
  isPlaying g = true ->
  Rated.isProcessingSelection snap = false ->
  Rated.Guarded.isExactMatch j = true ->
  generateColorsWithWorker (level g + 1)
    (Rated.Guarded.newPerformanceRating j) = Rated.Answer colors ->
  let c' := guarded snap color snap in
  Rated.Guarded.gameOver j = false
  /\ isPlaying (Rated.gameState c') = true
  /\ level (Rated.gameState c') = level g + 1
  /\ score (Rated.gameState c') = score g + Rated.Guarded.totalPoints j
  /\ timeLeft (Rated.gameState c') = 3
  /\ Rated.showTarget c' = true
  /\ Rated.comboMultiplier c' = Rated.Guarded.newComboMultiplier j
  /\ Rated.isProcessingSelection c' = false.
Proof.
  intros g j Hp Hf He Hw c'. subst c'.
  assert (Ho : Rated.Guarded.gameOver j = false).
  { pose proof (judge_gameOver snap color) as E. cbv zeta in E.
    pose proof (judge_isExactMatch snap color) as Ee.
    pose proof (judge_difference snap color) as Ed.
    fold j g in E, Ee, Ed. rewrite He in Ee. symmetry in Ee.
    apply Qltb_lt in Ee.
    rewrite E, He, Ed. cbn [negb andb orb].
    destruct (Qle_bool (Rated.mismatchThreshold (level g))
                (calculateColorDifference (targetColor g) color)) eqn:K;
      [|reflexivity].
    apply Qle_bool_iff in K.
    destruct (mismatchThreshold_bounds (level g)) as (B & _). lra. }
  split; [exact Ho|].
  unfold Rated.Guarded.handleColorSelect. fold g j.
  rewrite Hp, Hf, Ho, Hw. rated_fields. fold g. rewrite Hp.
  repeat split.
Qed.

(** X22: in the revision with the processing flag, when nothing ever
    answers the request for the next colors, the selection stops there with
    the processing flag up and nothing else changed, and every later
    selection is ignored. *)
Theorem silent_worker_locks_selection snap color :
  let g := Rated.gameState snap in
  let j := judge snap color in
  isPlaying g = true ->
  Rated.isProcessingSelection snap = false ->
  Rated.Guarded.gameOver j = false ->
  generateColorsWithWorker (level g + 1)
    (Rated.Guarded.newPerformanceRating j) = Rated.NoAnswer ->
  let c' := guarded snap color snap in
  c' = Rated.setIsProcessingSelection true snap
  /\ Rated.isProcessingSelection c' = true
  /\ (forall color' c, guarded c' color' c = c)
  /\ (forall color' c,
        Rated.Guarded.debouncedHandleColorSelect calculateColorDifference
          generateColorsWithWorker c' color' c = c).
Proof.
  intros g j Hp Hf Ho Hw c'.
  assert (E : c' = Rated.setIsProcessingSelection true snap).
  { subst c'. unfold Rated.Guarded.handleColorSelect. fold g j.
    rewrite Hp, Hf, Ho, Hw. reflexivity. }
  split; [exact E|]. rewrite E. split; [reflexivity|]. split.
  - intros color' c. unfold Rated.Guarded.handleColorSelect.
    rated_fields. now rewrite orb_true_r.
  - intros color' c. unfold Rated.Guarded.debouncedHandleColorSelect.
    reflexivity.
Qed.

(** X23: the first pick of a new ten-level block, when it is a close pick
    and the limit was reached in the block before.  The revision without
    the guard tests the count of the old block: the run ends, the count
    going to 0.  The revision with the processing flag judges the pick
    against the restarted count: it is the first close match of the block
    and the run goes on. *)
Theorem boundary_pick_differs_between_revisions snap color :
  let g := Rated.gameState snap in
  let limit := if level g <=? 50 then 3 else 1 in
  let d := calculateColorDifference (targetColor g) color in
  Rated.levelStarted snap <> level g / 10 ->
  (0.01 <= d)%Q ->
  (d < Rated.mismatchThreshold (level g))%Q ->
  limit <= Rated.closeMatches snap ->
  (isPlaying (Rated.gameState (unguarded snap color snap)) = false
   /\ Rated.closeMatches (unguarded snap color snap) = 0
   /\ Rated.showLossDialog (unguarded snap color snap) = true)
  /\ (Rated.Guarded.gameOver (judge snap color) = false
      /\ Rated.Guarded.newCloseMatches (judge snap color) = 1).
Proof.
  intros g limit d Hb Hd Ht Hl.
  assert (Eb : (Rated.levelStarted snap =? level g / 10) = false)
    by now apply Z.eqb_neq.
  assert (Ee : Qltb d 0.01 = false) by now apply Qltb_ge.
  assert (Em : Qle_bool (Rated.mismatchThreshold (level g)) d = false).
  { destruct (Qle_bool _ _) eqn:K; [|reflexivity].
    apply Qle_bool_iff in K. lra. }
  split.
  - unfold Rated.Unguarded.handleColorSelect. fold g d.
    change 10%Q with (inject_Z 10). rewrite floor_div.
    rewrite Eb, Ee. cbn [negb andb]. fold limit.
    assert (Eg : (Rated.closeMatches snap >=? limit) = true)
      by (apply Z.geb_le; lia).
    rewrite Eg.
    destruct (Rated.localUserData snap) eqn:Eu; rated_fields;
      rewrite ?Eu; rated_fields; repeat split.
  - assert (En : Rated.Guarded.newCloseMatches (judge snap color) = 1).
    { rewrite judge_newCloseMatches, judge_isExactMatch. fold g d.
      now rewrite Eb, Ee. }
    split; [|exact En].
    pose proof (judge_gameOver snap color) as E. cbv zeta in E.
    rewrite E, En, judge_isExactMatch, judge_difference. fold g d.
    rewrite Ee, Em. cbn [negb andb orb].
    destruct (level g <=? 50); reflexivity.
Qed.

(** X27: starting a game in the earlier revisions.  A worker that answers
    starts round 1 with the counters reset and the loading screen off.
    When nothing answers, the loading screen stays on in both revisions;
    when posting the request fails, the revision with the processing flag
    takes the loading screen off again, the one without leaves it on.  In
    no failing case is a run put on. *)
Theorem startGame_of_earlier_revisions c :
  let reply := generateColorsWithWorker 1 1 in
  let guardedStart := Rated.Guarded.startGame generateColorsWithWorker c in
  let unguardedStart := Rated.Unguarded.startGame generateColorsWithWorker c in
  (Rated.isLoading guardedStart = true <-> reply = Rated.NoAnswer)
  /\ (Rated.isLoading unguardedStart = true
      <-> reply = Rated.NoAnswer \/ reply = Rated.PostFailed)
  /\ (forall colors, reply = Rated.Answer colors ->
        Rated.gameState guardedStart = firstRound colors (Rated.gameState c)
        /\ Rated.gameState unguardedStart
           = firstRound colors (Rated.gameState c)
        /\ Rated.closeMatches guardedStart = 0
        /\ Rated.levelStarted guardedStart = 0
        /\ Rated.performanceRating guardedStart = 1%Q
        /\ Rated.comboMultiplier guardedStart = 1%Q
        /\ Rated.showTarget guardedStart = true
        /\ Rated.showLossDialog guardedStart = false)
  /\ ((forall colors, reply <> Rated.Answer colors) ->
      Rated.gameState guardedStart = Rated.gameState c
      /\ Rated.gameState unguardedStart = Rated.gameState c).
Proof.
  cbv zeta. unfold Rated.Guarded.startGame, Rated.Unguarded.startGame.
  destruct (generateColorsWithWorker 1 1) as [colors| |]; rated_fields.
  - repeat split; try discriminate; try tauto.
    + intros [H|H]; discriminate.
    + injection H as <-. reflexivity.
    + injection H as <-. reflexivity.
    + exfalso. now apply (H colors).
    + exfalso. now apply (H colors).
  - repeat split; try discriminate; try tauto.
  - repeat split; try discriminate; try tauto.
Qed.

End Revisions.

(** ** The further properties on concrete runs *)

Open Scope string_scope.

Lemma reachable_played : reachable exampleDifference examplePool played.
Proof.
  exists [StartGame; Tick; Tick; Tick; Tick; ClickSwatch 0]. reflexivity.
Defined.

Lemma exampleDifference_nonneg a b : (0 <= exampleDifference a b)%Q.
Proof.
  unfold exampleDifference.
  destruct (a =? b); [discriminate|].
  destruct ((a =? "#112233") && (b =? "#112234")
            || (a =? "#112234") && (b =? "#112233")); discriminate.
Defined.

Lemma reachable_counters_in_range_witness :
  level (gameState played) = 2 /\ 0 <= score (gameState played)
  /\ 1 <= timeLeft (gameState played) <= 15.
Proof.
  destruct (reachable_counters_in_range exampleDifference examplePool
              played reachable_played) as (_ & Hs & Ht & _).
  split; [reflexivity|]. split; [exact Hs | exact Ht].
Defined.

Lemma reachable_clock_within_phase_witness :
  showTarget played = true /\ timeLeft (gameState played) <= 3.
Proof.
  split; [reflexivity|].
  exact (reachable_clock_within_phase exampleDifference examplePool
           played reachable_played eq_refl).
Defined.

Lemma reachable_combo_half_steps_witness :
  (1 <= comboMultiplier played <= 5)%Q.
Proof.
  exact (proj2 (reachable_combo_half_steps exampleDifference examplePool
                  played reachable_played)).
Defined.

Lemma reachable_threeCloseMatches :
  reachable exampleDifference nearPool threeCloseMatches.
Proof.
  exists (StartGame :: playRound 1 ++ playRound 1 ++ playRound 1
            ++ [Tick; Tick; Tick]).
  reflexivity.
Defined.

Lemma reachable_level10Start :
  reachable exampleDifference nearPool level10Start.
Proof.
  exists (StartGame :: playRound 1 ++ List.concat (repeat (playRound 0) 8)).
  reflexivity.
Defined.

Lemma reachable_closeMatches_within_limit_witness :
  (* level 4 after three close matches: the count has reached the limit *)
  level (gameState threeCloseMatches) = 4
  /\ closeMatches (gameState threeCloseMatches) = 3
  /\ closeMatches (gameState threeCloseMatches)
     <= getCloseMatchLimit (level (gameState threeCloseMatches))
  (* the start of level 10 after one close match *)
  /\ closeMatches (gameState level10Start) = 1
  /\ closeMatches (gameState level10Start) <= 3.
Proof.
  destruct (reachable_closeMatches_within_limit exampleDifference nearPool
              threeCloseMatches reachable_threeCloseMatches
              ltac:(computed)) as ((_ & Hfour) & _).
  assert (L10 : level (gameState level10Start) <= 50)
    by (vm_compute; discriminate).
  destruct (reachable_closeMatches_within_limit exampleDifference nearPool
              level10Start reachable_level10Start
              ltac:(computed)) as (_ & Hten & _).
  split; [computed|]. split; [computed|]. split; [exact Hfour|].
  split; [computed | exact (Hten L10)].
Defined.

Lemma reachable_lostByWrongPick :
  reachable exampleDifference nearPool lostByWrongPick.
Proof. exists (StartGame :: playRound 2). reflexivity. Defined.

Lemma reachable_timedOut : reachable exampleDifference nearPool timedOut.
Proof. exists (StartGame :: repeat Tick 18). reflexivity. Defined.

Lemma reachable_idle_is_cleared_witness :
  (* the round had three options until the wrong pick *)
  options (gameState (level1Awaiting nearPool))
  = ["#112233"; "#112234"; "#000000"]
  /\ showLossDialog lostByWrongPick = true
  /\ targetColor (gameState lostByWrongPick) = EmptyString
  /\ options (gameState lostByWrongPick) = []
  /\ timeLeft (gameState lostByWrongPick) = 3
  (* and until the selection time ran out *)
  /\ showLossDialog timedOut = true
  /\ targetColor (gameState timedOut) = EmptyString
  /\ options (gameState timedOut) = []
  /\ timeLeft (gameState timedOut) = 3.
Proof.
  destruct (reachable_idle_is_cleared exampleDifference nearPool
              lostByWrongPick reachable_lostByWrongPick ltac:(computed))
    as (Hw1 & Hw2 & Hw3).
  destruct (reachable_idle_is_cleared exampleDifference nearPool
              timedOut reachable_timedOut ltac:(computed))
    as (Ht1 & Ht2 & Ht3).
  split; [computed|]. split; [computed|].
  split; [exact Hw1|]. split; [exact Hw2|]. split; [exact Hw3|].
  split; [computed|].
  split; [exact Ht1|]. split; [exact Ht2 | exact Ht3].
Defined.

Lemma reachable_colors_from_pool_witness :
  In (targetColor (gameState played)) (options (gameState played)).
Proof.
  apply (reachable_colors_from_pool exampleDifference examplePool
           (fun target options => In target options) played).
  - intros L colors H. injection H as <-. left. reflexivity.
  - exact reachable_played.
  - reflexivity.
Defined.

Lemma reachable_level1Awaiting :
  reachable exampleDifference nearPool (level1Awaiting nearPool).
Proof. exists [StartGame; Tick; Tick; Tick]. reflexivity. Defined.

Lemma score_and_level_never_decrease_witness :
  (* the first round with its options on screen, a click on the target *)
  let c := level1Awaiting nearPool in
  let c' := step exampleDifference nearPool (ClickSwatch 0) c in
  score (gameState c) = 0
  /\ score (gameState c') = 225
  /\ score (gameState c) <= score (gameState c')
  /\ level (gameState c) = 1
  /\ level (gameState c') = 2
  /\ level (gameState c) <= level (gameState c')
  /\ isPlaying (gameState c') = true
  /\ showTarget c' = true
  /\ timeLeft (gameState c') = 3
  (* a tick in between changes neither *)
  /\ score (gameState c)
     <= score (gameState (step exampleDifference nearPool Tick c)).
Proof.
  intros c c'.
  destruct (score_and_level_never_decrease exampleDifference nearPool
              c (ClickSwatch 0) reachable_level1Awaiting I)
    as (Hs & (Hl & _) & Hnew).
  destruct (Hnew ltac:(computed)) as (Hp & Ht & Hc).
  pose proof (proj1 (score_and_level_never_decrease exampleDifference
                       nearPool c Tick reachable_level1Awaiting I)) as Htick.
  split; [computed|]. split; [computed|]. split; [exact Hs|].
  split; [computed|]. split; [computed|]. split; [exact Hl|].
  split; [exact Hp|]. split; [exact Ht|]. split; [exact Hc | exact Htick].
Defined.

Lemma non_exact_pick_earns_no_accuracy_witness :
  accuracy (scoreSelection exampleDifference (awaiting 3 15 0 1) "#112234") = 0
  /\ total (scoreSelection exampleDifference (awaiting 3 15 0 1) "#112234")
     = 50.
Proof.
  destruct (non_exact_pick_earns_no_accuracy exampleDifference
              (awaiting 3 15 0 1) "#112234" eq_refl) as (Ha & Ht).
  split; [exact Ha|]. rewrite (Ht eq_refl). reflexivity.
Defined.

Lemma selection_points_bounds_witness :
  0 <= total (scoreSelection exampleDifference (awaiting 3 15 0 4.5) "#112233")
  <= 750.
Proof.
  destruct (selection_points_bounds exampleDifference
              (awaiting 3 15 0 4.5) "#112233") as (_ & _ & H).
  - discriminate.
  - discriminate.
  - split; discriminate.
  - exact H.
Defined.

Lemma reachable_score_bound_witness :
  score (gameState played) <= 750.
Proof.
  exact (reachable_score_bound exampleDifference examplePool played
           exampleDifference_nonneg reachable_played).
Defined.

Lemma run_continues_iff_witness :
  isPlaying (gameState (select exampleDifference examplePool "#112234"
                          (awaiting 3 15 2 1))) = true
  /\ isPlaying (gameState (select exampleDifference failingPool "#112233"
                             (awaiting 3 15 2 1))) <> true.
Proof.
  split.
  - apply (run_continues_iff exampleDifference examplePool
             (awaiting 3 15 2 1) "#112234" eq_refl eq_refl).
    split; [right; split; [reflexivity | discriminate] | discriminate].
  - intro H.
    apply (run_continues_iff exampleDifference failingPool
             (awaiting 3 15 2 1) "#112233" eq_refl eq_refl) in H.
    destruct H as (_ & H). now apply H.
Defined.

Lemma idle_ignores_ticks_and_clicks_witness :
  run exampleDifference examplePool [Tick; ClickSwatch 0; Tick]
    initialComponent = initialComponent.
Proof.
  apply (idle_ignores_ticks_and_clicks exampleDifference examplePool
           [Tick; ClickSwatch 0; Tick] initialComponent eq_refl).
  repeat constructor.
Defined.

Lemma target_phase_lasts_its_seconds_witness :
  showTarget (ticks 2 roundStart) = true
  /\ showTarget (ticks 3 roundStart) = false
  /\ timeLeft (gameState (ticks 3 roundStart)) = 15.
Proof.
  destruct (target_phase_lasts_its_seconds roundStart eq_refl eq_refl
              ltac:(discriminate)) as (Hn & H3).
  cbv zeta in Hn, H3.
  split; [|split].
  - rewrite (Hn 2%nat eq_refl). reflexivity.
  - change 3%nat with (Z.to_nat (timeLeft (gameState roundStart))).
    rewrite H3. reflexivity.
  - change 3%nat with (Z.to_nat (timeLeft (gameState roundStart))).
    rewrite H3. reflexivity.
Defined.

Lemma untouched_round_times_out_witness :
  isPlaying (gameState (ticks 17 roundStart)) = true
  /\ isPlaying (gameState (ticks 18 roundStart)) = false
  /\ showLossDialog (ticks 18 roundStart) = true.
Proof.
  destruct (untouched_round_times_out roundStart eq_refl eq_refl eq_refl)
    as (Hn & Hg & Hd).
  cbv zeta in Hn, Hg, Hd.
  split; [|split].
  - destruct (Hn 17%nat) as (H & _); [repeat constructor | exact H].
  - change 18%nat
      with (3 + Z.to_nat (selectionTime
                            (difficulty (level (gameState roundStart)))))%nat.
    rewrite Hg. reflexivity.
  - exact Hd.
Defined.


Lemma higher_rating_is_harder_witness :
  selectionTime (calculateDifficulty 20 1.1)
  <= selectionTime (calculateDifficulty 20 0.9)
  /\ (similarity (calculateDifficulty 20 0.9)
      <= similarity (calculateDifficulty 20 1.1))%Q.
Proof.
  destruct (higher_rating_is_harder 20 0.9 1.1) as (Hs & Ht & _).
  - discriminate.
  - reflexivity.
  - discriminate.
  - split; [exact Ht | exact Hs].
Defined.

Lemma performanceRating_stays_in_band_witness :
  (0.9 <= Rated.performanceRating
            (Rated.Guarded.handleColorSelect fineDifference exampleWorker
               (ratedRound 3 0 0) "#112234" (ratedRound 3 0 0)) <= 1.1)%Q.
Proof.
  apply (performanceRating_stays_in_band fineDifference exampleWorker
           (ratedRound 3 0 0) "#112234").
  split; discriminate.
Defined.

Lemma block_reset_is_reset_at_levels_divisible_by_10_witness :
  Rated.Guarded.newCloseMatches
    (Rated.Guarded.judge fineDifference (ratedRound 10 3 0) "#112234") = 1
  /\ Rated.levelStarted
       (Rated.Guarded.handleColorSelect fineDifference exampleWorker
          (ratedRound 10 3 0) "#112234" (ratedRound 10 3 0)) = 1.
Proof.
  destruct (block_reset_is_reset_at_levels_divisible_by_10 fineDifference
              exampleWorker (ratedRound 10 3 0) "#112234"
              ltac:(discriminate) eq_refl) as (Hn & Hc).
  split; [exact Hn|].
  destruct (Hc eq_refl eq_refl eq_refl
              (Colors.mk "#445566" ["#445566"; "#445567"; "#000000"])
              eq_refl) as (_ & Hl & _).
  exact Hl.
Defined.

Lemma exact_match_advances_in_guarded_revision_witness :
  level (Rated.gameState
           (Rated.Guarded.handleColorSelect fineDifference exampleWorker
              (ratedRound 3 0 0) "#112233" (ratedRound 3 0 0))) = 4.
Proof.
  destruct (exact_match_advances_in_guarded_revision fineDifference
              exampleWorker (ratedRound 3 0 0) "#112233"
              (Colors.mk "#445566" ["#445566"; "#445567"; "#000000"])
              eq_refl eq_refl eq_refl eq_refl) as (_ & _ & H & _).
  exact H.
Defined.

Lemma silent_worker_locks_selection_witness :
  Rated.isProcessingSelection
    (Rated.Guarded.handleColorSelect fineDifference silentWorker
       (ratedRound 3 0 0) "#112233" (ratedRound 3 0 0)) = true.
Proof.
  destruct (silent_worker_locks_selection fineDifference silentWorker
              (ratedRound 3 0 0) "#112233" eq_refl eq_refl eq_refl eq_refl)
    as (_ & H & _).
  exact H.
Defined.

Lemma boundary_pick_differs_between_revisions_witness :
  isPlaying (Rated.gameState
               (Rated.Unguarded.handleColorSelect fineDifference exampleWorker
                  (ratedRound 10 3 0) "#112234" (ratedRound 10 3 0))) = false
  /\ Rated.Guarded.gameOver
       (Rated.Guarded.judge fineDifference (ratedRound 10 3 0) "#112234")
     = false.
Proof.
  destruct (boundary_pick_differs_between_revisions fineDifference
              exampleWorker (ratedRound 10 3 0) "#112234")
    as ((Hu & _) & (Hg & _)).
  - discriminate.
  - discriminate.
  - reflexivity.
  - discriminate.
  - split; [exact Hu | exact Hg].
Defined.
